(** * pwnmap: parsing, normalisation and correlation pipeline

    A shallow embedding of the core of the pwnmap backend
    ([backend/services/ingest.py], [backend/services/wpasec_sync.py],
    [backend/db/queries.py], [backend/db/database.py]) and the properties
    of its specification.

    A Python [str] is modelled by the bytes of its UTF-8 encoding, as a
    [string] with one [ascii] per byte. Character classes and case maps
    are those of ASCII, which is where every character test of the source
    ([c in "0123456789abcdef"], the separators [:], [-], [*]) lives;
    non-ASCII characters are carried through unchanged. *)

From Stdlib Require Import Bool Arith ZArith Lia List Sorted Ascii String SpecFloat.
Import ListNotations.
Open Scope string_scope.
Open Scope nat_scope.

(** ** Python string primitives used by the source *)

Module Py.

(** Truthiness of a [str]: non-empty. *)
Definition truthy (s : string) : bool :=
  match s with EmptyString => false | String _ _ => true end.

Definition code (c : ascii) : nat := nat_of_ascii c.

(** [str.isspace] on one ASCII character: TAB..CR, FS..US, SPACE. *)
Definition is_space (c : ascii) : bool :=
  let n := code c in
  ((9 <=? n) && (n <=? 13)) || ((28 <=? n) && (n <=? 32)).

(** [len(s)]: the number of code points, that is of bytes that are not
    UTF-8 continuation bytes. *)
Definition is_cont (c : ascii) : bool :=
  let n := code c in (128 <=? n) && (n <=? 191).

Fixpoint len (s : string) : nat :=
  match s with
  | EmptyString => 0
  | String c r => if is_cont c then len r else S (len r)
  end.

Definition upper_char (c : ascii) : ascii :=
  let n := code c in
  if (97 <=? n) && (n <=? 122) then ascii_of_nat (n - 32) else c.

Definition lower_char (c : ascii) : ascii :=
  let n := code c in
  if (65 <=? n) && (n <=? 90) then ascii_of_nat (n + 32) else c.

Fixpoint smap (f : ascii -> ascii) (s : string) : string :=
  match s with
  | EmptyString => EmptyString
  | String c r => String (f c) (smap f r)
  end.

Definition upper : string -> string := smap upper_char.
Definition lower : string -> string := smap lower_char.

Fixpoint sfilter (p : ascii -> bool) (s : string) : string :=
  match s with
  | EmptyString => EmptyString
  | String c r => if p c then String c (sfilter p r) else sfilter p r
  end.

Fixpoint sall (p : ascii -> bool) (s : string) : bool :=
  match s with
  | EmptyString => true
  | String c r => p c && sall p r
  end.

(** [c in chars] for a one-character [c]. *)
Fixpoint char_in (chars : string) (c : ascii) : bool :=
  match chars with
  | EmptyString => false
  | String d r => Ascii.eqb c d || char_in r c
  end.

(** [s.lstrip(chars)] / [s.rstrip(chars)] / [s.strip(chars)] with the
    character class given as a predicate. *)
Fixpoint lstrip_by (p : ascii -> bool) (s : string) : string :=
  match s with
  | EmptyString => EmptyString
  | String c r => if p c then lstrip_by p r else s
  end.

Fixpoint rstrip_by (p : ascii -> bool) (s : string) : string :=
  match s with
  | EmptyString => EmptyString
  | String c r =>
      match rstrip_by p r with
      | EmptyString => if p c then EmptyString else String c EmptyString
      | r' => String c r'
      end
  end.

Definition strip_by (p : ascii -> bool) (s : string) : string :=
  rstrip_by p (lstrip_by p s).

(** [s.strip()] *)
Definition strip : string -> string := strip_by is_space.

(** [s.startswith(p)] *)
Fixpoint startswith (p s : string) : bool :=
  match p, s with
  | EmptyString, _ => true
  | String a p', String b s' => Ascii.eqb a b && startswith p' s'
  | String _ _, EmptyString => false
  end.

(** [sub in s] *)
Fixpoint contains (sub s : string) : bool :=
  startswith sub s ||
  match s with
  | EmptyString => false
  | String _ r => contains sub r
  end.

(** [s.split(sep)] for a one-character separator: always at least one
    field. *)
Fixpoint split (sep : ascii) (s : string) : list string :=
  match s with
  | EmptyString => [EmptyString]
  | String c r =>
      if Ascii.eqb c sep then EmptyString :: split sep r
      else match split sep r with
           | [] => [String c EmptyString]
           | f :: fs => String c f :: fs
           end
  end.

(** [s.split(sep, 1)] when [sep in s]: the text before the first
    separator and the text after it; [None] when there is no separator. *)
Fixpoint split1 (sep : ascii) (s : string) : option (string * string) :=
  match s with
  | EmptyString => None
  | String c r =>
      if Ascii.eqb c sep then Some (EmptyString, r)
      else match split1 sep r with
           | Some (a, b) => Some (String c a, b)
           | None => None
           end
  end.

(** [s.replace(c, "")] for a one-character [c]. *)
Definition remove_char (c : ascii) (s : string) : string :=
  sfilter (fun d => negb (Ascii.eqb d c)) s.

(** [sep.join(parts)] *)
Fixpoint join (sep : string) (parts : list string) : string :=
  match parts with
  | [] => EmptyString
  | [p] => p
  | p :: ps => p ++ sep ++ join sep ps
  end.

(** [parts[-1]] of a list; the default is never used on a result of
    [split]. *)
Definition last_field (parts : list string) : string := last parts EmptyString.

(** [parts[i]] *)
Definition field (i : nat) (parts : list string) : string := nth i parts EmptyString.

(** ASCII line boundaries of [str.splitlines]: LF, CR, VT, FF, FS, GS, RS
    (CR LF counts as one boundary). *)
Definition is_linebreak (c : ascii) : bool :=
  let n := code c in
  (n =? 10) || (n =? 13) || (n =? 11) || (n =? 12)
  || (n =? 28) || (n =? 29) || (n =? 30).

(** [s.splitlines()]: [cur] is the current line, reversed. *)
Fixpoint rev_string (acc s : string) : string :=
  match s with
  | EmptyString => acc
  | String c r => rev_string (String c acc) r
  end.

Fixpoint splitlines_aux (after_cr : bool) (cur : string) (s : string)
  : list string :=
  match s with
  | EmptyString =>
      match cur with
      | EmptyString => []
      | _ => [rev_string EmptyString cur]
      end
  | String c r =>
      if after_cr && (code c =? 10) then splitlines_aux false EmptyString r
      else if is_linebreak c then
        rev_string EmptyString cur :: splitlines_aux (code c =? 13) EmptyString r
      else splitlines_aux false (String c cur) r
  end.

Definition splitlines (s : string) : list string :=
  splitlines_aux false EmptyString s.

(** [bytes.fromhex(s)] for a string of hex digits of even length. *)
Definition hex_val (c : ascii) : nat :=
  let n := code c in
  if (48 <=? n) && (n <=? 57) then n - 48
  else if (97 <=? n) && (n <=? 102) then n - 87
  else if (65 <=? n) && (n <=? 70) then n - 55
  else 0.

Fixpoint fromhex (s : string) : string :=
  match s with
  | String a (String b r) =>
      String (ascii_of_nat (16 * hex_val a + hex_val b)) (fromhex r)
  | _ => EmptyString
  end.

(** Length of the well-formed UTF-8 sequence at the head of [s], or [0]
    when the head byte starts none. *)
Definition in_range (lo hi : nat) (c : ascii) : bool :=
  (lo <=? code c) && (code c <=? hi).

Definition utf8_seq_len (s : string) : nat :=
  match s with
  | EmptyString => 0
  | String a r =>
      if in_range 0 127 a then 1
      else match r with
      | EmptyString => 0
      | String b r =>
          if in_range 194 223 a then (if in_range 128 191 b then 2 else 0)
          else match r with
          | EmptyString => 0
          | String c r =>
              let second3 :=
                if in_range 224 224 a then in_range 160 191 b
                else if in_range 237 237 a then in_range 128 159 b
                else in_range 225 239 a && in_range 128 191 b in
              if in_range 224 239 a then
                (if second3 && in_range 128 191 c then 3 else 0)
              else match r with
              | EmptyString => 0
              | String d _ =>
                  let second4 :=
                    if in_range 240 240 a then in_range 144 191 b
                    else if in_range 244 244 a then in_range 128 143 b
                    else in_range 241 243 a && in_range 128 191 b in
                  if second4 && in_range 128 191 c && in_range 128 191 d
                  then 4 else 0
              end
          end
      end
  end.

(** [b.decode("utf-8", errors="ignore")]: well-formed sequences are kept,
    every other byte is dropped. [keep] counts the bytes still to copy of
    the sequence being copied. *)
Fixpoint decode_ignore_aux (keep : nat) (s : string) : string :=
  match s with
  | EmptyString => EmptyString
  | String c r =>
      match keep with
      | S k => String c (decode_ignore_aux k r)
      | 0 =>
          match utf8_seq_len s with
          | 0 => decode_ignore_aux 0 r
          | S k => String c (decode_ignore_aux k r)
          end
      end
  end.

Definition decode_ignore (b : string) : string := decode_ignore_aux 0 b.

(** A [dict] from [str] to [str]; it keeps insertion order, as Python's
    does. *)
Definition dict := list (string * string).

Fixpoint dict_get (k : string) (d : dict) : option string :=
  match d with
  | [] => None
  | (k', v) :: r => if String.eqb k k' then Some v else dict_get k r
  end.

Fixpoint dict_set (k v : string) (d : dict) : dict :=
  match d with
  | [] => [(k, v)]
  | (k', v') :: r =>
      if String.eqb k k' then (k', v) :: r else (k', v') :: dict_set k v r
  end.

(** Exceptions raised by the modelled code. *)
Inductive exn : Type :=
| ValueError (msg : string)
| TypeError (msg : string)
| OverflowError (msg : string)
| RuntimeError (msg : string)
| WpaSecSyncError (msg : string)
| RequestException (msg : string)
| HTTPException (status : nat) (detail : string).

Inductive result (A : Type) : Type :=
| Ok (a : A)
| Raise (e : exn).
Arguments Ok {A} a.
Arguments Raise {A} e.

Definition bind {A B : Type} (x : result A) (k : A -> result B) : result B :=
  match x with
  | Ok a => k a
  | Raise e => Raise e
  end.

Notation "x <- c ;; k" := (bind c (fun x => k))
  (at level 61, c at next level, right associativity).

(** [s.replace(c, t)] for a one-character [c]. *)
Fixpoint replace_char (c : ascii) (t : string) (s : string) : string :=
  match s with
  | EmptyString => EmptyString
  | String d r =>
      if Ascii.eqb d c then t ++ replace_char c t r
      else String d (replace_char c t r)
  end.

(** A [datetime.datetime]; [tzinfo] is the UTC offset of an aware value, in
    seconds. *)
Record datetime : Type := mk_datetime {
  year : nat;
  month : nat;
  day : nat;
  hour : nat;
  minute : nat;
  second : nat;
  microsecond : Z;
  tzinfo : option Z
}.

(** [dt.replace(tzinfo=None)] *)
Definition drop_tz (dt : datetime) : datetime :=
  mk_datetime (year dt) (month dt) (day dt) (hour dt) (minute dt) (second dt)
    (microsecond dt) None.

(** Decimal digits of [n], at least [width] of them (zero-padded). *)
Definition digit_char (n : nat) : ascii := ascii_of_nat (48 + n mod 10).

Fixpoint digits_fuel (fuel n : nat) (acc : string) : string :=
  match fuel with
  | 0 => acc
  | S f =>
      let acc' := String (digit_char n) acc in
      if n <? 10 then acc' else digits_fuel f (n / 10) acc'
  end.

Definition decimal (n : nat) : string := digits_fuel (S n) n EmptyString.

Fixpoint zeros (k : nat) : string :=
  match k with 0 => EmptyString | S k' => String "0" (zeros k') end.

Definition pad (width n : nat) : string :=
  let d := decimal n in zeros (width - String.length d) ++ d.

(** [dt.strftime("%Y-%m-%d")] and [dt.strftime("%H:%M:%S")] *)
Definition strftime_date (dt : datetime) : string :=
  pad 4 (year dt) ++ "-" ++ pad 2 (month dt) ++ "-" ++ pad 2 (day dt).

Definition strftime_time (dt : datetime) : string :=
  pad 2 (hour dt) ++ ":" ++ pad 2 (minute dt) ++ ":" ++ pad 2 (second dt).

(** A decoded JSON document, as [json.loads] returns it, with floats of
    the type [F]. An object keeps its members in document order; of two
    members with one name the later one counts. *)
#[local] Set Warnings "-register-all".
Inductive json_of (F : Type) : Type :=
| JNull
| JBool (b : bool)
| JInt (z : Z)
| JFloat (f : F)
| JStr (s : string)
| JArr (items : list (json_of F))
| JObj (members : list (string * json_of F)).

Arguments JNull {F}.
Arguments JBool {F} b.
Arguments JInt {F} z.
Arguments JFloat {F} f.
Arguments JStr {F} s.
Arguments JArr {F} items.
Arguments JObj {F} members.

(** The library functions whose behaviour the source relies on without
    fixing it: the float type with its conversions, [round(x, 2)] and its
    text, the text of a list and of a dict, and the two timestamp parsers.
    A conversion that raises gives [None]. *)
Class Lib : Type := {
  pyfloat : Type;
  (** [float(n)] for an [int]: [None] is [OverflowError] *)
  float_of_int : Z -> option pyfloat;
  (** [float(s)] for a [str]: [None] is [ValueError] *)
  float_of_str : string -> option pyfloat;
  (** [round(x, 2)] *)
  round2 : pyfloat -> pyfloat;
  (** [datetime.fromisoformat(s)]: [None] is [ValueError] *)
  fromisoformat : string -> option datetime;
  (** [datetime.strptime(s, "%Y-%m-%d %H:%M:%S")]: [None] is [ValueError] *)
  strptime_ymd_hms : string -> option datetime;
  (** [str(x)] for a [float] *)
  str_float : pyfloat -> string;
  (** [str(v)] for a [list] or a [dict] *)
  str_container : json_of pyfloat -> string
}.

(** The decoded documents over the floats of the library. *)
Definition json `{Lib} : Type := json_of pyfloat.

End Py.

(** ** backend/services/wpasec_sync.py: potfile parsing and deduplication *)

Module WpasecSync.

Definition is_hex_upper : ascii -> bool := Py.char_in "0123456789ABCDEF".
Definition is_hex_any : ascii -> bool := Py.char_in "0123456789ABCDEFabcdef".

(** [":".join(s[i:i+2] for i in range(0, 12, 2))] *)
Definition colon_groups (s : string) : string :=
  Py.join ":" (map (fun i => substring i 2 s) [0; 2; 4; 6; 8; 10]).

Definition _hex_to_mac (s : string) : string :=
  let s := Py.upper (Py.strip s) in
  if (Py.len s =? 12) && Py.sall is_hex_upper s
  then colon_groups s
  else "".

(** [re.search(rf"{re.escape(key)}([0-9A-Fa-f]{{12}})", s)]: the leftmost
    place where [key] is followed by twelve hex digits; the result is
    group 1. *)
Definition match_key_here (key s : string) : option string :=
  if Py.startswith key s then
    let g := substring (String.length key) 12 s in
    if (String.length g =? 12) && Py.sall is_hex_any g then Some g else None
  else None.

Fixpoint re_search_key (key s : string) : option string :=
  match match_key_here key s with
  | Some g => Some g
  | None =>
      match s with
      | EmptyString => None
      | String _ r => re_search_key key r
      end
  end.

Definition fallback_keys : list string :=
  ["AP="; "APMAC="; "BSSID="; "AP_MAC="; "BSSID_MAC="].

(** One recognizer per format; each returns [Some] exactly where the
    source executes a [return (bssid, pwd)]. *)

(** 1) short form: MIC/PMKID:APMAC:STAMAC:SSID:PASS *)
Definition pot_short (parts_colon : list string) : option (string * string) :=
  if 5 <=? List.length parts_colon then
    let ap_hex := Py.field 1 parts_colon in
    let pwd := Py.last_field parts_colon in
    let bssid := _hex_to_mac ap_hex in
    if Py.truthy bssid && Py.truthy pwd then Some (bssid, pwd) else None
  else None.

(** 2) plain form: APMAC:STAMAC:SSID:PASS *)
Definition pot_plain (parts_colon : list string) : option (string * string) :=
  if 4 <=? List.length parts_colon then
    let ap_hex := Py.field 0 parts_colon in
    let pwd := Py.last_field parts_colon in
    let bssid := _hex_to_mac ap_hex in
    if Py.truthy bssid && Py.truthy pwd then Some (bssid, pwd) else None
  else None.

(** 3) hash-line form: WPA*01/02*...:PASS *)
Definition pot_hashline (s : string) : option (string * string) :=
  match Py.split1 ":" s with
  | None => None
  | Some (hashpart, pwd) =>
      if Py.truthy pwd && Py.startswith "WPA*" hashpart then
        let seg := Py.split "*" hashpart in
        if 3 <=? List.length seg then
          if String.eqb (Py.field 1 seg) "01" || String.eqb (Py.field 1 seg) "02" then
            let pmkid :=
              if (5 <=? List.length seg)
                 && String.eqb (Py.upper (Py.field 2 seg)) "PMKID"
              then
                let bssid := _hex_to_mac (Py.field 3 seg) in
                if Py.truthy bssid then Some (bssid, pwd) else None
              else None in
            match pmkid with
            | Some r => Some r
            | None =>
                let bssid := _hex_to_mac (Py.field 2 seg) in
                if Py.truthy bssid then Some (bssid, pwd) else None
            end
          else None
        else None
      else None
  end.

(** 4) key=value fallback, one key of the loop *)
Definition pot_fallback_key (s key : string) : option (string * string) :=
  match re_search_key key s with
  | Some g =>
      let bssid := _hex_to_mac g in
      if Py.truthy bssid then
        let pwd := match Py.split1 ":" s with
                   | Some (_, p) => p
                   | None => ""
                   end in
        if Py.truthy pwd then Some (bssid, pwd) else None
      else None
  | None => None
  end.

Fixpoint pot_fallback (s : string) (keys : list string) : option (string * string) :=
  match keys with
  | [] => None
  | key :: rest =>
      match pot_fallback_key s key with
      | Some r => Some r
      | None => pot_fallback s rest
      end
  end.

(** First success wins. *)
Definition orelse {A} (x : option A) (y : option A) : option A :=
  match x with Some _ => x | None => y end.

Definition is_crlf (c : ascii) : bool := Py.char_in (String "013" (String "010" "")) c.

Definition parse_pot_line (line : string) : option (string * string) :=
  let s := Py.rstrip_by is_crlf line in
  if negb (Py.truthy s) || Py.startswith "#" s then None
  else
    let parts_colon := Py.split ":" s in
    orelse (pot_short parts_colon)
      (orelse (pot_plain parts_colon)
         (orelse (pot_hashline s)
            (pot_fallback s fallback_keys))).

(** Six groups of two digits of the class [p], joined by colons. *)
Fixpoint mac_groups (p : ascii -> bool) (n : nat) (s : string) : bool :=
  match n, s with
  | 0, _ => false
  | S n', String a (String b r) =>
      p a && p b &&
      match n', r with
      | 0, EmptyString => true
      | S _, String c r' => Ascii.eqb c ":" && mac_groups p n' r'
      | _, _ => false
      end
  | _, _ => false
  end.

(** [_MAC_RE.fullmatch(s)]: the pattern is case-insensitive. *)
Definition _is_valid_bssid (s : string) : bool := mac_groups is_hex_any 6 s.

(** The dict [best] keeps insertion order, which is the order of the
    returned list. *)
(** Body of the [for bssid, pwd in pairs] loop. *)
Definition dedup_step (best : Py.dict) (pair : string * string) : Py.dict :=
  let '(bssid, pwd) := pair in
  if negb (_is_valid_bssid bssid) then best
  else
    let bssid_u := Py.upper bssid in
    match Py.dict_get bssid_u best with
    | None => Py.dict_set bssid_u pwd best
    | Some cur =>
        if negb (Py.truthy cur) && Py.truthy pwd
        then Py.dict_set bssid_u pwd best
        else best
    end.

Definition _dedup_cracked (pairs : list (string * string)) : list (string * string) :=
  fold_left dedup_step pairs [].

End WpasecSync.

(** ** backend/services/ingest.py: hash-line parsing and vendor lookup *)

Module Ingest.
Import Py.

Definition is_hex_any : ascii -> bool := char_in "0123456789abcdefABCDEF".
Definition is_hex_lower : ascii -> bool := char_in "0123456789abcdef".
Definition is_hex_upper : ascii -> bool := char_in "0123456789ABCDEF".

Definition _is_hex (s : string) : bool :=
  (len s mod 2 =? 0) && sall is_hex_any s.

Definition _decode_essid (essid_field : string) : string :=
  if _is_hex essid_field then decode_ignore (fromhex essid_field)
  else essid_field.

(** The dict returned by [_parse_22000_line]. *)
Record hashline : Type := mk_hashline {
  hl_kind : string;
  hl_bssid : string;
  hl_station : string;
  hl_ssid : string;
  hl_hash_type : string;
  hl_variant : string
}.

Definition _parse_22000_line (line : string) : result hashline :=
  let s := strip line in
  if negb (startswith "WPA*" s) then Raise (ValueError "Not a 22000 WPA hashline")
  else
    let parts := split "*" s in
    if List.length parts <? 3 then Raise (ValueError "Truncated 22000 line")
    else
      let kind_code := field 1 parts in
      if String.eqb kind_code "01" then
        if List.length parts <? 6 then Raise (ValueError "Invalid PMKID 22000 line")
        else Ok (mk_hashline "PMKID" (field 3 parts) (field 4 parts)
                   (_decode_essid (field 5 parts)) "WPA" "PMKID")
      else if String.eqb kind_code "02" then
        if List.length parts <? 6 then Raise (ValueError "Invalid EAPOL 22000 line")
        else Ok (mk_hashline "EAPOL" (field 3 parts) (field 4 parts)
                   (_decode_essid (field 5 parts)) "WPA" "EAPOL")
      else Raise (ValueError ("Unknown 22000 kind code: " ++ kind_code)).

(** ['aabbccddeeff' -> 'AA:BB:CC:DD:EE:FF'] *)
Definition colon_groups (h : string) : string :=
  join ":" (map (fun i => substring i 2 h) [0; 2; 4; 6; 8; 10]).

Definition _fmt_mac_colon (hex12 : string) : string :=
  let h := sfilter is_hex_any hex12 in
  if negb (len h =? 12) then "" else upper (colon_groups h).

(** What one run of the external converter leaves behind: the checks made
    by [convert_pcap_to_hc22000_and_meta] read nothing else. [out_bytes] is
    the content of the [.22000] file. *)
Record tool_run : Type := mk_tool_run {
  pcap_exists : bool;
  returncode : Z;
  proc_stdout : string;
  proc_stderr : string;
  out_exists : bool;
  out_bytes : string
}.

(** The dict returned by [convert_pcap_to_hc22000_and_meta]. *)
Record hc_meta : Type := mk_hc_meta {
  m_ssid : option string;
  m_bssid : option string;
  m_type : string;
  m_variant : string
}.

(** [x or y] on strings. *)
Definition str_or (x y : string) : string := if truthy x then x else y.

(** [x or None] *)
Definition or_none (x : string) : option string :=
  if truthy x then Some x else None.

(** [next((ln for ln in lines if ln.startswith("WPA*")), None)] *)
Definition first_wpa_line (lines : list string) : option string :=
  find (startswith "WPA*") lines.

Definition convert_pcap_to_hc22000_and_meta (pcap_name : string) (run : tool_run)
  : result hc_meta :=
  if negb (pcap_exists run) then Raise (RuntimeError ("pcap not found: " ++ pcap_name))
  else if negb (returncode run =? 0)%Z then
    Raise (RuntimeError ("hcxpcapngtool failed: " ++
             str_or (strip (proc_stderr run))
               (str_or (strip (proc_stdout run)) "unknown error")))
  else if negb (out_exists run) then
    Raise (RuntimeError "Conversion produced no .22000 file")
  else
    let text := strip (decode_ignore (out_bytes run)) in
    if negb (truthy text) then Raise (RuntimeError "No valid WPA* lines in .22000")
    else
      match first_wpa_line (splitlines text) with
      | None => Raise (RuntimeError "No WPA* lines found in .22000")
      | Some first_line =>
          if negb (truthy first_line) then
            Raise (RuntimeError "No WPA* lines found in .22000")
          else
            match _parse_22000_line first_line with
            | Raise e => Raise e
            | Ok meta =>
                let bssid_raw := remove_char "-" (remove_char ":" (hl_bssid meta)) in
                let bssid_hex12 := lower bssid_raw in
                let bssid_hex12 :=
                  if negb ((len bssid_hex12 =? 12) && sall is_hex_lower bssid_hex12)
                  then "" else bssid_hex12 in
                let ssid := hl_ssid meta in
                let variant :=
                  str_or (hl_variant meta)
                    (if String.eqb (hl_kind meta) "PMKID" then "PMKID" else "EAPOL") in
                Ok (mk_hc_meta (or_none ssid)
                      (if truthy bssid_hex12 then Some (_fmt_mac_colon bssid_hex12)
                       else None)
                      "WPA" variant)
            end
      end.

(** [OUILookup._map_by_len]: one dict per prefix length. *)
Record oui_table : Type := mk_oui_table {
  map6 : dict;
  map7 : dict;
  map9 : dict
}.

Definition empty_table : oui_table := mk_oui_table [] [] [].

Definition map_by_len (t : oui_table) (L : nat) : dict :=
  if L =? 9 then map9 t else if L =? 7 then map7 t else map6 t.

(** One iteration of the loop of [OUILookup._load] over the rows that
    [csv.reader] yields. *)
Definition load_row (t : oui_table) (row : list string) : oui_table :=
  match row with
  | [] => t
  | r0 :: _ =>
      if startswith "#" r0 then t
      else if List.length row <? 2 then t
      else
        let prefix := upper (strip r0) in
        let vendor := strip (field 1 row) in
        let L := len prefix in
        if sall is_hex_upper prefix then
          if L =? 6 then mk_oui_table (dict_set prefix vendor (map6 t)) (map7 t) (map9 t)
          else if L =? 7 then mk_oui_table (map6 t) (dict_set prefix vendor (map7 t)) (map9 t)
          else if L =? 9 then mk_oui_table (map6 t) (map7 t) (dict_set prefix vendor (map9 t))
          else t
        else t
  end.

(** [OUILookup._load] on a CSV file that exists; a missing file leaves
    [empty_table]. *)
Definition _load (rows : list (list string)) : oui_table :=
  fold_left load_row rows empty_table.

(** [mac[:L]] *)
Definition prefix_of (L : nat) (mac : string) : string := substring 0 L mac.

(** The loop [for L in (9, 7, 6)]. *)
Fixpoint try_lengths (t : oui_table) (mac : string) (Ls : list nat) : option string :=
  match Ls with
  | [] => None
  | L :: rest =>
      match dict_get (prefix_of L mac) (map_by_len t L) with
      | Some vendor => if truthy vendor then Some vendor else try_lengths t mac rest
      | None => try_lengths t mac rest
      end
  end.

Definition vendor_for_bssid (t : oui_table) (bssid_hex12 : string) : option string :=
  if negb (truthy bssid_hex12) then None
  else
    let mac := sfilter is_hex_upper (upper bssid_hex12) in
    if len mac <? 9 then None
    else try_lengths t mac [9; 7; 6].

Definition lookup_vendor_from_csv (t : oui_table) (bssid : option string) : option string :=
  match bssid with
  | None => None
  | Some bssid =>
      if negb (truthy bssid) then None
      else
        let cleaned := upper (strip (remove_char "-" (remove_char ":" bssid))) in
        if negb (len cleaned =? 12) || negb (sall is_hex_upper cleaned) then None
        else vendor_for_bssid t cleaned
  end.

(** *** Location reading *)

Section Gps.
Context `{Lib}.

(** [data[k]] / [data.get(k)] on a decoded object: the last member named
    [k]. *)
Fixpoint obj_get (k : string) (members : list (string * json)) : option json :=
  match members with
  | [] => None
  | (k', v) :: r =>
      match obj_get k r with
      | Some v' => Some v'
      | None => if String.eqb k k' then Some v else None
      end
  end.

(** [k in data]: a key test on an object, an element test on an array, a
    substring test on a string; it raises on the other values. *)
Definition has_key (k : string) (data : json) : result bool :=
  match data with
  | JObj members =>
      Ok (match obj_get k members with Some _ => true | None => false end)
  | JArr items =>
      Ok (existsb (fun v => match v with JStr s => String.eqb s k | _ => false end)
            items)
  | JStr s => Ok (contains k s)
  | _ => Raise (TypeError "argument is not iterable")
  end.

(** [data[k]] once [k in data] holds. *)
Definition get_item (k : string) (data : json) : result json :=
  match data with
  | JObj members =>
      match obj_get k members with
      | Some v => Ok v
      | None => Raise (ValueError "KeyError")
      end
  | _ => Raise (TypeError "indices must be integers")
  end.

(** [data.get(k)], with [None] of Python as [JNull]. *)
Definition get_or_null (k : string) (data : json) : result json :=
  match data with
  | JObj members =>
      Ok (match obj_get k members with Some v => v | None => JNull end)
  | _ => Raise (TypeError "no attribute get")
  end.

(** [float(v)] *)
Definition py_float (v : json) : result pyfloat :=
  match v with
  | JFloat f => Ok f
  | JInt z =>
      match float_of_int z with
      | Some f => Ok f
      | None => Raise (OverflowError "int too large to convert to float")
      end
  | JBool b =>
      match float_of_int (if b then 1%Z else 0%Z) with
      | Some f => Ok f
      | None => Raise (OverflowError "int too large to convert to float")
      end
  | JStr s =>
      match float_of_str s with
      | Some f => Ok f
      | None => Raise (ValueError "could not convert string to float")
      end
  | _ => Raise (TypeError "float() argument must be a string or a real number")
  end.

(** [str(n)] for an [int]. *)
Definition int_str (z : Z) : string :=
  match z with
  | Z0 => "0"
  | Zpos p => decimal (Pos.to_nat p)
  | Zneg p => "-" ++ decimal (Pos.to_nat p)
  end.

(** [str(v)] of a decoded value: a string is its own text, an [int] its
    decimal digits, the booleans and null are [True], [False] and [None];
    the text of a float, of a list and of a dict is the library's. *)
Definition updated_text (v : json) : string :=
  match v with
  | JStr s => s
  | JInt z => int_str z
  | JBool b => if b then "True" else "False"
  | JNull => "None"
  | JFloat f => str_float f
  | JArr _ | JObj _ => str_container v
  end.

Definition _parse_updated_datetime (updated : string) : result datetime :=
  let s := strip updated in
  match fromisoformat (replace_char "Z" "+00:00" s) with
  | Some dt => Ok (drop_tz dt)
  | None =>
      match strptime_ymd_hms s with
      | Some dt => Ok dt
      | None => Raise (ValueError ("Unrecognized Updated datetime format: " ++ updated))
      end
  end.

(** The dict returned by [parse_gps_json]. *)
Record gps_info : Type := mk_gps_info {
  gi_datetime : datetime;
  gi_latitude : pyfloat;
  gi_longitude : pyfloat;
  gi_altitude : option pyfloat;
  gi_accuracy : option pyfloat
}.

Definition is_null (v : json) : bool :=
  match v with JNull => true | _ => false end.

(** [decoded] is the outcome of [json.loads(raw.decode("utf-8"))], [None]
    when it raises. *)
Definition parse_gps_json (decoded : option json) : result gps_info :=
  match decoded with
  | None => Raise (ValueError "Invalid JSON")
  | Some data =>
      has_u <- has_key "Updated" data ;;
      has_la <- (if has_u then has_key "Latitude" data else Ok false) ;;
      has_lo <- (if has_la then has_key "Longitude" data else Ok false) ;;
      if negb has_lo then
        Raise (ValueError "Missing one of required keys: Updated, Latitude, Longitude")
      else
        u <- get_item "Updated" data ;;
        dt <- _parse_updated_datetime (updated_text u) ;;
        la <- get_item "Latitude" data ;;
        lat <- py_float la ;;
        lo <- get_item "Longitude" data ;;
        lon <- py_float lo ;;
        a <- get_or_null "Altitude" data ;;
        alt <- (if is_null a then Ok None
                else f <- py_float a ;; Ok (Some (round2 f))) ;;
        c <- get_or_null "Accuracy" data ;;
        acc <- (if is_null c then Ok None
                else f <- py_float c ;; Ok (Some f)) ;;
        Ok (mk_gps_info dt lat lon alt acc)
  end.

End Gps.

End Ingest.

(** ** backend/services/vendors.py *)

Module Vendors.
Import Py.

(** [sorted(mapping.keys(), key=len, reverse=True)]: a stable sort, longest
    keys first. *)
Fixpoint insert_by_len (k : string) (ks : list string) : list string :=
  match ks with
  | [] => [k]
  | k' :: r => if len k' <=? len k then k :: ks else k' :: insert_by_len k r
  end.

Definition sorted_by_len_desc (ks : list string) : list string :=
  fold_right insert_by_len [] ks.

(** The loop of [_load_vendors]. *)
Definition load_row (mapping : dict) (row : list string) : dict :=
  if List.length row <? 2 then mapping
  else
    let prefix := remove_char "-" (remove_char ":" (upper (strip (field 0 row)))) in
    dict_set prefix (strip (field 1 row)) mapping.

Definition _load_vendors (rows : list (list string)) : dict * list string :=
  let mapping := fold_left load_row rows [] in
  (mapping, sorted_by_len_desc (map fst mapping)).

Definition vendor_from_bssid (loaded : dict * list string) (bssid : string) : option string :=
  let '(mapping, ordered) := loaded in
  let base := upper (remove_char "-" (remove_char ":" bssid)) in
  match find (fun k => startswith k base) ordered with
  | Some k => dict_get k mapping
  | None => None
  end.

End Vendors.

(** ** backend/db/database.py and backend/db/queries.py: the [networks]
    table *)

Module Queries.
Import Py.

Section Table.
Context `{Lib}.

(** One row of [networks], columns as in [SCHEMA_SQL]; [None] is SQL NULL. *)
Record network : Type := mk_network {
  id : Z;
  ssid : option string;
  bssid : option string;
  vendor : option string;
  date : option string;
  time : option string;
  hash_type : option string;
  hash_variant : option string;
  lat : option pyfloat;
  lon : option pyfloat;
  alt : option pyfloat;
  accuracy : option pyfloat;
  password : option string
}.

(** The table: its rows in rowid order and the [AUTOINCREMENT] counter,
    the largest rowid ever handed out, to a stored row or to an ignored
    one. Rowids are taken to stay below the 64-bit limit. *)
Record db : Type := mk_db {
  rows : list network;
  seq : Z
}.

Definition empty_db : db := mk_db [] 0.

(** SQL [a = b] on nullable text used as a condition: NULL on either side
    is not true. *)
Definition sql_eq (a b : option string) : bool :=
  match a, b with
  | Some x, Some y => String.eqb x y
  | _, _ => false
  end.

(** [UNIQUE(bssid, date, time)]: two rows collide when the three columns
    are equal and none is NULL. *)
Definition collides (r r' : network) : bool :=
  sql_eq (bssid r) (bssid r') && sql_eq (date r) (date r')
  && sql_eq (time r) (time r').

Definition with_id (i : Z) (r : network) : network :=
  mk_network i (ssid r) (bssid r) (vendor r) (date r) (time r) (hash_type r)
    (hash_variant r) (lat r) (lon r) (alt r) (accuracy r) (password r).

(** [INSERT OR IGNORE INTO networks (...) VALUES (...)] on a fresh
    connection, with the value of [cur.lastrowid] afterwards: the new rowid,
    or 0 when the row was ignored. The rowid is taken from the
    [AUTOINCREMENT] counter before the constraint is checked, so an ignored
    insert stores no row and still leaves the counter advanced. The [id]
    of [r] is not used. *)
Definition insert_or_ignore (d : db) (r : network) : db * Z :=
  let i := (seq d + 1)%Z in
  if existsb (collides r) (rows d) then (mk_db (rows d) i, 0%Z)
  else (mk_db (rows d ++ [with_id i r]) i, i).

(** [SELECT id FROM networks WHERE bssid = ? AND date = ? AND time = ?],
    [fetchone()]. *)
Definition select_id (d : db) (b dt tm : option string) : option Z :=
  match find (fun row => sql_eq (bssid row) b && sql_eq (date row) dt
                         && sql_eq (time row) tm) (rows d) with
  | Some row => Some (id row)
  | None => None
  end.

(** [insert_network_record]: the table afterwards and the returned id. *)
Definition insert_network_record (d : db) (r : network) : db * Z :=
  let '(d', new_id) := insert_or_ignore d r in
  if (new_id =? 0)%Z && (match bssid r with Some _ => true | None => false end)
  then
    match select_id d' (bssid r) (date r) (time r) with
    | Some i => (d', i)
    | None => (d', (-1)%Z)
    end
  else (d', new_id).

(** SQL [TRIM(x)]: removes spaces at both ends. *)
Definition sql_trim (s : string) : string :=
  strip_by (fun c => Ascii.eqb c " ") s.

(** [REPLACE(REPLACE(UPPER(TRIM(x)), ':', ''), '-', '')] *)
Definition sql_norm_bssid (s : string) : string :=
  remove_char "-" (remove_char ":" (upper (sql_trim s))).

(** [password IS NULL OR TRIM(password) = ''] *)
Definition password_blank (p : option string) : bool :=
  match p with
  | None => true
  | Some s => String.eqb (sql_trim s) ""
  end.

(** The [WHERE] clause of the [UPDATE]. *)
Definition update_matches (b : string) (row : network) : bool :=
  match bssid row with
  | Some rb => String.eqb (sql_norm_bssid rb) (sql_norm_bssid b)
  | None => false
  end
  && password_blank (password row).

Definition set_password (pwd : string) (r : network) : network :=
  mk_network (id r) (ssid r) (bssid r) (vendor r) (date r) (time r)
    (hash_type r) (hash_variant r) (lat r) (lon r) (alt r) (accuracy r)
    (Some pwd).

(** One [UPDATE networks SET password = ? WHERE ...]: the rows afterwards
    and [cur.rowcount]. *)
Definition update_password (rs : list network) (b pwd : string)
  : list network * nat :=
  (map (fun row => if update_matches b row then set_password pwd row else row) rs,
   List.length (filter (update_matches b) rs)).

(** Body of the loop of [bulk_update_passwords]. *)
Definition bulk_step (st : list network * nat) (item : string * string)
  : list network * nat :=
  let '(rs, updated) := st in
  let '(b, pwd) := item in
  if negb (truthy b) || negb (truthy pwd) then (rs, updated)
  else
    let '(rs', n) := update_password rs b pwd in
    (rs', updated + n).

Definition bulk_update_passwords (d : db) (items : list (string * string))
  : db * nat :=
  match items with
  | [] => (d, 0)
  | _ =>
      let '(rs, updated) := fold_left bulk_step items (rows d, 0) in
      (mk_db rs (seq d), updated)
  end.

End Table.
End Queries.

(** ** backend/routers/upload.py *)

Module Upload.
Import Py.

(** [BSSID_RE.fullmatch(x)]: six groups of two hex digits, each but the
    last followed by [:] or [-]. *)
Fixpoint bssid_re (n : nat) (s : string) : bool :=
  match n, s with
  | 0, _ => false
  | S n', String a (String b r) =>
      Ingest.is_hex_any a && Ingest.is_hex_any b &&
      match n', r with
      | 0, EmptyString => true
      | S _, String c r' => char_in ":-" c && bssid_re n' r'
      | _, _ => false
      end
  | _, _ => false
  end.

Definition norm_bssid (x : option string) : option string :=
  match x with
  | None => None
  | Some x =>
      if negb (truthy x) then None
      else
        let x := replace_char "-" ":" (upper (strip x)) in
        if bssid_re 6 x then Some x else None
  end.

Section Handler.
Context `{Lib}.

(** The JSON body of the response. *)
Record response : Type := mk_response {
  resp_ssid : string;
  resp_record_id : Z;
  resp_hash_meta_error : bool
}.

(** [upload_pair] from the point where the uploaded name has been turned
    into [ssid_from_name]: [gps] is the decoded location document, [run]
    what the converter leaves behind for the stored capture. The result is
    the table afterwards with the response, or the exception that leaves
    the handler. *)
Definition upload_pair (ssid_from_name : string) (gps : option json)
    (pcap_name : string) (run : Ingest.tool_run) (t : Ingest.oui_table)
    (d : Queries.db) : result (Queries.db * response) :=
  match Ingest.parse_gps_json gps with
  | Raise (ValueError e) => Raise (HTTPException 400 ("Invalid gps json: " ++ e))
  | Raise e => Raise e
  | Ok gps_info =>
      let conv := Ingest.convert_pcap_to_hc22000_and_meta pcap_name run in
      match conv with
      | Raise (RuntimeError _) | Ok _ =>
          let hc_meta := match conv with Ok m => Some m | Raise _ => None end in
          let meta_ssid :=
            match hc_meta with
            | Some m =>
                match Ingest.m_ssid m with
                | Some x => if truthy x then x else ssid_from_name
                | None => ssid_from_name
                end
            | None => ssid_from_name
            end in
          let hash_type := option_map Ingest.m_type hc_meta in
          let hash_variant := option_map Ingest.m_variant hc_meta in
          let raw_bssid :=
            match hc_meta with Some m => Ingest.m_bssid m | None => None end in
          let bssid := norm_bssid raw_bssid in
          let vendor :=
            match bssid with
            | Some b => if truthy b then Ingest.lookup_vendor_from_csv t bssid else None
            | None => None
            end in
          let dt := Ingest.gi_datetime gps_info in
          let '(d', record_id) :=
            Queries.insert_network_record d
              (Queries.mk_network 0 (Some meta_ssid) bssid vendor
                 (Some (strftime_date dt)) (Some (strftime_time dt))
                 hash_type hash_variant
                 (Some (Ingest.gi_latitude gps_info))
                 (Some (Ingest.gi_longitude gps_info))
                 (Ingest.gi_altitude gps_info) (Ingest.gi_accuracy gps_info)
                 None) in
          Ok (d', mk_response meta_ssid record_id
                    (match hc_meta with None => true | Some _ => false end))
      | Raise e => Raise e
      end
  end.

End Handler.
End Upload.

(** ** backend/services/wpasec_sync.py: download and sync *)

Module Sync.
Import Py.

(** One [requests.get]: the URL and the [key] cookie, if any. *)
Record request : Type := mk_request {
  req_url : string;
  req_cookie : option string
}.

(** The network: what a request returns given the requests made before
    it; [Some text] is the body of a response that passes
    [raise_for_status], [None] an attempt that raises. *)
Definition network := list request -> request -> option string.

(** [_http_get_with_retry]: [attempts] counts the attempts left. The trace
    of requests is threaded through. *)
Fixpoint _http_get_with_retry (net : network) (url : string) (attempts : nat)
    (trace : list request) : result string * list request :=
  match attempts with
  | 0 => (Raise (WpaSecSyncError ("HTTP GET failed for " ++ url)), trace)
  | S n =>
      let r := mk_request url None in
      match net trace r with
      | Some text => (Ok text, (trace ++ [r])%list)
      | None => _http_get_with_retry net url n ((trace ++ [r])%list)
      end
  end.

Definition retries : nat := 3.

(** [_parse_text] *)
Fixpoint parse_lines (lines : list string) : list (string * string) :=
  match lines with
  | [] => []
  | line :: rest =>
      match WpasecSync.parse_pot_line line with
      | Some parsed => parsed :: parse_lines rest
      | None => parse_lines rest
      end
  end.

Definition _parse_text (text : string) : list (string * string) :=
  WpasecSync._dedup_cracked (parse_lines (splitlines text)).

Definition looks_html (text : string) : bool :=
  contains "<html" (lower text) || contains "</html>" (lower text).

Definition is_nil {A} (l : list A) : bool :=
  match l with [] => true | _ => false end.

Definition str_or (x y : string) : string := if truthy x then x else y.

(** [download_cracked_potfile]: the pairs or the exception, with the
    requests made. *)
Definition base_url (wpasec_url : string) : string :=
  rstrip_by (fun c => Ascii.eqb c "/")
    (str_or wpasec_url "https://wpa-sec.stanev.org").

Definition url_qs (wpasec_url key : string) : string :=
  base_url wpasec_url ++ "/?api&dl=1&key=" ++ key.

Definition download_cracked_potfile (wpasec_url wpasec_key : string)
    (net : network) : result (list (string * string)) * list request :=
  let base := base_url wpasec_url in
  let key := wpasec_key in
  if negb (truthy key) then
    (Raise (WpaSecSyncError "PWNMAP_WPASEC_KEY non configurata in settings.wpasec_key"),
     [])
  else
    match _http_get_with_retry net (url_qs wpasec_url key) retries [] with
    | (Raise e, trace) => (Raise e, trace)
    | (Ok text, trace) =>
        let pairs := _parse_text text in
        if is_nil pairs && (looks_html text || (len text <? 10)) then
          let rc := mk_request (base ++ "/?api&dl=1") (Some key) in
          match net trace rc with
          | None => (Raise (RequestException "fallback request failed"), (trace ++ [rc])%list)
          | Some text_c => (Ok (_parse_text text_c), (trace ++ [rc])%list)
          end
        else (Ok pairs, trace)
    end.

(** A request that passes the credential as a cookie. *)
Definition is_cookie_request (r : request) : bool :=
  match req_cookie r with Some _ => true | None => false end.

Section SyncNow.
Context `{Lib}.

(** The dict returned by [sync_now]. *)
Record stats : Type := mk_stats {
  cracked_pairs_total : nat;
  rows_updated : nat;
  cracked_pairs : list (string * string)
}.

(** [sync_now] once the pairs are there: the table afterwards and the
    statistics. *)
Definition sync_pairs (d : Queries.db) (pairs : list (string * string))
  : Queries.db * stats :=
  let '(d', n) := Queries.bulk_update_passwords d pairs in
  (d', mk_stats (List.length pairs) n pairs).

Definition sync_now (wpasec_url wpasec_key : string) (net : network)
    (d : Queries.db) : result (Queries.db * stats) :=
  match fst (download_cracked_potfile wpasec_url wpasec_key net) with
  | Raise e => Raise e
  | Ok pairs => Ok (sync_pairs d pairs)
  end.

End SyncNow.
End Sync.

(** ** A reference instance of the library interface

    IEEE binary64 values as [spec_float], decimal text converted with
    correct rounding, and the two timestamp formats in their documented
    form: [YYYY-MM-DD[*HH[:MM[:SS[.fff[fff]]]][+HH:MM[:SS]]]] for
    [fromisoformat], one- or two-digit fields after a four-digit year for
    [strptime]. *)

Module RefLib.
Import Py.

Definition prec : Z := 53.
Definition emax : Z := 1024.

Definition is_digit (c : ascii) : bool := in_range 48 57 c.
Definition digit_val (c : ascii) : Z := Z.of_nat (code c - 48).

(** The float nearest to [m * 10^e], ties to even. *)
Definition dec_to_float (sx : bool) (m : Z) (e : Z) : spec_float :=
  match m with
  | Zpos pm =>
      if (0 <=? e)%Z then
        match (m * 10 ^ e)%Z with
        | Zpos q => binary_round prec emax sx q 0
        | _ => S754_zero sx
        end
      else
        let '(q, e', l) := SFdiv_core_binary prec emax m 0 (10 ^ (- e))%Z 0 in
        binary_round_aux prec emax sx q e' l
  | _ => S754_zero sx
  end.

Definition ref_float_of_int (z : Z) : option spec_float :=
  match binary_normalize prec emax z 0 false with
  | S754_infinity _ => None
  | f => Some f
  end.

(** [digit (["_"] digit)*] after a first digit: the value, the number of
    digits and the rest. *)
Fixpoint digitpart_aux (acc : Z) (n : nat) (s : string) : Z * nat * string :=
  match s with
  | EmptyString => (acc, n, s)
  | String c r =>
      if is_digit c then digitpart_aux (10 * acc + digit_val c)%Z (S n) r
      else if Ascii.eqb c "_" then
        match r with
        | String d r' =>
            if is_digit d then digitpart_aux (10 * acc + digit_val d)%Z (S n) r'
            else (acc, n, s)
        | EmptyString => (acc, n, s)
        end
      else (acc, n, s)
  end.

Definition digitpart (s : string) : option (Z * nat * string) :=
  match s with
  | String c r => if is_digit c then Some (digitpart_aux (digit_val c) 1 r) else None
  | EmptyString => None
  end.

Definition take_sign (s : string) : bool * string :=
  match s with
  | String c r =>
      if Ascii.eqb c "-" then (true, r)
      else if Ascii.eqb c "+" then (false, r)
      else (false, s)
  | EmptyString => (false, s)
  end.

(** [exponent ::= ("e" | "E") [sign] digitpart], then the end. *)
Definition exponent_part (s : string) : option Z :=
  match s with
  | EmptyString => Some 0%Z
  | String c r =>
      if Ascii.eqb c "e" || Ascii.eqb c "E" then
        let '(neg, r') := take_sign r in
        match digitpart r' with
        | Some (v, _, EmptyString) => Some (if neg then (- v)%Z else v)
        | _ => None
        end
      else None
  end.

(** Very large and very small magnitudes go to infinity and zero without
    the power of ten being built. *)
Definition scaled (sx : bool) (m : Z) (ndigits : nat) (e : Z) : spec_float :=
  if (m =? 0)%Z then S754_zero sx
  else if (400 <? e)%Z then S754_infinity sx
  else if (Z.of_nat ndigits + e <? -400)%Z then S754_zero sx
  else dec_to_float sx m e.

(** [floatnumber ::= ([digitpart] "." digitpart | digitpart ["."]) [exponent]] *)
Definition floatnumber (sx : bool) (s : string) : option spec_float :=
  match digitpart s with
  | Some (ip, ni, rest) =>
      match rest with
      | String "." rest' =>
          match digitpart rest' with
          | Some (_, _, _) =>
              let '(m, n, rest'') := digitpart_aux ip ni rest' in
              match exponent_part rest'' with
              | Some ex => Some (scaled sx m n (ex - Z.of_nat (n - ni)))
              | None => None
              end
          | None =>
              match exponent_part rest' with
              | Some ex => Some (scaled sx ip ni ex)
              | None => None
              end
          end
      | _ =>
          match exponent_part rest with
          | Some ex => Some (scaled sx ip ni ex)
          | None => None
          end
      end
  | None =>
      match s with
      | String "." rest' =>
          match digitpart rest' with
          | Some (m, n, rest'') =>
              match exponent_part rest'' with
              | Some ex => Some (scaled sx m n (ex - Z.of_nat n))
              | None => None
              end
          | None => None
          end
      | _ => None
      end
  end.

Definition ref_float_of_str (s : string) : option spec_float :=
  let '(sx, body) := take_sign (strip s) in
  let low := lower body in
  if String.eqb low "inf" || String.eqb low "infinity" then Some (S754_infinity sx)
  else if String.eqb low "nan" then Some S754_nan
  else floatnumber sx body.

(** [round(x, 2)]: the float nearest to the decimal with two places that
    is nearest to [x], ties to even. *)
Definition ref_round2 (x : spec_float) : spec_float :=
  match x with
  | S754_finite sx m e =>
      if (0 <=? e)%Z then x
      else
        let den := (2 ^ (- e))%Z in
        let num := (Zpos m * 100)%Z in
        let q := (num / den)%Z in
        let r := (num mod den)%Z in
        let n :=
          match (2 * r ?= den)%Z with
          | Lt => q
          | Gt => (q + 1)%Z
          | Eq => if Z.even q then q else (q + 1)%Z
          end in
        dec_to_float sx n (-2)
  | _ => x
  end.

(** Fixed-width decimal fields. *)
Fixpoint all_digits (s : string) : bool :=
  match s with
  | EmptyString => true
  | String c r => is_digit c && all_digits r
  end.

Fixpoint number_of (acc : nat) (s : string) : nat :=
  match s with
  | EmptyString => acc
  | String c r => number_of (10 * acc + (code c - 48)) r
  end.

(** The number written by the [n] digits at position [i], if they are
    digits. *)
Definition digits_at (i n : nat) (s : string) : option nat :=
  let f := substring i n s in
  if (String.length f =? n) && all_digits f then Some (number_of 0 f) else None.

Fixpoint znumber_of (acc : Z) (s : string) : Z :=
  match s with
  | EmptyString => acc
  | String c r => znumber_of (10 * acc + digit_val c)%Z r
  end.

Definition zdigits_at (i n : nat) (s : string) : option Z :=
  let f := substring i n s in
  if (String.length f =? n) && all_digits f then Some (znumber_of 0%Z f) else None.

Definition char_at (i : nat) (s : string) : option ascii := String.get i s.

Definition is_char (c : ascii) (o : option ascii) : bool :=
  match o with Some d => Ascii.eqb d c | None => false end.

(** A year has four digits here, so it is at most 9999. *)
Definition is_leap (y : nat) : bool :=
  ((y mod 4 =? 0) && negb (y mod 100 =? 0)) || (y mod 400 =? 0).

Definition days_in_month (y m : nat) : nat :=
  match m with
  | 2 => if is_leap y then 29 else 28
  | 4 | 6 | 9 | 11 => 30
  | _ => 31
  end.

Definition valid_date (y m d : nat) : bool :=
  (1 <=? y) && (1 <=? m) && (m <=? 12)
  && (1 <=? d) && (d <=? days_in_month y m).

Definition valid_time (h mi sec : nat) : bool :=
  (h <? 24) && (mi <? 60) && (sec <? 60).

(** [HH[:MM[:SS[.fff[fff]]]]] *)
Definition iso_time (t : string) : option (nat * nat * nat * Z) :=
  let n := String.length t in
  match digits_at 0 2 t with
  | None => None
  | Some h =>
      if n =? 2 then Some (h, 0, 0, 0%Z)
      else if negb (is_char ":" (char_at 2 t)) then None
      else match digits_at 3 2 t with
      | None => None
      | Some mi =>
          if n =? 5 then Some (h, mi, 0, 0%Z)
          else if negb (is_char ":" (char_at 5 t)) then None
          else match digits_at 6 2 t with
          | None => None
          | Some sec =>
              if n =? 8 then Some (h, mi, sec, 0%Z)
              else if negb (is_char "." (char_at 8 t)) then None
              else if n =? 12 then
                option_map (fun us => (h, mi, sec, (1000 * us)%Z)) (zdigits_at 9 3 t)
              else if n =? 15 then
                option_map (fun us => (h, mi, sec, us)) (zdigits_at 9 6 t)
              else None
          end
      end
  end.

(** [HH:MM[:SS]] of a UTC offset, in seconds. *)
Definition iso_offset (t : string) : option Z :=
  match iso_time t with
  | Some (h, mi, sec, _) =>
      if (5 <=? String.length t) && (String.length t <=? 8) && valid_time h mi sec
      then Some (Z.of_nat (3600 * h + 60 * mi + sec))
      else None
  | _ => None
  end.

(** Position of the first [+] or [-]. *)
Fixpoint sign_pos (s : string) : option (nat * bool) :=
  match s with
  | EmptyString => None
  | String c r =>
      if Ascii.eqb c "+" then Some (0, false)
      else if Ascii.eqb c "-" then Some (0, true)
      else option_map (fun '(i, neg) => (S i, neg)) (sign_pos r)
  end.

Definition ref_fromisoformat (s : string) : option datetime :=
  match digits_at 0 4 s, digits_at 5 2 s, digits_at 8 2 s with
  | Some y, Some m, Some d =>
      if negb (is_char "-" (char_at 4 s) && is_char "-" (char_at 7 s)
               && valid_date y m d) then None
      else if String.length s =? 10 then Some (mk_datetime y m d 0 0 0 0%Z None)
      else
        let tstr := substring 11 (String.length s - 11) s in
        let '(tpart, tz) :=
          match sign_pos tstr with
          | Some (i, neg) =>
              (substring 0 i tstr,
               Some (neg, substring (S i) (String.length tstr - S i) tstr))
          | None => (tstr, None)
          end in
        match iso_time tpart with
        | Some (h, mi, sec, us) =>
            if negb (valid_time h mi sec) then None
            else
              match tz with
              | None => Some (mk_datetime y m d h mi sec us None)
              | Some (neg, off) =>
                  match iso_offset off with
                  | Some o =>
                      Some (mk_datetime y m d h mi sec us
                              (Some (if neg then (- o)%Z else o)))
                  | None => None
                  end
              end
        | None => None
        end
  | _, _, _ => None
  end.

(** A field of one or two digits that ends at the separator [sep]: its
    value and the text after the separator. *)
Definition short_field (sep : ascii) (s : string) : option (nat * string) :=
  match s with
  | String a (String b r) =>
      if is_digit a && Ascii.eqb b sep then Some (code a - 48, r)
      else
        match r with
        | String c r' =>
            if is_digit a && is_digit b && Ascii.eqb c sep
            then Some (10 * (code a - 48) + (code b - 48), r')
            else None
        | EmptyString => None
        end
  | _ => None
  end.

(** The last field: one or two digits, then the end. *)
Definition final_field (s : string) : option nat :=
  if ((String.length s =? 1) || (String.length s =? 2)) && all_digits s
  then Some (number_of 0 s) else None.

(** [datetime.strptime(s, "%Y-%m-%d %H:%M:%S")]: the blank of the format
    stands for any run of white space. *)
Definition ref_strptime (s : string) : option datetime :=
  match digits_at 0 4 s with
  | Some y =>
      if negb (is_char "-" (char_at 4 s)) then None
      else
        match short_field "-" (substring 5 (String.length s - 5) s) with
        | Some (m, rest) =>
            let '(d_opt, rest') :=
              match rest with
              | String a (String b r) =>
                  if is_digit a && is_digit b then (Some (number_of 0 (String a (String b ""))), r)
                  else if (Ascii.eqb a " " && is_digit b) then (Some (code b - 48), r)
                  else if is_digit a then (Some (code a - 48), String b r)
                  else (None, rest)
              | _ => (None, rest)
              end in
            match d_opt with
            | Some d =>
                match rest' with
                | String w _ =>
                    if negb (is_space w) then None
                    else
                      match short_field ":" (lstrip_by is_space rest') with
                      | Some (h, r1) =>
                          match short_field ":" r1 with
                          | Some (mi, r2) =>
                              match final_field r2 with
                              | Some sec =>
                                  if valid_date y m d && valid_time h mi sec
                                  then Some (mk_datetime y m d h mi sec 0%Z None)
                                  else None
                              | None => None
                              end
                          | None => None
                          end
                      | None => None
                      end
                | EmptyString => None
                end
            | None => None
            end
        | None => None
        end
  | None => None
  end.

(** *** The text of a float

    [repr] of a float is the shortest digit string that reads back as the
    float, the nearest one when there are several, in fixed notation when
    the decimal point falls within (-4, 16] and in exponent notation
    otherwise. *)

(** [floor(num / den / 10^q)] *)
Definition scaled_floor (num den q : Z) : Z :=
  if (0 <=? q)%Z then (num / (den * 10 ^ q))%Z else (num * 10 ^ (- q) / den)%Z.

Fixpoint ndigits_fuel (fuel : nat) (n : Z) : Z :=
  match fuel with
  | 0 => 1%Z
  | S f => if (n <? 10)%Z then 1%Z else (1 + ndigits_fuel f (n / 10))%Z
  end.

(** The number of decimal digits of a positive integer. *)
Definition ndigits (n : Z) : Z := ndigits_fuel (S (Z.to_nat (Z.log2 n))) n.

(** The decimal exponent [k] with [10^k <= num/den < 10^(k+1)]. *)
Definition dec_exponent (num den : Z) : Z :=
  let k0 := if (den <=? num)%Z then (ndigits (num / den) - 1)%Z
            else (- ndigits (den / num))%Z in
  let f := scaled_floor num den k0 in
  if (f =? 0)%Z then (k0 - 1)%Z else if (10 <=? f)%Z then (k0 + 1)%Z else k0.

(** Twice the value against [(2c + 1) * 10^q]: which of [c] and [c + 1],
    scaled by [10^q], is nearer. *)
Definition nearer_lower (num den q c : Z) : comparison :=
  if (0 <=? q)%Z then (2 * num ?= (2 * c + 1) * den * 10 ^ q)%Z
  else (2 * num * 10 ^ (- q) ?= (2 * c + 1) * den)%Z.

Definition round_trips (x : spec_float) (c q : Z) : bool :=
  (0 <? c)%Z && SFeqb (dec_to_float false c q) x.

(** The digits, as a number, and their exponent, tried with 1, 2, ...
    digits. *)
Fixpoint shortest (fuel : nat) (p : Z) (x : spec_float) (num den k : Z) : Z * Z :=
  let q := (k - p + 1)%Z in
  let c := scaled_floor num den q in
  match fuel with
  | 0 => (c, q)
  | S f =>
      let lo := round_trips x c q in
      let hi := round_trips x (c + 1) q in
      if lo && hi then
        match nearer_lower num den q c with
        | Lt => (c, q)
        | Gt => ((c + 1)%Z, q)
        | Eq => if Z.even c then (c, q) else ((c + 1)%Z, q)
        end
      else if lo then (c, q)
      else if hi then ((c + 1)%Z, q)
      else shortest f (p + 1) x num den k
  end.

Fixpoint strip_zeros (fuel : nat) (c q : Z) : Z * Z :=
  match fuel with
  | 0 => (c, q)
  | S f => if (c mod 10 =? 0)%Z then strip_zeros f (c / 10) (q + 1) else (c, q)
  end.

Fixpoint zdigits_fuel (fuel : nat) (z : Z) (acc : string) : string :=
  match fuel with
  | 0 => acc
  | S f =>
      let acc' := String (ascii_of_nat (48 + Z.to_nat (z mod 10))) acc in
      if (z <? 10)%Z then acc' else zdigits_fuel f (z / 10) acc'
  end.

(** The decimal digits of a positive integer. *)
Definition pos_decimal (z : Z) : string :=
  zdigits_fuel (S (Z.to_nat (Z.log2 z))) z EmptyString.

Definition layout (digits : string) (decpt : Z) : string :=
  let n := Z.of_nat (String.length digits) in
  if ((-4 <? decpt) && (decpt <=? 16))%Z then
    if (decpt <=? 0)%Z then "0." ++ zeros (Z.to_nat (- decpt)) ++ digits
    else if (n <=? decpt)%Z then digits ++ zeros (Z.to_nat (decpt - n)) ++ ".0"
    else substring 0 (Z.to_nat decpt) digits ++ "."
         ++ substring (Z.to_nat decpt) (String.length digits) digits
  else
    let e10 := (decpt - 1)%Z in
    substring 0 1 digits
    ++ (if (1 <? n)%Z then "." ++ substring 1 (String.length digits) digits else "")
    ++ "e" ++ (if (e10 <? 0)%Z then "-" else "+")
    ++ pad 2 (Z.to_nat (Z.abs e10)).

Definition ref_str_float (x : spec_float) : string :=
  match x with
  | S754_nan => "nan"
  | S754_infinity s => if s then "-inf" else "inf"
  | S754_zero s => if s then "-0.0" else "0.0"
  | S754_finite s m e =>
      let num := if (0 <=? e)%Z then (Zpos m * 2 ^ e)%Z else Zpos m in
      let den := if (0 <=? e)%Z then 1%Z else (2 ^ (- e))%Z in
      let k := dec_exponent num den in
      let '(c, q) := shortest 17 1 (S754_finite false m e) num den k in
      let '(c', q') := strip_zeros 20 c q in
      let digits := pos_decimal c' in
      (if s then "-" else "")
      ++ layout digits (Z.of_nat (String.length digits) + q')
  end.

(** *** The text of a list and of a dict

    [repr] of a string: single quotes unless it holds a single and no
    double quote; the quote, the backslash and the ASCII control
    characters are escaped. Characters outside ASCII are taken to be
    printable and are kept. *)
Definition dquote : ascii := ascii_of_nat 34.
Definition squote : ascii := ascii_of_nat 39.
Definition backslash : ascii := ascii_of_nat 92.

Definition hex_nibble (n : nat) : ascii :=
  if n <? 10 then ascii_of_nat (48 + n) else ascii_of_nat (87 + n).

Definition repr_char (quote c : ascii) : string :=
  let n := code c in
  if Ascii.eqb c quote || Ascii.eqb c backslash then String backslash (String c "")
  else if n =? 10 then String backslash "n"
  else if n =? 13 then String backslash "r"
  else if n =? 9 then String backslash "t"
  else if (n <? 32) || (n =? 127) then
    String backslash (String "x" (String (hex_nibble (n / 16))
                                    (String (hex_nibble (n mod 16)) "")))
  else String c "".

Fixpoint repr_chars (quote : ascii) (s : string) : string :=
  match s with
  | EmptyString => EmptyString
  | String c r => repr_char quote c ++ repr_chars quote r
  end.

Definition repr_str (s : string) : string :=
  let has c := negb (sall (fun d => negb (Ascii.eqb d c)) s) in
  let quote := if has squote && negb (has dquote) then dquote else squote in
  String quote (repr_chars quote s ++ String quote "").

(** The items of a dict built from the members in document order: a name
    keeps the place of its first member and the value of its last. *)
Fixpoint first_names (seen : list string) (l : list (string * string)) : list string :=
  match l with
  | [] => []
  | (k, _) :: r =>
      if existsb (String.eqb k) seen then first_names seen r
      else k :: first_names (k :: seen) r
  end.

Definition last_text (k : string) (l : list (string * string)) : string :=
  fold_left (fun acc kv => if String.eqb (fst kv) k then snd kv else acc) l "".

Fixpoint ref_repr (v : json_of spec_float) : string :=
  match v with
  | JNull => "None"
  | JBool b => if b then "True" else "False"
  | JInt z => Ingest.int_str z
  | JFloat f => ref_str_float f
  | JStr s => repr_str s
  | JArr items => "[" ++ join ", " (map ref_repr items) ++ "]"
  | JObj members =>
      let texts := map (fun kv => let '(k, x) := kv in (k, ref_repr x)) members in
      "{" ++ join ", " (map (fun k => repr_str k ++ ": " ++ last_text k texts)
                          (first_names [] texts)) ++ "}"
  end.

#[export] Instance ref_lib : Lib := {|
  pyfloat := spec_float;
  float_of_int := ref_float_of_int;
  float_of_str := ref_float_of_str;
  round2 := ref_round2;
  fromisoformat := ref_fromisoformat;
  strptime_ymd_hms := ref_strptime;
  str_float := ref_str_float;
  str_container := ref_repr
|}.

End RefLib.

(** ** Vocabulary of the specification *)

Module Spec.

(** Canonical hardware address: six uppercase hex byte pairs joined by
    colons. *)
Definition canonical_mac (s : string) : bool :=
  WpasecSync.mac_groups WpasecSync.is_hex_upper 6 s.

(** The passwords seen for the address [k], in input order, among the pairs
    that pass the re-validation of the deduplicator. *)
Definition seen_for (k : string) (pairs : list (string * string)) : list string :=
  map snd
    (filter (fun bp => WpasecSync._is_valid_bssid (fst bp)
                       && String.eqb (Py.upper (fst bp)) k) pairs).

(** The bare uppercase hex of an address, as the vendor lookup sees it. *)
Definition bare_hex (bssid : string) : string :=
  Py.sfilter Ingest.is_hex_upper (Py.upper bssid).

(** The vendor name the table of prefix length [L] holds for [mac], when
    it is a non-empty name. *)
Definition hit (t : Ingest.oui_table) (mac : string) (L : nat) : option string :=
  match Py.dict_get (Ingest.prefix_of L mac) (Ingest.map_by_len t L) with
  | Some v => if Py.truthy v then Some v else None
  | None => None
  end.

(** The AP address of a parsed hash line after the clean-up of
    [convert_pcap_to_hc22000_and_meta]. *)
Definition cleaned_bssid (meta : Ingest.hashline) : string :=
  Py.lower (Py.remove_char "-" (Py.remove_char ":" (Ingest.hl_bssid meta))).

Definition valid_hex12 (a : string) : bool :=
  (Py.len a =? 12) && Py.sall Ingest.is_hex_lower a.

(** A non-empty password made of spaces only. *)
Definition only_spaces (p : string) : bool :=
  Py.truthy p && String.eqb (Queries.sql_trim p) "".

(** What the correlation update with the pairs [items] may do to a row:
    nothing, or set the password of a row whose password is blank and whose
    address matches a pair, to the non-empty password of that pair. *)
Definition touched_by `{Py.Lib} (items : list (string * string))
    (old new : Queries.network) : Prop :=
  new = old
  \/ exists b pwd rb,
       In (b, pwd) items /\ b <> "" /\ pwd <> ""
       /\ Queries.password_blank (Queries.password old) = true
       /\ Queries.bssid old = Some rb
       /\ Queries.sql_norm_bssid rb = Queries.sql_norm_bssid b
       /\ new = Queries.set_password pwd old.

(** No update with the address [b] finds the row. *)
Definition unmatched `{Py.Lib} (b : string) (row : Queries.network) : Prop :=
  Queries.update_matches b row = false.

(** First non-empty password of a list, the empty string when there is
    none. *)
Definition first_nonempty (ps : list string) : string :=
  match find Py.truthy ps with Some p => p | None => "" end.

(** What a result of the potfile line parser must satisfy. *)
Definition pot_ok (r : option (string * string)) : Prop :=
  match r with
  | Some (b, p) => p <> "" /\ canonical_mac b = true
  | None => True
  end.

(** What the loop body does to the entry of one key. *)
Definition merge_pwd (cur : option string) (pwd : string) : option string :=
  match cur with
  | None => Some pwd
  | Some c => if negb (Py.truthy c) && Py.truthy pwd then Some pwd else Some c
  end.

(** The example line of the specification and the stored location
    document. *)
Definition example_line : string :=
  "WPA*02*aabbccddeeff*112233445566*4d7953534944*00...:".

Definition example_gps `{Py.Lib} (la lo : Py.pyfloat) : Py.json :=
  Py.JObj [("Updated", Py.JStr "2025-08-29 21:05:52");
           ("Latitude", Py.JFloat la); ("Longitude", Py.JFloat lo)].

(** The row carries the key [(b, dt, tm)]. *)
Definition same_key `{Py.Lib} (b dt tm : string) (row : Queries.network) : bool :=
  Queries.sql_eq (Queries.bssid row) (Some b)
  && Queries.sql_eq (Queries.date row) (Some dt)
  && Queries.sql_eq (Queries.time row) (Some tm).

Section Location.
Context `{Py.Lib}.








End Location.

End Spec.

(** ** The bearer-token check of the upload endpoint
    ([backend/core/security.py]) *)

Module Security.
Import Py.

(** How a call of [require_admin] ends: it returns [True], raises an
    [HTTPException], or a subscript raises [IndexError]. Whitespace is
    the ASCII class, so the model is that of the source on ASCII
    headers. *)
Inductive outcome : Type :=
| Returns (v : bool)
| Raises (e : exn)
| RaisesIndexError.

(** The longest prefix without whitespace, and what follows it. *)
Fixpoint break_space (s : string) : string * string :=
  match s with
  | EmptyString => (EmptyString, EmptyString)
  | String c r =>
      if is_space c then (EmptyString, s)
      else let '(w, rest) := break_space r in (String c w, rest)
  end.

(** [s.split(None, 1)]: the first word, and the remainder without its
    leading whitespace when it is not empty. *)
Definition split_ws1 (s : string) : list string :=
  let s1 := lstrip_by is_space s in
  if negb (truthy s1) then []
  else
    let '(w, rest) := break_space s1 in
    let r := lstrip_by is_space rest in
    if truthy r then [w; r] else [w].

(** [s.split()[0]]: the first word; [None] when the text has none and the
    subscript raises [IndexError]. *)
Definition first_word (s : string) : option string :=
  let s1 := lstrip_by is_space s in
  if truthy s1 then Some (fst (break_space s1)) else None.

(** [token != settings.auth_token], where the setting is a string or
    [None]. *)
Definition token_differs (token : string) (auth_token : option string) : bool :=
  match auth_token with
  | Some t => negb (String.eqb token t)
  | None => true
  end.

Definition require_admin (auth_token : option string)
    (authorization : option string) : outcome :=
  match authorization with
  | None => Raises (HTTPException 401 "Missing Authorization header")
  | Some a =>
      if negb (truthy a) then
        Raises (HTTPException 401 "Missing Authorization header")
      else if negb (startswith "Bearer " a) then
        (* the argument of the log call is evaluated first *)
        match first_word a with
        | None => RaisesIndexError
        | Some _ => Raises (HTTPException 401 "Use Bearer token")
        end
      else
        match nth_error (split_ws1 a) 1 with
        | None => RaisesIndexError
        | Some token =>
            if token_differs token auth_token then
              Raises (HTTPException 403 "Invalid token")
            else Returns true
        end
  end.

End Security.

(** ** backend/routers/networks.py: statistics and status *)

Module Networks.
Import Py.

Section Stats.
Context `{Lib}.

Definition not_null {A} (o : option A) : bool :=
  match o with Some _ => true | None => false end.

(** [lat IS NOT NULL AND lon IS NOT NULL] *)
Definition with_coords (row : Queries.network) : bool :=
  not_null (Queries.lat row) && not_null (Queries.lon row).

(** [password IS NOT NULL AND TRIM(password) != ''] *)
Definition cracked (row : Queries.network) : bool :=
  match Queries.password row with
  | Some p => negb (String.eqb (Queries.sql_trim p) "")
  | None => false
  end.

(** [password IS NULL OR TRIM(password) = ''] *)
Definition uncracked (row : Queries.network) : bool :=
  match Queries.password row with
  | Some p => String.eqb (Queries.sql_trim p) ""
  | None => true
  end.

(** [bssid IS NULL OR TRIM(bssid) = ''] *)
Definition empty_bssid (row : Queries.network) : bool :=
  match Queries.bssid row with
  | Some b => String.eqb (Queries.sql_trim b) ""
  | None => true
  end.

(** The number of rows that satisfy the [WHERE] condition of a count
    query. *)
Definition count (cond : Queries.network -> bool) (d : Queries.db) : nat :=
  List.length (filter cond (Queries.rows d)).

(** The dict returned by [stats]. *)
Record stats_out : Type := mk_stats_out {
  st_total : nat;
  st_with_coords : nat;
  st_cracked : nat;
  st_uncracked : nat;
  st_empty_bssid : nat
}.

Definition stats (d : Queries.db) : stats_out :=
  mk_stats_out (List.length (Queries.rows d)) (count with_coords d)
    (count cracked d) (count uncracked d) (count empty_bssid d).

(** The [status] that [networks_geojson] adds to the properties of a
    feature, from its [password] property. *)
Definition status_of (pwd : option string) : string :=
  match pwd with
  | Some p => if truthy p then "cracked" else "unknown"
  | None => "unknown"
  end.

End Stats.
End Networks.

(** ** Vocabulary of the further properties *)

Module Facts.

(** The passwords that the lines give for the address [b], in line
    order. *)
Definition parsed_for (b : string) (lines : list string) : list string :=
  map snd (filter (fun bp => String.eqb (fst bp) b) (Sync.parse_lines lines)).

(** A well-formed list of cracked pairs: canonical addresses, each at most
    once. *)
Definition tidy (pairs : list (string * string)) : Prop :=
  NoDup (map fst pairs)
  /\ Forall (fun bp => Spec.canonical_mac (fst bp) = true) pairs.

(** The hex encoding of a byte string, two lowercase digits per byte, as
    capture tools write a network-name. *)
Definition hex_digit (n : nat) : ascii :=
  if n <? 10 then ascii_of_nat (48 + n) else ascii_of_nat (87 + n).

Fixpoint hexlify (s : string) : string :=
  match s with
  | EmptyString => EmptyString
  | String c r =>
      String (hex_digit (Py.code c / 16))
        (String (hex_digit (Py.code c mod 16)) (hexlify r))
  end.

(** The converter run gives the extraction nothing to parse: the capture
    is missing, the tool exits with an error, it leaves no output file, or
    the output has no line that starts with the sentinel. *)
Definition tool_failed (run : Ingest.tool_run) : Prop :=
  Ingest.pcap_exists run = false
  \/ Ingest.returncode run <> 0%Z
  \/ Ingest.out_exists run = false
  \/ Ingest.first_wpa_line
       (Py.splitlines (Py.strip (Py.decode_ignore (Ingest.out_bytes run)))) = None.

(** The CSV row [row] gives [OUILookup._load] the entry [k -> v] of the
    table of prefix length [L]: it has two columns, is no comment, and its
    first column, stripped and upper-cased, is [k], made of [L] hex
    digits. *)
Definition oui_entry (L : nat) (row : list string) (k v : string) : Prop :=
  2 <= List.length row
  /\ Py.startswith "#" (Py.field 0 row) = false
  /\ k = Py.upper (Py.strip (Py.field 0 row))
  /\ v = Py.strip (Py.field 1 row)
  /\ Py.len k = L
  /\ Py.sall Ingest.is_hex_upper k = true.

(** Longest first. *)
Definition longer_first (a b : string) : Prop := Py.len b <= Py.len a.

(** Text of ASCII characters only. *)
Definition is_ascii_text (s : string) : bool :=
  Py.sall (fun c => Py.code c <? 128) s.

Section Table.
Context `{Py.Lib}.

(** A table as SQLite keeps it: positive rowids, none above the sequence
    counter and none twice, and no two rows with the same non-null address,
    date and time. *)
Definition wf_db (d : Queries.db) : Prop :=
  (0 <= Queries.seq d)%Z
  /\ Forall (fun row => (0 < Queries.id row <= Queries.seq d)%Z) (Queries.rows d)
  /\ NoDup (map Queries.id (Queries.rows d))
  /\ ForallOrdPairs (fun r1 r2 => Queries.collides r1 r2 = false) (Queries.rows d).

(** The tables that inserts and correlation updates build from the empty
    table. *)
Inductive reachable : Queries.db -> Prop :=
| reach_empty : reachable Queries.empty_db
| reach_insert d r :
    reachable d -> reachable (fst (Queries.insert_network_record d r))
| reach_update d items :
    reachable d -> reachable (fst (Queries.bulk_update_passwords d items)).

End Table.

End Facts.

(** * Properties *)

(** ** Python string primitives *)

Lemma truthy_true_iff (s : string) : Py.truthy s = true <-> s <> "".
Proof. destruct s; simpl; split; congruence. Qed.

Lemma truthy_false_iff (s : string) : Py.truthy s = false <-> s = "".
Proof. destruct s; simpl; split; congruence. Qed.

Lemma dict_get_set_same (k v : string) (d : Py.dict) :
  Py.dict_get k (Py.dict_set k v d) = Some v.
Proof.
  induction d as [|[k' v'] d IH]; simpl.
  - now rewrite String.eqb_refl.
  - destruct (String.eqb k k') eqn:E; simpl; rewrite E; auto.
Qed.

Lemma dict_get_set_other (k k' v : string) (d : Py.dict) :
  k <> k' -> Py.dict_get k (Py.dict_set k' v d) = Py.dict_get k d.
Proof.
  intros Hne. induction d as [|[k2 v2] d IH]; simpl.
  - destruct (String.eqb k k') eqn:E; auto.
    apply String.eqb_eq in E. contradiction.
  - destruct (String.eqb k' k2) eqn:E'; simpl.
    + apply String.eqb_eq in E'. subst k2.
      destruct (String.eqb k k') eqn:E; auto.
      apply String.eqb_eq in E. contradiction.
    + now rewrite IH.
Qed.

(** [":" in s] fails exactly when [s.split(":", 1)] has nothing to split. *)
Lemma contains_char_split1 (c : ascii) (s : string) :
  Py.contains (String c "") s = false <-> Py.split1 c s = None.
Proof.
  induction s as [|d r IH]; simpl.
  - tauto.
  - rewrite Ascii.eqb_sym. destruct (Ascii.eqb d c) eqn:E; simpl.
    + split; discriminate.
    + rewrite IH. destruct (Py.split1 c r) as [[a b]|]; split; congruence.
Qed.

Lemma split1_rstrip_none (p : ascii -> bool) (c : ascii) (s : string) :
  Py.split1 c s = None -> Py.split1 c (Py.rstrip_by p s) = None.
Proof.
  induction s as [|d r IH]; simpl; auto.
  destruct (Ascii.eqb d c) eqn:E; [discriminate|].
  destruct (Py.split1 c r) as [[a b]|] eqn:S1; [discriminate|].
  intros _. specialize (IH eq_refl).
  destruct (Py.rstrip_by p r) as [|e r'] eqn:R.
  - destruct (p d); simpl; auto. now rewrite E.
  - simpl. rewrite E. simpl in IH. now rewrite IH.
Qed.

Lemma split_no_sep (c : ascii) (s : string) :
  Py.split1 c s = None -> Py.split c s = [s].
Proof.
  induction s as [|d r IH]; simpl; auto.
  destruct (Ascii.eqb d c); [discriminate|].
  destruct (Py.split1 c r) as [[a b]|]; [discriminate|].
  intros _. now rewrite IH.
Qed.

Lemma rstrip_keeps_head (p : ascii -> bool) (c : ascii) (r : string) :
  p c = false -> exists r', Py.rstrip_by p (String c r) = String c r'.
Proof.
  intros Hc. simpl. destruct (Py.rstrip_by p r) as [|e r'].
  - rewrite Hc. eauto.
  - eauto.
Qed.


(** ** Potfile line parser *)

Example parse_plain :
  WpasecSync.parse_pot_line "AABBCCDDEEFF:112233445566:MySSID:secretpw"
  = Some ("AA:BB:CC:DD:EE:FF", "secretpw").
Proof. vm_compute. reflexivity. Qed.

Lemma hex_upper_not_cont (c : ascii) :
  WpasecSync.is_hex_upper c = true -> Py.is_cont c = false.
Proof.
  destruct c as [[] [] [] [] [] [] [] []]; vm_compute; congruence.
Qed.

Lemma len_all_hex_upper (s : string) :
  Py.sall WpasecSync.is_hex_upper s = true -> Py.len s = String.length s.
Proof.
  induction s as [|c r IH]; simpl; auto.
  intros H. apply andb_prop in H as [Hc Hr].
  now rewrite (hex_upper_not_cont c Hc), IH.
Qed.

Lemma colon_groups_pattern (p : ascii -> bool) (s : string) :
  String.length s = 12 -> Py.sall p s = true ->
  WpasecSync.mac_groups p 6 (WpasecSync.colon_groups s) = true.
Proof.
  intros Hlen Hall.
  do 12 (destruct s as [|? s]; [discriminate Hlen|]).
  destruct s; [|discriminate Hlen].
  cbn in Hall.
  repeat (apply andb_prop in Hall as [?H Hall]).
  cbn. rewrite ?H, ?H0, ?H1, ?H2, ?H3, ?H4, ?H5, ?H6, ?H7, ?H8, ?H9, ?H10.
  reflexivity.
Qed.

(** [_hex_to_mac] returns the empty string or a canonical address. *)
Lemma hex_to_mac_canonical (s : string) :
  Py.truthy (WpasecSync._hex_to_mac s) = true ->
  Spec.canonical_mac (WpasecSync._hex_to_mac s) = true.
Proof.
  unfold WpasecSync._hex_to_mac, Spec.canonical_mac.
  destruct (_ && _) eqn:E; [|discriminate].
  intros _. apply andb_prop in E as [Hlen Hall].
  apply colon_groups_pattern; auto.
  rewrite <- (len_all_hex_upper _ Hall). now apply Nat.eqb_eq.
Qed.

Lemma pot_guarded (x pwd : string) :
  Spec.pot_ok (if Py.truthy (WpasecSync._hex_to_mac x) && Py.truthy pwd
          then Some (WpasecSync._hex_to_mac x, pwd) else None).
Proof.
  destruct (_ && _) eqn:E; simpl; auto.
  apply andb_prop in E as [Hb Hp]. split.
  - now apply truthy_true_iff.
  - now apply hex_to_mac_canonical.
Qed.

Lemma pot_short_ok (parts : list string) : Spec.pot_ok (WpasecSync.pot_short parts).
Proof.
  unfold WpasecSync.pot_short. destruct (_ <=? _); [apply pot_guarded | exact I].
Qed.

Lemma pot_plain_ok (parts : list string) : Spec.pot_ok (WpasecSync.pot_plain parts).
Proof.
  unfold WpasecSync.pot_plain. destruct (_ <=? _); [apply pot_guarded | exact I].
Qed.

Lemma pot_guarded1 (x pwd : string) :
  pwd <> "" ->
  Spec.pot_ok (if Py.truthy (WpasecSync._hex_to_mac x)
          then Some (WpasecSync._hex_to_mac x, pwd) else None).
Proof.
  intros Hp. destruct (Py.truthy _) eqn:E; simpl; auto.
  split; auto. now apply hex_to_mac_canonical.
Qed.

Lemma pot_hashline_ok (s : string) : Spec.pot_ok (WpasecSync.pot_hashline s).
Proof.
  unfold WpasecSync.pot_hashline.
  destruct (Py.split1 ":" s) as [[hashpart pwd]|]; [|exact I].
  destruct (Py.truthy pwd) eqn:Hp; cbn [andb]; [|exact I].
  apply truthy_true_iff in Hp.
  destruct (Py.startswith _ _); [|exact I].
  destruct (_ <=? _); [|exact I].
  destruct (_ || _); [|exact I].
  set (seg := Py.split "*" hashpart).
  pose proof (pot_guarded1 (Py.field 3 seg) pwd Hp) as H3.
  pose proof (pot_guarded1 (Py.field 2 seg) pwd Hp) as H2.
  destruct (_ && _); auto.
  destruct (if Py.truthy (WpasecSync._hex_to_mac (Py.field 3 seg)) then _ else _);
    auto.
Qed.

Lemma pot_fallback_key_ok (s key : string) :
  Spec.pot_ok (WpasecSync.pot_fallback_key s key).
Proof.
  unfold WpasecSync.pot_fallback_key.
  destruct (WpasecSync.re_search_key key s) as [g|]; [|exact I].
  destruct (Py.truthy (WpasecSync._hex_to_mac g)) eqn:Hb; [|exact I].
  set (pwd := match Py.split1 ":" s with Some (_, p) => p | None => "" end).
  destruct (Py.truthy pwd) eqn:Hp; [|exact I].
  simpl. split; [now apply truthy_true_iff | now apply hex_to_mac_canonical].
Qed.

Lemma pot_fallback_ok (s : string) (keys : list string) :
  Spec.pot_ok (WpasecSync.pot_fallback s keys).
Proof.
  induction keys as [|key rest IH]; simpl; [exact I|].
  pose proof (pot_fallback_key_ok s key) as Hk.
  destruct (WpasecSync.pot_fallback_key s key); auto.
Qed.

Lemma orelse_ok (x y : option (string * string)) :
  Spec.pot_ok x -> Spec.pot_ok y -> Spec.pot_ok (WpasecSync.orelse x y).
Proof. destruct x; simpl; auto. Qed.

Lemma pot_fallback_no_colon (s : string) (keys : list string) :
  Py.split1 ":" s = None -> WpasecSync.pot_fallback s keys = None.
Proof.
  intros Hs. induction keys as [|key rest IH]; simpl; auto.
  unfold WpasecSync.pot_fallback_key. rewrite Hs.
  destruct (WpasecSync.re_search_key key s); auto.
  destruct (Py.truthy _); auto.
Qed.

(** C4: the parser tries the short form, the plain form, the hash-line form
    and the key-value fallback in this order and returns the first success;
    it returns ('AA:BB:CC:DD:EE:FF', 'secretpw') for
    'AABBCCDDEEFF:112233445566:MySSID:secretpw', and nothing for a line
    without a colon or a line that starts with '#'. *)
Theorem parse_pot_line_contract :
  (forall line,
     let s := Py.rstrip_by WpasecSync.is_crlf line in
     s <> "" -> Py.startswith "#" s = false ->
     WpasecSync.parse_pot_line line =
       match WpasecSync.pot_short (Py.split ":" s) with
       | Some r => Some r
       | None =>
         match WpasecSync.pot_plain (Py.split ":" s) with
         | Some r => Some r
         | None =>
           match WpasecSync.pot_hashline s with
           | Some r => Some r
           | None => WpasecSync.pot_fallback s WpasecSync.fallback_keys
           end
         end
       end)
  /\ WpasecSync.parse_pot_line "AABBCCDDEEFF:112233445566:MySSID:secretpw"
     = Some ("AA:BB:CC:DD:EE:FF", "secretpw")
  /\ (forall line, Py.contains ":" line = false ->
        WpasecSync.parse_pot_line line = None)
  /\ (forall line, Py.startswith "#" line = true ->
        WpasecSync.parse_pot_line line = None).
Proof.
  split; [|split; [|split]].
  - intros line s Hne Hc. unfold WpasecSync.parse_pot_line. fold s.
    apply truthy_true_iff in Hne. rewrite Hne, Hc. simpl.
    unfold WpasecSync.orelse.
    destruct (WpasecSync.pot_short _); auto.
    destruct (WpasecSync.pot_plain _); auto.
    destruct (WpasecSync.pot_hashline _); auto.
  - vm_compute. reflexivity.
  - intros line Hc. unfold WpasecSync.parse_pot_line.
    apply contains_char_split1 in Hc.
    apply (split1_rstrip_none WpasecSync.is_crlf) in Hc.
    destruct (negb _ || _); auto.
    rewrite (split_no_sep _ _ Hc).
    unfold WpasecSync.pot_hashline. rewrite Hc.
    rewrite (pot_fallback_no_colon _ _ Hc). reflexivity.
  - intros line Hc. unfold WpasecSync.parse_pot_line.
    destruct line as [|c r]; [discriminate|].
    cbn [Py.startswith] in Hc. apply andb_prop in Hc as [Hc _].
    apply Ascii.eqb_eq in Hc. subst c.
    destruct (rstrip_keeps_head WpasecSync.is_crlf "#" r eq_refl) as [r' Hr].
    rewrite Hr. reflexivity.
Qed.

Lemma parse_pot_line_contract_witness :
  WpasecSync.parse_pot_line "no colon here" = None
  /\ WpasecSync.parse_pot_line "# AABBCCDDEEFF:112233445566:MySSID:secretpw" = None
  /\ WpasecSync.parse_pot_line "x:AABBCCDDEEFF:112233445566:MySSID:pw"
     = Some ("AA:BB:CC:DD:EE:FF", "pw").
Proof.
  destruct parse_pot_line_contract as (Horder & _ & Hnocolon & Hhash).
  split; [|split].
  - apply Hnocolon. reflexivity.
  - apply Hhash. reflexivity.
  - rewrite Horder; [reflexivity | discriminate | reflexivity].
Defined.

(** C10: whenever the parser returns a pair, the password is non-empty and
    the address is canonical (six uppercase two-hex-digit groups joined by
    colons), whichever format matched. *)
Theorem parse_pot_line_sound (line b p : string) :
  WpasecSync.parse_pot_line line = Some (b, p) ->
  p <> "" /\ Spec.canonical_mac b = true.
Proof.
  intros H.
  assert (Hok : Spec.pot_ok (WpasecSync.parse_pot_line line)).
  { unfold WpasecSync.parse_pot_line.
    destruct (negb _ || _); [exact I|].
    repeat apply orelse_ok.
    - apply pot_short_ok.
    - apply pot_plain_ok.
    - apply pot_hashline_ok.
    - apply pot_fallback_ok. }
  rewrite H in Hok. exact Hok.
Qed.

Lemma parse_pot_line_sound_witness :
  "pw" <> "" /\ Spec.canonical_mac "00:11:22:AA:BB:CC" = true.
Proof.
  apply (parse_pot_line_sound "x AP=001122aabbcc y:pw").
  reflexivity.
Defined.

(** ** Deduplicator *)

Lemma dedup_step_get (best : Py.dict) (b p k : string) :
  Py.dict_get k (WpasecSync.dedup_step best (b, p)) =
  if WpasecSync._is_valid_bssid b && String.eqb (Py.upper b) k
  then Spec.merge_pwd (Py.dict_get k best) p
  else Py.dict_get k best.
Proof.
  unfold WpasecSync.dedup_step.
  destruct (WpasecSync._is_valid_bssid b); cbn [negb andb]; auto.
  destruct (String.eqb (Py.upper b) k) eqn:E.
  - apply String.eqb_eq in E. subst k. unfold Spec.merge_pwd.
    destruct (Py.dict_get (Py.upper b) best) as [cur|] eqn:G.
    + destruct (negb (Py.truthy cur) && Py.truthy p); auto.
      apply dict_get_set_same.
    + apply dict_get_set_same.
  - assert (Hne : k <> Py.upper b).
    { intros ->. now rewrite String.eqb_refl in E. }
    destruct (Py.dict_get (Py.upper b) best) as [cur|] eqn:G.
    + destruct (negb (Py.truthy cur) && Py.truthy p); auto.
      now apply dict_get_set_other.
    + now apply dict_get_set_other.
Qed.

Lemma dedup_fold_get (pairs : list (string * string)) (best : Py.dict) (k : string) :
  Py.dict_get k (fold_left WpasecSync.dedup_step pairs best) =
  fold_left Spec.merge_pwd (Spec.seen_for k pairs) (Py.dict_get k best).
Proof.
  revert best. induction pairs as [|[b p] pairs IH]; intros best.
  - reflexivity.
  - cbn [fold_left]. rewrite IH, dedup_step_get.
    unfold Spec.seen_for. cbn [filter fst snd].
    destruct (WpasecSync._is_valid_bssid b && String.eqb (Py.upper b) k);
      reflexivity.
Qed.

Lemma merge_nonempty_stable (ps : list string) (c : string) :
  Py.truthy c = true -> fold_left Spec.merge_pwd ps (Some c) = Some c.
Proof.
  intros Hc. induction ps as [|p ps IH]; simpl; auto.
  now rewrite Hc.
Qed.

Lemma merge_from_empty (ps : list string) :
  fold_left Spec.merge_pwd ps (Some "") = Some (Spec.first_nonempty ps).
Proof.
  unfold Spec.first_nonempty.
  induction ps as [|p ps IH]; simpl; auto.
  destruct (Py.truthy p) eqn:Hp; [now apply merge_nonempty_stable | exact IH].
Qed.

(** C3: for every input list and address, the deduplicator keeps the
    first-seen password unless it is empty and a later one is not (then the
    first non-empty one is kept); a kept non-empty password is never
    replaced; the three example lists give "hunter2", "hunter2" and
    "first". *)
Theorem dedup_cracked_keeps (pairs : list (string * string)) (k : string) :
  (forall p0 later,
     Spec.seen_for k pairs = p0 :: later ->
     Py.dict_get k (WpasecSync._dedup_cracked pairs) =
       Some (if Py.truthy p0 then p0 else Spec.first_nonempty later))
  /\ (forall best c,
        Py.dict_get k best = Some c -> c <> "" ->
        Py.dict_get k (fold_left WpasecSync.dedup_step pairs best) = Some c)
  /\ WpasecSync._dedup_cracked
       [("AA:BB:CC:DD:EE:FF", ""); ("AA:BB:CC:DD:EE:FF", "hunter2")]
     = [("AA:BB:CC:DD:EE:FF", "hunter2")]
  /\ WpasecSync._dedup_cracked
       [("AA:BB:CC:DD:EE:FF", "hunter2"); ("AA:BB:CC:DD:EE:FF", "")]
     = [("AA:BB:CC:DD:EE:FF", "hunter2")]
  /\ WpasecSync._dedup_cracked
       [("AA:BB:CC:DD:EE:FF", "first"); ("AA:BB:CC:DD:EE:FF", "second")]
     = [("AA:BB:CC:DD:EE:FF", "first")].
Proof.
  split; [|split; [|repeat split; vm_compute; reflexivity]].
  - intros p0 later Hseen. unfold WpasecSync._dedup_cracked.
    rewrite dedup_fold_get, Hseen. simpl.
    destruct (Py.truthy p0) eqn:Hp.
    + now apply merge_nonempty_stable.
    + apply truthy_false_iff in Hp. subst p0. apply merge_from_empty.
  - intros best c Hget Hc. rewrite dedup_fold_get, Hget.
    apply merge_nonempty_stable. now apply truthy_true_iff.
Qed.

Lemma dedup_cracked_keeps_witness :
  Py.dict_get "AA:BB:CC:DD:EE:FF"
    (WpasecSync._dedup_cracked
       [("aa:bb:cc:dd:ee:ff", ""); ("11:22:33:44:55:66", "other");
        ("AA:BB:CC:DD:EE:FF", "hunter2"); ("AA:BB:CC:DD:EE:FF", "later")])
  = Some "hunter2"
  /\ Py.dict_get "AA:BB:CC:DD:EE:FF"
       (fold_left WpasecSync.dedup_step
          [("aa:bb:cc:dd:ee:ff", ""); ("11:22:33:44:55:66", "other");
           ("AA:BB:CC:DD:EE:FF", "hunter2"); ("AA:BB:CC:DD:EE:FF", "later")]
          [("AA:BB:CC:DD:EE:FF", "kept")])
     = Some "kept".
Proof.
  destruct (dedup_cracked_keeps
              [("aa:bb:cc:dd:ee:ff", ""); ("11:22:33:44:55:66", "other");
               ("AA:BB:CC:DD:EE:FF", "hunter2"); ("AA:BB:CC:DD:EE:FF", "later")]
              "AA:BB:CC:DD:EE:FF") as (Hfirst & Hstable & _).
  split.
  - apply (Hfirst "" ["hunter2"; "later"]). reflexivity.
  - apply Hstable; [reflexivity | discriminate].
Defined.

(** ** Vendor lookup *)

Lemma try_lengths_hits (t : Ingest.oui_table) (mac : string) :
  Ingest.try_lengths t mac [9; 7; 6] =
  match Spec.hit t mac 9 with
  | Some v => Some v
  | None =>
      match Spec.hit t mac 7 with
      | Some v => Some v
      | None => Spec.hit t mac 6
      end
  end.
Proof.
  unfold Spec.hit. cbn [Ingest.try_lengths].
  repeat match goal with
  | |- context [Py.dict_get ?k ?m] =>
      let v := fresh "v" in
      destruct (Py.dict_get k m) as [v|]; [destruct (Py.truthy v)|]
  end; reflexivity.
Qed.

Lemma bare_hex_empty (s : string) :
  Py.truthy s = false -> Py.len (Spec.bare_hex s) = 0.
Proof. intros H. apply truthy_false_iff in H. now subst s. Qed.

(** C5 (as amended): an address with fewer than 9 hex characters resolves
    to no vendor; with 9 or more, the prefix lengths 9, 7, 6 are tried in
    this order and the first entry with a non-empty vendor name wins, so a
    36-bit entry with a non-empty name is returned whatever the 24-bit
    table holds. *)
Theorem vendor_for_bssid_longest_prefix (t : Ingest.oui_table) (bssid : string) :
  (Py.len (Spec.bare_hex bssid) < 9 -> Ingest.vendor_for_bssid t bssid = None)
  /\ (9 <= Py.len (Spec.bare_hex bssid) ->
      Ingest.vendor_for_bssid t bssid =
      match Spec.hit t (Spec.bare_hex bssid) 9 with
      | Some v => Some v
      | None =>
          match Spec.hit t (Spec.bare_hex bssid) 7 with
          | Some v => Some v
          | None => Spec.hit t (Spec.bare_hex bssid) 6
          end
      end)
  /\ (forall v9,
        9 <= Py.len (Spec.bare_hex bssid) ->
        Py.dict_get (Ingest.prefix_of 9 (Spec.bare_hex bssid)) (Ingest.map9 t) = Some v9 ->
        v9 <> "" ->
        Ingest.vendor_for_bssid t bssid = Some v9).
Proof.
  assert (Hlong : 9 <= Py.len (Spec.bare_hex bssid) ->
                  Ingest.vendor_for_bssid t bssid =
                  Ingest.try_lengths t (Spec.bare_hex bssid) [9; 7; 6]).
  { intros Hlen. unfold Ingest.vendor_for_bssid.
    destruct (Py.truthy bssid) eqn:Htr.
    - cbn [negb]. fold (Spec.bare_hex bssid).
      destruct (Py.len (Spec.bare_hex bssid) <? 9) eqn:E; auto.
      apply Nat.ltb_lt in E. lia.
    - apply bare_hex_empty in Htr. lia. }
  split; [|split].
  - intros Hlen. unfold Ingest.vendor_for_bssid.
    destruct (Py.truthy bssid); cbn [negb]; auto.
    fold (Spec.bare_hex bssid).
    apply Nat.ltb_lt in Hlen. now rewrite Hlen.
  - intros Hlen. rewrite (Hlong Hlen). apply try_lengths_hits.
  - intros v9 Hlen Hget Hne. rewrite (Hlong Hlen), try_lengths_hits.
    unfold Spec.hit at 1. change (Ingest.map_by_len t 9) with (Ingest.map9 t).
    rewrite Hget. apply truthy_true_iff in Hne. now rewrite Hne.
Qed.

Lemma vendor_for_bssid_longest_prefix_witness :
  Ingest.vendor_for_bssid
    (Ingest._load [["AABBCC"; "Registrar"]; ["aabbccdde"; "Narrow Ltd"]])
    "AABBCCDDEEFF" = Some "Narrow Ltd"
  /\ Ingest.vendor_for_bssid
       (Ingest._load [["AABBCC"; "Registrar"]; ["aabbccdde"; "Narrow Ltd"]])
       "AABBCCDD" = None.
Proof.
  destruct (vendor_for_bssid_longest_prefix
              (Ingest._load [["AABBCC"; "Registrar"]; ["aabbccdde"; "Narrow Ltd"]])
              "AABBCCDDEEFF") as (_ & _ & H9).
  destruct (vendor_for_bssid_longest_prefix
              (Ingest._load [["AABBCC"; "Registrar"]; ["aabbccdde"; "Narrow Ltd"]])
              "AABBCCDD") as (Hshort & _ & _).
  split.
  - apply H9; [vm_compute; lia | reflexivity | discriminate].
  - apply Hshort. vm_compute. lia.
Defined.

(** C5, counterexample: a table loaded from a CSV whose 36-bit row has an
    empty vendor column; the 36-bit and the 24-bit entry both match the
    address and the lookup returns the 24-bit entry's vendor. *)
Lemma vendor_empty_name_counterexample :
  let t := Ingest._load [["AABBCCDDE"; ""]; ["AABBCC"; "Acme"]] in
  let mac := Spec.bare_hex "AABBCCDDEEFF" in
  Py.dict_get (Ingest.prefix_of 9 mac) (Ingest.map9 t) = Some ""
  /\ Py.dict_get (Ingest.prefix_of 6 mac) (Ingest.map6 t) = Some "Acme"
  /\ Ingest.vendor_for_bssid t "AABBCCDDEEFF" = Some "Acme"
  /\ Ingest.vendor_for_bssid t "AABBCCDDEEFF" <> Some "".
Proof. vm_compute. repeat split; discriminate. Qed.

(** [vendors.py] has a second resolver, which no caller uses: it has no
    minimum length and takes the longest key that is a prefix. *)
Example vendor_from_bssid_short_address :
  Vendors.vendor_from_bssid (Vendors._load_vendors [["AA:BB:CC"; "Acme"]]) "AA:BB:CC"
  = Some "Acme".
Proof. reflexivity. Qed.

(** ** Hash-line extraction *)

Lemma parse_22000_shape (line : string) (meta : Ingest.hashline) :
  Ingest._parse_22000_line line = Py.Ok meta ->
  Ingest.hl_hash_type meta = "WPA"
  /\ (Ingest.hl_variant meta = "PMKID" \/ Ingest.hl_variant meta = "EAPOL").
Proof.
  unfold Ingest._parse_22000_line.
  repeat match goal with
  | |- context [if ?c then _ else _] => destruct c
  end; intros E; inversion E; subst; simpl; auto.
Qed.

Lemma splitlines_aux_nil (b : bool) : Py.splitlines_aux b "" "" = [].
Proof. reflexivity. Qed.

Lemma first_wpa_line_found (text line : string) :
  Ingest.first_wpa_line (Py.splitlines text) = Some line ->
  Py.truthy text = true /\ Py.truthy line = true.
Proof.
  intros H. split.
  - destruct text; [discriminate H | reflexivity].
  - unfold Ingest.first_wpa_line in H. apply find_some in H as [_ H].
    destruct line; [discriminate H | reflexivity].
Qed.

(** What the extraction returns once the first sentinel line has parsed:
    the address is the only field that depends on the validity of the AP
    address. *)
Lemma convert_after_parse (pcap_name : string) (run : Ingest.tool_run)
    (line : string) (meta : Ingest.hashline) :
  Ingest.pcap_exists run = true ->
  Ingest.returncode run = 0%Z ->
  Ingest.out_exists run = true ->
  Ingest.first_wpa_line
    (Py.splitlines (Py.strip (Py.decode_ignore (Ingest.out_bytes run)))) = Some line ->
  Ingest._parse_22000_line line = Py.Ok meta ->
  Ingest.convert_pcap_to_hc22000_and_meta pcap_name run =
  Py.Ok (Ingest.mk_hc_meta
           (Ingest.or_none (Ingest.hl_ssid meta))
           (if Spec.valid_hex12 (Spec.cleaned_bssid meta)
            then Some (Ingest._fmt_mac_colon (Spec.cleaned_bssid meta))
            else None)
           "WPA" (Ingest.hl_variant meta)).
Proof.
  intros Hp Hr Ho Hline Hparse.
  unfold Ingest.convert_pcap_to_hc22000_and_meta.
  rewrite Hp, Hr, Ho. cbn [negb Z.eqb].
  destruct (first_wpa_line_found _ _ Hline) as [Htext Hl].
  rewrite Htext, Hline, Hl, Hparse. cbn [negb].
  fold (Spec.cleaned_bssid meta). fold (Spec.valid_hex12 (Spec.cleaned_bssid meta)).
  destruct (parse_22000_shape _ _ Hparse) as [_ Hv].
  assert (Hvar : Ingest.str_or (Ingest.hl_variant meta)
                   (if String.eqb (Ingest.hl_kind meta) "PMKID" then "PMKID" else "EAPOL")
                 = Ingest.hl_variant meta).
  { destruct Hv as [-> | ->]; reflexivity. }
  rewrite Hvar.
  destruct (Spec.valid_hex12 (Spec.cleaned_bssid meta)) eqn:Hvalid; cbn [negb].
  - assert (Htr : Py.truthy (Spec.cleaned_bssid meta) = true).
    { unfold Spec.valid_hex12 in Hvalid. apply andb_prop in Hvalid as [Hlen _].
      destruct (Spec.cleaned_bssid meta); [discriminate Hlen | reflexivity]. }
    now rewrite Htr.
  - reflexivity.
Qed.

(** C8: when the first sentinel line parses but its AP address, separators
    stripped and lower-cased, is not twelve hex characters, the extraction
    still returns a record: the address is null, the network-name, the
    hash family and the variant are those of the parsed line. *)
Theorem convert_invalid_address_still_returns (pcap_name : string)
    (run : Ingest.tool_run) (line : string) (meta : Ingest.hashline) :
  Ingest.pcap_exists run = true ->
  Ingest.returncode run = 0%Z ->
  Ingest.out_exists run = true ->
  Ingest.first_wpa_line
    (Py.splitlines (Py.strip (Py.decode_ignore (Ingest.out_bytes run)))) = Some line ->
  Ingest._parse_22000_line line = Py.Ok meta ->
  Spec.valid_hex12 (Spec.cleaned_bssid meta) = false ->
  Ingest.convert_pcap_to_hc22000_and_meta pcap_name run =
  Py.Ok (Ingest.mk_hc_meta (Ingest.or_none (Ingest.hl_ssid meta)) None "WPA"
           (Ingest.hl_variant meta)).
Proof.
  intros Hp Hr Ho Hline Hparse Hbad.
  rewrite (convert_after_parse pcap_name run line meta Hp Hr Ho Hline Hparse).
  now rewrite Hbad.
Qed.

Lemma convert_invalid_address_still_returns_witness :
  Ingest.convert_pcap_to_hc22000_and_meta "capture.pcap"
    (Ingest.mk_tool_run true 0 "" "" true
       "WPA*01*4d4fe7aac3a2cecab195321ceb99a7d0*fc690c1582*f4747f87f9f4*686f6d65***")
  = Py.Ok (Ingest.mk_hc_meta (Some "home") None "WPA" "PMKID").
Proof.
  apply (convert_invalid_address_still_returns "capture.pcap" _
           "WPA*01*4d4fe7aac3a2cecab195321ceb99a7d0*fc690c1582*f4747f87f9f4*686f6d65***"
           (Ingest.mk_hashline "PMKID" "fc690c1582" "f4747f87f9f4" "home" "WPA" "PMKID"));
    reflexivity.
Defined.

Lemma rstrip_cons_keep (p : ascii -> bool) (c : ascii) (r : string) :
  p c = false -> Py.rstrip_by p (String c r) = String c (Py.rstrip_by p r).
Proof.
  intros Hc. cbn [Py.rstrip_by]. destruct (Py.rstrip_by p r); [now rewrite Hc | reflexivity].
Qed.

(** Stripping white space keeps the sentinel. *)
Lemma strip_keeps_sentinel (line : string) :
  Py.startswith "WPA*" line = true -> Py.startswith "WPA*" (Py.strip line) = true.
Proof.
  intros Hs.
  do 4 (destruct line as [|? line]; [discriminate Hs|];
        cbn [Py.startswith] in Hs; apply andb_prop in Hs as [?E Hs];
        apply Ascii.eqb_eq in E; subst).
  unfold Py.strip, Py.strip_by. cbn [Py.lstrip_by].
  change (Py.is_space "W") with false. cbv iota.
  rewrite !rstrip_cons_keep by reflexivity. reflexivity.
Qed.

Lemma parse_22000_eapol (line : string) :
  let parts := Py.split "*" (Py.strip line) in
  Py.startswith "WPA*" (Py.strip line) = true ->
  Py.field 1 parts = "02" ->
  6 <= List.length parts ->
  Ingest._parse_22000_line line =
  Py.Ok (Ingest.mk_hashline "EAPOL" (Py.field 3 parts) (Py.field 4 parts)
           (Ingest._decode_essid (Py.field 5 parts)) "WPA" "EAPOL").
Proof.
  intros parts Hs Hcode Hlen. unfold Ingest._parse_22000_line.
  fold parts. rewrite Hs, Hcode. cbn [negb String.eqb Ascii.eqb Bool.eqb].
  assert (H3 : (List.length parts <? 3) = false) by (apply Nat.ltb_ge; lia).
  assert (H6 : (List.length parts <? 6) = false) by (apply Nat.ltb_ge; lia).
  now rewrite H3, H6.
Qed.

(** C1 (as amended): for every converter output whose first sentinel line
    has kind code 02 and at least 6 fields, the extracted record takes the
    access-point address from position 3 (sentinel, code, MIC, AP address,
    station address, network-name) and the network-name from position 5,
    exactly the positions read for kind 01. The example line of the
    specification, with its location document, is stored with network-name
    '00...:' (position 5, not hex, kept verbatim), address
    '11:22:33:44:55:66' (position 3), date '2025-08-29', time '21:05:52'
    and a null password. *)
Theorem eapol_record_positions :
  (forall pcap_name run line,
     Ingest.pcap_exists run = true ->
     Ingest.returncode run = 0%Z ->
     Ingest.out_exists run = true ->
     Ingest.first_wpa_line
       (Py.splitlines (Py.strip (Py.decode_ignore (Ingest.out_bytes run))))
       = Some line ->
     let parts := Py.split "*" (Py.strip line) in
     Py.field 1 parts = "02" ->
     6 <= List.length parts ->
     Ingest._parse_22000_line line =
       Py.Ok (Ingest.mk_hashline "EAPOL" (Py.field 3 parts) (Py.field 4 parts)
                (Ingest._decode_essid (Py.field 5 parts)) "WPA" "EAPOL")
     /\ Ingest.convert_pcap_to_hc22000_and_meta pcap_name run =
        Py.Ok (Ingest.mk_hc_meta
                 (Ingest.or_none (Ingest._decode_essid (Py.field 5 parts)))
                 (let a := Py.lower (Py.remove_char "-"
                                       (Py.remove_char ":" (Py.field 3 parts))) in
                  if Spec.valid_hex12 a then Some (Ingest._fmt_mac_colon a) else None)
                 "WPA" "EAPOL"))
  /\ (forall (L : Py.Lib) (la lo : Py.pyfloat) ssid_from_name pcap_name run t d,
        Py.fromisoformat "2025-08-29 21:05:52"
          = Some (Py.mk_datetime 2025 8 29 21 5 52 0 None) ->
        Ingest.pcap_exists run = true ->
        Ingest.returncode run = 0%Z ->
        Ingest.out_exists run = true ->
        Ingest.first_wpa_line
          (Py.splitlines (Py.strip (Py.decode_ignore (Ingest.out_bytes run))))
          = Some Spec.example_line ->
        Upload.upload_pair ssid_from_name (Some (Spec.example_gps la lo)) pcap_name run t d
        = let '(d', record_id) :=
            Queries.insert_network_record d
              (Queries.mk_network 0 (Some "00...:") (Some "11:22:33:44:55:66")
                 (Ingest.lookup_vendor_from_csv t (Some "11:22:33:44:55:66"))
                 (Some "2025-08-29") (Some "21:05:52")
                 (Some "WPA") (Some "EAPOL") (Some la) (Some lo)
                 None None None) in
          Py.Ok (d', Upload.mk_response "00...:" record_id false)).
Proof.
  split.
  { intros pcap_name run line Hp Hr Ho Hline parts Hcode Hlen.
    assert (Hs : Py.startswith "WPA*" (Py.strip line) = true).
    { apply strip_keeps_sentinel. unfold Ingest.first_wpa_line in Hline.
      apply find_some in Hline. apply Hline. }
    pose proof (parse_22000_eapol line Hs Hcode Hlen) as Hparse.
    split; [exact Hparse|].
    now rewrite (convert_after_parse pcap_name run line _ Hp Hr Ho Hline Hparse). }
  intros L la lo ssid_from_name pcap_name run t d Hiso Hp Hr Ho Hline.
  unfold Upload.upload_pair.
  assert (Hgps : Ingest.parse_gps_json (Some (Spec.example_gps la lo)) =
                 Py.Ok (Ingest.mk_gps_info (Py.mk_datetime 2025 8 29 21 5 52 0 None)
                          la lo None None)).
  { unfold Ingest.parse_gps_json, Spec.example_gps. cbn.
    unfold Ingest._parse_updated_datetime.
    change (Py.replace_char "Z" "+00:00" (Py.strip "2025-08-29 21:05:52"))
      with "2025-08-29 21:05:52".
    rewrite Hiso. reflexivity. }
  rewrite Hgps.
  rewrite (convert_after_parse pcap_name run Spec.example_line
             (Ingest.mk_hashline "EAPOL" "112233445566" "4d7953534944" "00...:"
                "WPA" "EAPOL") Hp Hr Ho Hline eq_refl).
  cbn -[Queries.insert_network_record Ingest.lookup_vendor_from_csv].
  reflexivity.
Qed.

Lemma eapol_record_positions_witness :
  Ingest._parse_22000_line
    "WPA*02*4d4fe7aac3a2cecab195321ceb99a7d0*fc690c158264*f4747f87f9f4*686f6d65*00*0103*02"
  = Py.Ok (Ingest.mk_hashline "EAPOL" "fc690c158264" "f4747f87f9f4" "home" "WPA" "EAPOL")
  /\ Upload.upload_pair (H := RefLib.ref_lib) "capture"
       (Some (@Spec.example_gps RefLib.ref_lib (RefLib.dec_to_float false 451 (-1))
                             (RefLib.dec_to_float false 92 (-1))))
       "capture.pcap"
       (Ingest.mk_tool_run true 0 "" "" true Spec.example_line)
       Ingest.empty_table Queries.empty_db
     = Py.Ok
         (Queries.mk_db
            [@Queries.mk_network RefLib.ref_lib 1 (Some "00...:")
               (Some "11:22:33:44:55:66") None
               (Some "2025-08-29") (Some "21:05:52") (Some "WPA") (Some "EAPOL")
               (Some (RefLib.dec_to_float false 451 (-1)))
               (Some (RefLib.dec_to_float false 92 (-1)))
               None None None] 1,
          Upload.mk_response "00...:" 1 false).
Proof.
  destruct eapol_record_positions as [Hline Hupload].
  split.
  - apply (Hline "capture.pcap"
             (Ingest.mk_tool_run true 0 "" "" true
                "WPA*02*4d4fe7aac3a2cecab195321ceb99a7d0*fc690c158264*f4747f87f9f4*686f6d65*00*0103*02"));
      [reflexivity | reflexivity | reflexivity | reflexivity | reflexivity
      | vm_compute; lia].
  - apply (Hupload RefLib.ref_lib); reflexivity.
Defined.

(** C1, counterexample: on the example line the extraction does not take
    the address from position 2 nor the network-name from position 4. *)
Lemma eapol_example_counterexample :
  Ingest.convert_pcap_to_hc22000_and_meta "capture.pcap"
    (Ingest.mk_tool_run true 0 "" "" true Spec.example_line)
  = Py.Ok (Ingest.mk_hc_meta (Some "00...:") (Some "11:22:33:44:55:66") "WPA" "EAPOL")
  /\ Ingest.convert_pcap_to_hc22000_and_meta "capture.pcap"
       (Ingest.mk_tool_run true 0 "" "" true Spec.example_line)
     <> Py.Ok (Ingest.mk_hc_meta (Some "MySSID") (Some "AA:BB:CC:DD:EE:FF") "WPA" "EAPOL").
Proof. split; [reflexivity | vm_compute; discriminate]. Qed.

(** ** The [networks] table *)

Section TableProps.
Context `{Py.Lib}.

Lemma sql_eq_refl (x : string) : Queries.sql_eq (Some x) (Some x) = true.
Proof. apply String.eqb_refl. Qed.

Lemma insert_no_collision (d : Queries.db) (r : Queries.network) :
  existsb (Queries.collides r) (Queries.rows d) = false ->
  Queries.insert_network_record d r =
    (Queries.mk_db (Queries.rows d ++ [Queries.with_id (Queries.seq d + 1) r])
       (Queries.seq d + 1),
     if ((Queries.seq d + 1 =? 0)%Z
         && match Queries.bssid r with Some _ => true | None => false end)
     then
       match Queries.select_id
               (Queries.mk_db (Queries.rows d ++ [Queries.with_id (Queries.seq d + 1) r])
                  (Queries.seq d + 1))
               (Queries.bssid r) (Queries.date r) (Queries.time r) with
       | Some i => i
       | None => (-1)%Z
       end
     else (Queries.seq d + 1)%Z).
Proof.
  intros Hc. unfold Queries.insert_network_record, Queries.insert_or_ignore.
  cbv zeta. rewrite Hc.
  destruct ((Queries.seq d + 1 =? 0)%Z && _); [|reflexivity].
  destruct (Queries.select_id _ _ _ _); reflexivity.
Qed.

(** A row with a NULL in one of the three columns collides with nothing. *)
Lemma null_never_collides (r : Queries.network) (rs : list Queries.network) :
  Queries.bssid r = None \/ Queries.date r = None \/ Queries.time r = None ->
  existsb (Queries.collides r) rs = false.
Proof.
  intros Hnull. induction rs as [|row rs IH]; [reflexivity|].
  cbn [existsb]. rewrite IH, orb_false_r. unfold Queries.collides.
  destruct Hnull as [-> | [-> | ->]]; cbn [Queries.sql_eq].
  - reflexivity.
  - now rewrite andb_false_r.
  - destruct (Queries.time row); apply andb_false_r.
Qed.

Lemma insert_null_bssid (d : Queries.db) (r : Queries.network) :
  Queries.bssid r = None ->
  Queries.insert_network_record d r =
    (Queries.mk_db (Queries.rows d ++ [Queries.with_id (Queries.seq d + 1) r])
       (Queries.seq d + 1),
     (Queries.seq d + 1)%Z).
Proof.
  intros Hb. rewrite insert_no_collision by (apply null_never_collides; auto).
  now rewrite Hb, andb_false_r.
Qed.

Lemma sql_eq_sym (a b : option string) : Queries.sql_eq a b = Queries.sql_eq b a.
Proof. destruct a, b; cbn; auto. apply String.eqb_sym. Qed.

Lemma collides_same_key (r row : Queries.network) (b dt tm : string) :
  Queries.bssid r = Some b -> Queries.date r = Some dt -> Queries.time r = Some tm ->
  Queries.collides r row = Spec.same_key b dt tm row.
Proof.
  intros Hb Hd Ht. unfold Queries.collides, Spec.same_key. rewrite Hb, Hd, Ht.
  now rewrite !(sql_eq_sym (Some _)).
Qed.

Lemma existsb_collides_same_key (r : Queries.network) (rs : list Queries.network)
    (b dt tm : string) :
  Queries.bssid r = Some b -> Queries.date r = Some dt -> Queries.time r = Some tm ->
  existsb (Queries.collides r) rs = existsb (Spec.same_key b dt tm) rs.
Proof.
  intros Hb Hd Ht. induction rs as [|row rs IH]; [reflexivity|].
  cbn [existsb]. now rewrite IH, (collides_same_key r row b dt tm).
Qed.

Lemma find_app_none {A} (f : A -> bool) (l1 l2 : list A) :
  existsb f l1 = false -> find f (l1 ++ l2) = find f l2.
Proof.
  induction l1 as [|x l1 IH]; cbn; auto.
  destruct (f x); cbn; [discriminate | auto].
Qed.

Lemma existsb_find_some {A} (f : A -> bool) (l : list A) :
  existsb f l = true -> exists x, find f l = Some x /\ In x l /\ f x = true.
Proof.
  induction l as [|x l IH]; cbn; [discriminate|].
  destruct (f x) eqn:E; cbn.
  - intros _. exists x. auto.
  - intros Hl. destruct (IH Hl) as (y & Hf & Hin & Hy). exists y. auto.
Qed.

(** The insert of a row with a full key: its table and id, with the row
    of the table that carries this key and this id. *)
Lemma insert_full_key (d : Queries.db) (r : Queries.network) (b dt tm : string) :
  Queries.bssid r = Some b -> Queries.date r = Some dt -> Queries.time r = Some tm ->
  exists d1 i1 row,
    Queries.insert_network_record d r = (d1, i1)
    /\ find (Spec.same_key b dt tm) (Queries.rows d1) = Some row
    /\ Queries.id row = i1
    /\ (existsb (Spec.same_key b dt tm) (Queries.rows d) = true ->
        d1 = Queries.mk_db (Queries.rows d) (Queries.seq d + 1)).
Proof.
  intros Hb Hd Ht.
  destruct (existsb (Spec.same_key b dt tm) (Queries.rows d)) eqn:Hex.
  - destruct (existsb_find_some _ _ Hex) as (row & Hfind & _ & _).
    exists (Queries.mk_db (Queries.rows d) (Queries.seq d + 1)), (Queries.id row), row.
    unfold Queries.insert_network_record, Queries.insert_or_ignore.
    cbv zeta.
    rewrite (existsb_collides_same_key r _ b dt tm Hb Hd Ht), Hex.
    rewrite Hb, Hd, Ht. cbn [Z.eqb andb].
    unfold Queries.select_id. fold (Spec.same_key b dt tm).
    cbn [Queries.rows]. rewrite Hfind. auto.
  - set (i := (Queries.seq d + 1)%Z).
    set (row := Queries.with_id i r).
    assert (Hrow : Spec.same_key b dt tm row = true).
    { unfold Spec.same_key, row. cbn. rewrite Hb, Hd, Ht. now rewrite !sql_eq_refl. }
    assert (Hfind : find (Spec.same_key b dt tm) (Queries.rows d ++ [row]) = Some row).
    { rewrite find_app_none by exact Hex. cbn. now rewrite Hrow. }
    exists (Queries.mk_db (Queries.rows d ++ [row]) i), i, row.
    rewrite insert_no_collision
      by now rewrite (existsb_collides_same_key r _ b dt tm Hb Hd Ht).
    fold i row. rewrite Hb, Hd, Ht. unfold Queries.select_id.
    fold (Spec.same_key b dt tm). cbn [Queries.rows]. rewrite Hfind.
    repeat split; auto.
    + destruct ((i =? 0)%Z && true); reflexivity.
    + discriminate.
Qed.

(** C6: two inserts with a null address are both stored, whatever their
    dates and times; a second insert with the same non-null address, date
    and time is ignored, so the rows stay as they are, and it returns the
    id of the row that is already there. *)
Theorem insert_unique_only_with_address :
  (forall d r1 r2,
     Queries.bssid r1 = None -> Queries.bssid r2 = None ->
     forall d1 i1 d2 i2,
     Queries.insert_network_record d r1 = (d1, i1) ->
     Queries.insert_network_record d1 r2 = (d2, i2) ->
     Queries.rows d2 =
       (Queries.rows d ++ [Queries.with_id i1 r1; Queries.with_id i2 r2])%list
     /\ i1 = (Queries.seq d + 1)%Z /\ i2 = (Queries.seq d + 2)%Z)
  /\ (forall d r r' b dt tm,
        Queries.bssid r = Some b -> Queries.date r = Some dt ->
        Queries.time r = Some tm ->
        Queries.bssid r' = Some b -> Queries.date r' = Some dt ->
        Queries.time r' = Some tm ->
        forall d1 i1 d2 i2,
        Queries.insert_network_record d r = (d1, i1) ->
        Queries.insert_network_record d1 r' = (d2, i2) ->
        Queries.rows d2 = Queries.rows d1 /\ i2 = i1
        /\ exists row, In row (Queries.rows d1) /\ Queries.id row = i1
                       /\ Queries.bssid row = Some b /\ Queries.date row = Some dt
                       /\ Queries.time row = Some tm).
Proof.
  split.
  - intros d r1 r2 Hb1 Hb2 d1 i1 d2 i2 E1 E2.
    rewrite (insert_null_bssid d r1 Hb1) in E1. inversion E1; subst d1 i1; clear E1.
    rewrite (insert_null_bssid _ r2 Hb2) in E2. cbn [Queries.rows Queries.seq] in E2.
    inversion E2; subst d2 i2; clear E2. cbn [Queries.rows].
    rewrite <- app_assoc. cbn [app].
    repeat split; auto. lia.
  - intros d r r' b dt tm Hb Hd Ht Hb' Hd' Ht' d1 i1 d2 i2 E Esnd.
    destruct (insert_full_key d r b dt tm Hb Hd Ht) as (d1' & i1' & row & E' & Hfind & Hid & _).
    rewrite E' in E. injection E as Ed Ei.
    rewrite Ed in *. rewrite Ei in *. clear Ed Ei d1' i1'.
    assert (Hex : existsb (Spec.same_key b dt tm) (Queries.rows d1) = true).
    { apply existsb_exists. exists row. apply find_some in Hfind. exact Hfind. }
    destruct (insert_full_key d1 r' b dt tm Hb' Hd' Ht')
      as (d2' & i2' & row2 & E2 & Hfind2 & Hid2 & Hsame).
    specialize (Hsame Hex). rewrite E2 in Esnd. injection Esnd as Ed Ei.
    subst d2' i2'. rewrite Hsame in Hfind2 |- *. cbn [Queries.rows] in Hfind2 |- *.
    rewrite Hfind in Hfind2. inversion Hfind2; subst row2.
    split; [reflexivity|]. split; [congruence|].
    exists row. apply find_some in Hfind as [Hin Hkey].
    unfold Spec.same_key in Hkey.
    apply andb_prop in Hkey as [Hkey Hk3]. apply andb_prop in Hkey as [Hk1 Hk2].
    repeat split; auto.
    + destruct (Queries.bssid row); [|discriminate]. apply String.eqb_eq in Hk1. now subst.
    + destruct (Queries.date row); [|discriminate]. apply String.eqb_eq in Hk2. now subst.
    + destruct (Queries.time row); [|discriminate]. apply String.eqb_eq in Hk3. now subst.
Qed.

End TableProps.

Lemma insert_unique_only_with_address_witness :
  let r := @Queries.mk_network RefLib.ref_lib 0 (Some "home") None None
             (Some "2025-08-29") (Some "21:05:52") None None None None None None None in
  let k := @Queries.mk_network RefLib.ref_lib 0 (Some "home") (Some "AA:BB:CC:DD:EE:FF")
             None (Some "2025-08-29") (Some "21:05:52") None None None None None None
             None in
  Queries.rows
    (fst (Queries.insert_network_record
            (fst (Queries.insert_network_record Queries.empty_db r)) r))
  = [Queries.with_id 1 r; Queries.with_id 2 r]
  /\ Queries.rows
       (fst (Queries.insert_network_record
               (fst (Queries.insert_network_record Queries.empty_db k)) k))
     = [Queries.with_id 1 k]
  /\ snd (Queries.insert_network_record
            (fst (Queries.insert_network_record Queries.empty_db k)) k)
     = 1%Z.
Proof.
  intros r k.
  destruct (insert_unique_only_with_address (H := RefLib.ref_lib)) as [Hnull Hkey].
  split.
  - apply (Hnull Queries.empty_db r r eq_refl eq_refl
             (Queries.mk_db [Queries.with_id 1 r] 1) 1%Z
             (Queries.mk_db [Queries.with_id 1 r; Queries.with_id 2 r] 2) 2%Z);
      reflexivity.
  - destruct (Hkey Queries.empty_db k k "AA:BB:CC:DD:EE:FF" "2025-08-29" "21:05:52"
                eq_refl eq_refl eq_refl eq_refl eq_refl eq_refl
                (Queries.mk_db [Queries.with_id 1 k] 1) 1%Z
                (fst (Queries.insert_network_record
                        (Queries.mk_db [Queries.with_id 1 k] 1) k))
                (snd (Queries.insert_network_record
                        (Queries.mk_db [Queries.with_id 1 k] 1) k))
                eq_refl eq_refl) as (Hrows & Hid & _).
    split; [exact Hrows | exact Hid].
Defined.

(** A NULL date or time exempts a row from the constraint just as a NULL
    address does. *)
Remark insert_null_date_or_time `{Py.Lib} (d : Queries.db) (r : Queries.network) :
  Queries.date r = None \/ Queries.time r = None ->
  Queries.rows (fst (Queries.insert_network_record d r)) =
  (Queries.rows d ++ [Queries.with_id (Queries.seq d + 1) r])%list.
Proof.
  intros Hn. rewrite insert_no_collision by (apply null_never_collides; tauto).
  reflexivity.
Qed.

(** ** Correlation update *)

Section UpdateProps.
Context `{Py.Lib}.

Lemma set_password_twice (p q : string) (r : Queries.network) :
  Queries.set_password p (Queries.set_password q r) = Queries.set_password p r.
Proof. reflexivity. Qed.

Lemma bulk_step_rows (rs : list Queries.network) (n : nat) (b pwd : string) :
  Queries.bulk_step (rs, n) (b, pwd) =
  if negb (Py.truthy b) || negb (Py.truthy pwd) then (rs, n)
  else (map (fun row => if Queries.update_matches b row
                        then Queries.set_password pwd row else row) rs,
        n + List.length (filter (Queries.update_matches b) rs)).
Proof. unfold Queries.bulk_step. destruct (_ || _); reflexivity. Qed.

Lemma map_id_when_none (b pwd : string) (rs : list Queries.network) :
  Forall (fun row => Queries.update_matches b row = false) rs ->
  map (fun row => if Queries.update_matches b row
                  then Queries.set_password pwd row else row) rs = rs
  /\ filter (Queries.update_matches b) rs = [].
Proof.
  induction 1 as [|row rs Hrow _ [IH1 IH2]]; cbn; [auto|].
  now rewrite Hrow, IH1, IH2.
Qed.

(** A password that is not blank takes a row out of reach of every later
    update. *)
Lemma set_nonblank_unmatched (b' pwd : string) (row : Queries.network) :
  Queries.password_blank (Some pwd) = false ->
  Queries.update_matches b' (Queries.set_password pwd row) = false.
Proof.
  intros Hp. unfold Queries.update_matches, Queries.set_password.
  cbn [Queries.password Queries.bssid].
  rewrite Hp. apply andb_false_r.
Qed.

Lemma update_keeps_unmatched (b b' pwd : string) (rs : list Queries.network) :
  Queries.password_blank (Some pwd) = false ->
  Forall (fun row => Queries.update_matches b' row = false) rs ->
  Forall (fun row => Queries.update_matches b' row = false)
         (map (fun row => if Queries.update_matches b row
                          then Queries.set_password pwd row else row) rs).
Proof.
  intros Hp. induction 1 as [|row rs Hrow _ IH]; cbn; constructor; auto.
  destruct (Queries.update_matches b row); auto.
  now apply set_nonblank_unmatched.
Qed.

Lemma update_makes_unmatched (b pwd : string) (rs : list Queries.network) :
  Queries.password_blank (Some pwd) = false ->
  Forall (fun row => Queries.update_matches b row = false)
         (map (fun row => if Queries.update_matches b row
                          then Queries.set_password pwd row else row) rs).
Proof.
  intros Hp. induction rs as [|row rs IH]; cbn; constructor; auto.
  destruct (Queries.update_matches b row) eqn:E; auto.
  now apply set_nonblank_unmatched.
Qed.

Lemma touched_step (items : list (string * string)) (b pwd : string)
    (old cur : Queries.network) :
  In (b, pwd) items -> Py.truthy b = true -> Py.truthy pwd = true ->
  Spec.touched_by items old cur ->
  Spec.touched_by items old
    (if Queries.update_matches b cur then Queries.set_password pwd cur else cur).
Proof.
  intros Hin Hb Hp Hcur.
  destruct (Queries.update_matches b cur) eqn:Hm; [|exact Hcur].
  apply truthy_true_iff in Hb. apply truthy_true_iff in Hp.
  unfold Queries.update_matches in Hm. apply andb_prop in Hm as [Haddr Hblank].
  destruct (Queries.bssid cur) as [rb|] eqn:Hrb; [|discriminate].
  apply String.eqb_eq in Haddr.
  destruct Hcur as [-> | (b0 & p0 & rb0 & Hin0 & Hb0 & Hp0 & Hblank0 & Hrb0 & Hn0 & ->)].
  - right. exists b, pwd, rb. repeat split; auto.
  - right. exists b, pwd, rb0. cbn in Hrb. rewrite Hrb0 in Hrb.
    injection Hrb as ->. repeat split; auto.
Qed.

Lemma fold_touched (items items' : list (string * string))
    (rs0 rs : list Queries.network) (n : nat) :
  incl items' items ->
  Forall2 (Spec.touched_by items) rs0 rs ->
  Forall2 (Spec.touched_by items) rs0
    (fst (fold_left Queries.bulk_step items' (rs, n))).
Proof.
  revert rs n. induction items' as [|[b pwd] items' IH]; intros rs n Hincl HR.
  - exact HR.
  - cbn [fold_left]. rewrite bulk_step_rows.
    assert (Hin : In (b, pwd) items) by (apply Hincl; now left).
    assert (Hincl' : incl items' items) by (intros x Hx; apply Hincl; now right).
    destruct (Py.truthy b) eqn:Hb; cbn [negb orb]; [|now apply IH].
    destruct (Py.truthy pwd) eqn:Hp; cbn [negb]; [|now apply IH].
    apply IH; auto.
    clear IH. induction HR as [|old cur rs0 rs Hoc _ IHR]; cbn; constructor; auto.
    now apply touched_step.
Qed.

Lemma nonblank_password (p : string) :
  Spec.only_spaces p = false -> Py.truthy p = true ->
  Queries.password_blank (Some p) = false.
Proof.
  unfold Spec.only_spaces, Queries.password_blank. intros Ho Ht.
  now rewrite Ht in Ho.
Qed.

Lemma fold_keeps_unmatched (items : list (string * string)) (b' : string)
    (rs : list Queries.network) (n : nat) :
  (forall b p, In (b, p) items -> Spec.only_spaces p = false) ->
  Forall (Spec.unmatched b') rs ->
  Forall (Spec.unmatched b') (fst (fold_left Queries.bulk_step items (rs, n))).
Proof.
  revert rs n. induction items as [|[b pwd] items IH]; intros rs n Hns Hrs.
  - exact Hrs.
  - cbn [fold_left]. rewrite bulk_step_rows.
    assert (Hns' : forall b0 p0, In (b0, p0) items -> Spec.only_spaces p0 = false)
      by (intros b0 p0 Hx; apply (Hns b0); now right).
    destruct (Py.truthy b) eqn:Hb; cbn [negb orb]; [|now apply IH].
    destruct (Py.truthy pwd) eqn:Hp; cbn [negb]; [|now apply IH].
    apply IH; auto. apply update_keeps_unmatched; auto.
    apply nonblank_password; auto. apply (Hns b). now left.
Qed.

Lemma first_run_settles (items : list (string * string))
    (rs : list Queries.network) (n : nat) :
  (forall b p, In (b, p) items -> Spec.only_spaces p = false) ->
  forall b p, In (b, p) items -> Py.truthy b = true -> Py.truthy p = true ->
  Forall (Spec.unmatched b) (fst (fold_left Queries.bulk_step items (rs, n))).
Proof.
  revert rs n. induction items as [|[b0 p0] items IH]; intros rs n Hns b p Hin Hb Hp.
  - destruct Hin.
  - assert (Hns' : forall b1 p1, In (b1, p1) items -> Spec.only_spaces p1 = false)
      by (intros b1 p1 Hx; apply (Hns b1); now right).
    cbn [fold_left]. rewrite bulk_step_rows.
    destruct Hin as [Heq | Hin].
    + injection Heq as -> ->. rewrite Hb, Hp. cbn [negb orb].
      apply fold_keeps_unmatched; auto.
      apply update_makes_unmatched. apply nonblank_password; auto.
      apply (Hns b). now left.
    + destruct (negb (Py.truthy b0) || negb (Py.truthy p0)); now apply (IH _ _ Hns' b p).
Qed.

Lemma second_run_noop (items : list (string * string))
    (rs : list Queries.network) (n : nat) :
  (forall b p, In (b, p) items -> Py.truthy b = true -> Py.truthy p = true ->
     Forall (Spec.unmatched b) rs) ->
  fold_left Queries.bulk_step items (rs, n) = (rs, n).
Proof.
  revert n. induction items as [|[b p] items IH]; intros n Hdone; [reflexivity|].
  cbn [fold_left]. rewrite bulk_step_rows.
  assert (Hdone' : forall b0 p0, In (b0, p0) items -> Py.truthy b0 = true ->
                     Py.truthy p0 = true -> Forall (Spec.unmatched b0) rs)
    by (intros b0 p0 Hx; apply (Hdone b0 p0); now right).
  destruct (Py.truthy b) eqn:Hb; cbn [negb orb]; [|now apply IH].
  destruct (Py.truthy p) eqn:Hp; cbn [negb]; [|now apply IH].
  destruct (map_id_when_none b p rs (Hdone b p (or_introl eq_refl) Hb Hp)) as [-> ->].
  cbn [List.length]. rewrite Nat.add_0_r. now apply IH.
Qed.

Lemma Forall2_touched_refl (items : list (string * string))
    (rs : list Queries.network) :
  Forall2 (Spec.touched_by items) rs rs.
Proof. induction rs; constructor; auto. now left. Qed.

(** C2 (as amended): the correlation update changes a row only by setting
    its password, only when the row's password is null or blank and its
    address equals the address of a pair after trimming spaces,
    upper-casing and stripping ':' and '-' on both sides, and only to the
    non-empty password of that pair; when no pair carries a password made
    of spaces only, a second run with the same pair list updates zero
    rows. *)
Theorem bulk_update_passwords_idempotent (d : Queries.db)
    (items : list (string * string)) :
  Forall2 (Spec.touched_by items) (Queries.rows d)
    (Queries.rows (fst (Queries.bulk_update_passwords d items)))
  /\ ((forall b p, In (b, p) items -> Spec.only_spaces p = false) ->
      snd (Queries.bulk_update_passwords
             (fst (Queries.bulk_update_passwords d items)) items) = 0).
Proof.
  unfold Queries.bulk_update_passwords.
  destruct items as [|item items]; [split; [apply Forall2_touched_refl | reflexivity]|].
  set (its := item :: items).
  destruct (fold_left Queries.bulk_step its (Queries.rows d, 0)) as [rs1 n1] eqn:E1.
  cbn [fst Queries.rows Queries.seq].
  split.
  - replace rs1 with (fst (fold_left Queries.bulk_step its (Queries.rows d, 0)))
      by now rewrite E1.
    apply fold_touched; [apply incl_refl | apply Forall2_touched_refl].
  - intros Hns. rewrite second_run_noop; [reflexivity|].
    intros b p Hin Hb Hp.
    replace rs1 with (fst (fold_left Queries.bulk_step its (Queries.rows d, 0)))
      by now rewrite E1.
    now apply (first_run_settles its _ _ Hns b p).
Qed.

End UpdateProps.

Lemma bulk_update_passwords_idempotent_witness :
  let d := Queries.mk_db
             [@Queries.mk_network RefLib.ref_lib 1 (Some "home") (Some "aa-bb-cc-dd-ee-ff")
                None (Some "2025-08-29") (Some "21:05:52") None None None None None None
                None;
              @Queries.mk_network RefLib.ref_lib 2 (Some "work") (Some "AA:BB:CC:DD:EE:FF")
                None (Some "2025-08-30") (Some "08:00:00") None None None None None None
                (Some "known")] 2 in
  let items := [("AA:BB:CC:DD:EE:FF", "hunter2")] in
  snd (Queries.bulk_update_passwords d items) = 1
  /\ snd (Queries.bulk_update_passwords
            (fst (Queries.bulk_update_passwords d items)) items) = 0.
Proof.
  intros d items. split; [reflexivity|].
  apply (bulk_update_passwords_idempotent d items).
  intros b p [E | []]. injection E as <- <-. reflexivity.
Defined.

(** C2, counterexample: the potfile line
    'AABBCCDDEEFF:112233445566:MySSID: ' parses to a pair whose password is
    one space; the update writes it, the row still counts as blank and the
    second run updates it again. A stored address with a space around it is
    matched as well. *)
Lemma bulk_update_blank_password_counterexample :
  let d := Queries.mk_db
             [@Queries.mk_network RefLib.ref_lib 1 (Some "home") (Some "AA:BB:CC:DD:EE:FF")
                None (Some "2025-08-29") (Some "21:05:52") None None None None None None
                None] 1 in
  let items :=
    WpasecSync._dedup_cracked
      (Sync.parse_lines ["AABBCCDDEEFF:112233445566:MySSID: "]) in
  items = [("AA:BB:CC:DD:EE:FF", " ")]
  /\ snd (Queries.bulk_update_passwords d items) = 1
  /\ snd (Queries.bulk_update_passwords
            (fst (Queries.bulk_update_passwords d items)) items) = 1
  /\ Queries.update_matches "AA:BB:CC:DD:EE:FF"
       (@Queries.mk_network RefLib.ref_lib 1 None (Some " aa:bb:cc:dd:ee:ff ") None None
          None None None None None None None None) = true
  /\ Py.remove_char "-" (Py.remove_char ":" (Py.upper " aa:bb:cc:dd:ee:ff "))
     <> Py.remove_char "-" (Py.remove_char ":" (Py.upper "AA:BB:CC:DD:EE:FF")).
Proof. vm_compute. repeat split; discriminate. Qed.

(** ** Download of the cracked results *)

Lemma retry_no_cookie (net : Sync.network) (url : string) (n : nat)
    (trace : list Sync.request) :
  existsb Sync.is_cookie_request trace = false ->
  existsb Sync.is_cookie_request (snd (Sync._http_get_with_retry net url n trace))
  = false.
Proof.
  revert trace. induction n as [|n IH]; intros trace Ht; cbn; auto.
  assert (Ht' : existsb Sync.is_cookie_request
                  (trace ++ [Sync.mk_request url None]) = false).
  { rewrite existsb_app, Ht. reflexivity. }
  destruct (net trace _); cbn; auto.
Qed.

(** C9 (as amended): the cookie-authenticated request is made only if the
    primary body yields no pair and either looks like HTML or is shorter
    than 10 characters; for every primary response of 10 characters or more
    that does not look like HTML no such request is made. *)
Theorem cookie_fallback_only_when (wpasec_url key : string) (net : Sync.network) :
  (forall text trace0,
     key <> "" ->
     Sync._http_get_with_retry net (Sync.url_qs wpasec_url key) Sync.retries []
       = (Py.Ok text, trace0) ->
     10 <= Py.len text -> Sync.looks_html text = false ->
     Sync.download_cracked_potfile wpasec_url key net
       = (Py.Ok (Sync._parse_text text), trace0)
     /\ existsb Sync.is_cookie_request trace0 = false)
  /\ (existsb Sync.is_cookie_request
        (snd (Sync.download_cracked_potfile wpasec_url key net)) = true ->
      exists text trace0,
        Sync._http_get_with_retry net (Sync.url_qs wpasec_url key) Sync.retries []
          = (Py.Ok text, trace0)
        /\ Sync._parse_text text = []
        /\ (Sync.looks_html text = true \/ Py.len text < 10)).
Proof.
  pose proof (retry_no_cookie net (Sync.url_qs wpasec_url key) Sync.retries []
                eq_refl) as Hprim.
  unfold Sync.download_cracked_potfile. split.
  - intros text trace0 Hkey Hget Hlen Hhtml.
    apply truthy_true_iff in Hkey. rewrite Hkey, Hget. cbn [negb].
    rewrite Hget in Hprim. cbn [snd] in Hprim.
    assert (Hshort : (Py.len text <? 10) = false) by (apply Nat.ltb_ge; lia).
    rewrite Hhtml, Hshort, andb_false_r. auto.
  - destruct (Py.truthy key); cbn [negb]; [|discriminate].
    destruct (Sync._http_get_with_retry net _ _ _) as [[text|e] trace0] eqn:Hget;
      cbn [snd] in *; [|congruence].
    destruct (Sync.is_nil (Sync._parse_text text)) eqn:Hnil; cbn [andb].
    + destruct (Sync.looks_html text || (Py.len text <? 10)) eqn:Hc.
      * intros _. exists text, trace0. split; [reflexivity|]. split.
        -- destruct (Sync._parse_text text); [reflexivity | discriminate].
        -- apply orb_prop in Hc as [Hc | Hc]; [now left | right].
           now apply Nat.ltb_lt.
      * cbn [snd]. congruence.
    + cbn [snd]. congruence.
Qed.

Lemma cookie_fallback_only_when_witness :
  Sync.download_cracked_potfile "https://wpa-sec.stanev.org/" "k"
    (fun _ _ => Some "this is not a potfile")
  = (Py.Ok [], [Sync.mk_request "https://wpa-sec.stanev.org/?api&dl=1&key=k" None])
  /\ exists text trace0,
       Sync._http_get_with_retry (fun _ _ => Some "<html>login</html>")
         (Sync.url_qs "" "k") Sync.retries [] = (Py.Ok text, trace0)
       /\ Sync._parse_text text = []
       /\ (Sync.looks_html text = true \/ Py.len text < 10).
Proof.
  destruct (cookie_fallback_only_when "https://wpa-sec.stanev.org/" "k"
              (fun _ _ => Some "this is not a potfile")) as [Hlong _].
  destruct (cookie_fallback_only_when "" "k" (fun _ _ => Some "<html>login</html>"))
    as [_ Honly].
  split.
  - apply (Hlong "this is not a potfile");
      [discriminate | reflexivity | vm_compute; lia | reflexivity].
  - apply Honly. reflexivity.
Defined.

(** C9, counterexample: the primary body 'hello' is not empty and does not
    look like HTML, yet the cookie-authenticated request is made. *)
Lemma cookie_fallback_short_body_counterexample :
  let net : Sync.network := fun _ _ => Some "hello" in
  Sync._http_get_with_retry net (Sync.url_qs "" "k") Sync.retries []
    = (Py.Ok "hello", [Sync.mk_request "https://wpa-sec.stanev.org/?api&dl=1&key=k" None])
  /\ Sync.looks_html "hello" = false
  /\ snd (Sync.download_cracked_potfile "" "k" net)
     = [Sync.mk_request "https://wpa-sec.stanev.org/?api&dl=1&key=k" None;
        Sync.mk_request "https://wpa-sec.stanev.org/?api&dl=1" (Some "k")]
  /\ existsb Sync.is_cookie_request (snd (Sync.download_cracked_potfile "" "k" net))
     = true.
Proof. vm_compute. repeat split. Qed.

(** ** Location reading *)

Section GpsProps.
Context `{Py.Lib}.


(** The ISO branch returns a naive value. *)
Lemma parse_updated_iso_naive (text : string) (dt0 : Py.datetime) :
  Py.fromisoformat (Py.replace_char "Z" "+00:00" (Py.strip text)) = Some dt0 ->
  Ingest._parse_updated_datetime text = Py.Ok (Py.drop_tz dt0)
  /\ Py.tzinfo (Py.drop_tz dt0) = None.
Proof.
  intros E. unfold Ingest._parse_updated_datetime. now rewrite E.
Qed.




Lemma parse_gps_object (ms : list (string * Py.json)) :
  Ingest.parse_gps_json (Some (Py.JObj ms)) =
  match Ingest.obj_get "Updated" ms, Ingest.obj_get "Latitude" ms,
        Ingest.obj_get "Longitude" ms with
  | Some u, Some la, Some lo =>
      Py.bind (Ingest._parse_updated_datetime (Ingest.updated_text u)) (fun dt =>
      Py.bind (Ingest.py_float la) (fun lat =>
      Py.bind (Ingest.py_float lo) (fun lon =>
      let a := match Ingest.obj_get "Altitude" ms with
               | Some v => v | None => Py.JNull end in
      let c := match Ingest.obj_get "Accuracy" ms with
               | Some v => v | None => Py.JNull end in
      Py.bind (if Ingest.is_null a then Py.Ok None
               else Py.bind (Ingest.py_float a)
                      (fun f => Py.Ok (Some (Py.round2 f)))) (fun alt =>
      Py.bind (if Ingest.is_null c then Py.Ok None
               else Py.bind (Ingest.py_float c) (fun f => Py.Ok (Some f))) (fun acc =>
      Py.Ok (Ingest.mk_gps_info dt lat lon alt acc))))))
  | _, _, _ =>
      Py.Raise (Py.ValueError "Missing one of required keys: Updated, Latitude, Longitude")
  end.
Proof.
  unfold Ingest.parse_gps_json, Ingest.has_key, Ingest.get_item, Ingest.get_or_null.
  cbn [Py.bind].
  destruct (Ingest.obj_get "Updated" ms); cbn [Py.bind negb]; [|reflexivity].
  destruct (Ingest.obj_get "Latitude" ms); cbn [Py.bind negb]; [|reflexivity].
  destruct (Ingest.obj_get "Longitude" ms); cbn [Py.bind negb]; reflexivity.
Qed.



End GpsProps.



(** A null latitude raises [TypeError]; the handler turns only
    [ValueError] into a 400 response. *)
Example parse_gps_null_latitude :
  Ingest.parse_gps_json
    (Some (@Py.JObj (@Py.pyfloat RefLib.ref_lib)
             [("Updated", Py.JStr "2025-08-29 21:05:52");
              ("Latitude", Py.JNull);
              ("Longitude", @Py.JFloat (@Py.pyfloat RefLib.ref_lib) (RefLib.dec_to_float false 92 (-1)))]))
  = Py.Raise (Py.TypeError "float() argument must be a string or a real number").
Proof. reflexivity. Qed.

(** * Further properties of the code *)

(** ** Characters of an address *)

Lemma hex_upper_is_any (c : ascii) :
  WpasecSync.is_hex_upper c = true -> WpasecSync.is_hex_any c = true.
Proof. destruct c as [[] [] [] [] [] [] [] []]; vm_compute; congruence. Qed.

Lemma hex_upper_fixed (c : ascii) :
  WpasecSync.is_hex_upper c = true -> Py.upper_char c = c.
Proof. destruct c as [[] [] [] [] [] [] [] []]; vm_compute; congruence. Qed.

Lemma hex_any_upper (c : ascii) :
  WpasecSync.is_hex_any c = true -> WpasecSync.is_hex_upper (Py.upper_char c) = true.
Proof. destruct c as [[] [] [] [] [] [] [] []]; vm_compute; congruence. Qed.

Lemma hex_upper_not_colon (c : ascii) :
  WpasecSync.is_hex_upper c = true -> Ascii.eqb c ":" = false.
Proof. destruct c as [[] [] [] [] [] [] [] []]; vm_compute; congruence. Qed.

Lemma mac_groups_mono (p q : ascii -> bool) (n : nat) (s : string) :
  (forall c, p c = true -> q c = true) ->
  WpasecSync.mac_groups p n s = true -> WpasecSync.mac_groups q n s = true.
Proof.
  intros Hpq. revert s. induction n as [|n IH]; intros s; [discriminate|].
  destruct s as [|a [|b r]]; try discriminate. cbn [WpasecSync.mac_groups].
  intros H. apply andb_prop in H as [Hab H]. apply andb_prop in Hab as [Ha Hb].
  rewrite (Hpq a Ha), (Hpq b Hb). cbn [andb].
  destruct n as [|n'].
  - destruct r; [reflexivity | discriminate].
  - destruct r as [|c r']; [discriminate|].
    apply andb_prop in H as [Hc H]. rewrite Hc. cbn [andb]. now apply IH.
Qed.

Lemma mac_groups_upper (n : nat) (s : string) :
  WpasecSync.mac_groups WpasecSync.is_hex_any n s = true ->
  WpasecSync.mac_groups WpasecSync.is_hex_upper n (Py.upper s) = true.
Proof.
  unfold Py.upper.
  revert s. induction n as [|n IH]; intros s; [discriminate|].
  destruct s as [|a [|b r]]; try discriminate.
  cbn [WpasecSync.mac_groups Py.smap].
  intros H. apply andb_prop in H as [Hab H]. apply andb_prop in Hab as [Ha Hb].
  rewrite (hex_any_upper a Ha), (hex_any_upper b Hb). cbn [andb].
  destruct n as [|n'].
  - destruct r; [reflexivity | discriminate].
  - destruct r as [|c r']; [discriminate|].
    apply andb_prop in H as [Hc H]. apply Ascii.eqb_eq in Hc. subst c.
    cbn [Py.smap]. change (Py.upper_char ":") with ":"%char.
    rewrite Ascii.eqb_refl. cbn [andb]. now apply IH.
Qed.

Lemma canonical_upper_fixed (n : nat) (s : string) :
  WpasecSync.mac_groups WpasecSync.is_hex_upper n s = true -> Py.upper s = s.
Proof.
  unfold Py.upper.
  revert s. induction n as [|n IH]; intros s; [discriminate|].
  destruct s as [|a [|b r]]; try discriminate.
  cbn [WpasecSync.mac_groups Py.smap].
  intros H. apply andb_prop in H as [Hab H]. apply andb_prop in Hab as [Ha Hb].
  rewrite (hex_upper_fixed a Ha), (hex_upper_fixed b Hb).
  destruct n as [|n'].
  - destruct r; [reflexivity | discriminate].
  - destruct r as [|c r']; [discriminate|].
    apply andb_prop in H as [Hc H]. apply Ascii.eqb_eq in Hc. subst c.
    cbn [Py.smap]. change (Py.upper_char ":") with ":"%char.
    f_equal. f_equal. f_equal. now apply IH.
Qed.

Lemma canonical_is_valid (b : string) :
  Spec.canonical_mac b = true -> WpasecSync._is_valid_bssid b = true.
Proof. apply mac_groups_mono. exact hex_upper_is_any. Qed.

Lemma upper_idempotent (s : string) : Py.upper (Py.upper s) = Py.upper s.
Proof.
  unfold Py.upper. induction s as [|c r IH]; [reflexivity|].
  cbn [Py.smap]. f_equal; [|exact IH].
  destruct c as [[] [] [] [] [] [] [] []]; reflexivity.
Qed.

(** ** The dict of the deduplicator *)

Lemma dict_get_none_iff (k : string) (d : Py.dict) :
  Py.dict_get k d = None <-> ~ In k (map fst d).
Proof.
  induction d as [|[k' v] d IH]; cbn; [tauto|].
  destruct (String.eqb k k') eqn:E.
  - apply String.eqb_eq in E. subst. split; [discriminate | intros H; exfalso; auto].
  - rewrite IH. apply String.eqb_neq in E. split.
    + intros H [H' | H']; [congruence | contradiction].
    + intros H H'. apply H. now right.
Qed.

Lemma dict_set_absent (k v : string) (d : Py.dict) :
  Py.dict_get k d = None -> Py.dict_set k v d = (d ++ [(k, v)])%list.
Proof.
  induction d as [|[k' v'] d IH]; cbn; [reflexivity|].
  destruct (String.eqb k k'); [discriminate|]. intros H. now rewrite IH.
Qed.

Lemma dict_set_present (k v c : string) (d : Py.dict) :
  Py.dict_get k d = Some c ->
  map fst (Py.dict_set k v d) = map fst d
  /\ List.length (Py.dict_set k v d) = List.length d
  /\ forall k' p, In (k', p) (Py.dict_set k v d) -> In (k', p) d \/ (k' = k /\ p = v).
Proof.
  induction d as [|[k0 v0] d IH]; cbn; [discriminate|].
  destruct (String.eqb k k0) eqn:E.
  - intros _. cbn. apply String.eqb_eq in E. subst k0. repeat split.
    intros k' p [H | H]; [|now left; right].
    injection H as <- <-. now right.
  - intros H. destruct (IH H) as (IH1 & IH2 & IH3). cbn.
    rewrite IH1, IH2. repeat split.
    intros k' p [H' | H']; [now left; left|].
    destruct (IH3 k' p H'); [left; now right | now right].
Qed.

(** What one step of the deduplicator does to the dict: nothing, or a new
    canonical key at the end, or a new password for a key that is there. *)
Lemma dedup_step_cases (best : Py.dict) (b p : string) :
  WpasecSync.dedup_step best (b, p) = best
  \/ (WpasecSync._is_valid_bssid b = true
      /\ Py.dict_get (Py.upper b) best = None
      /\ WpasecSync.dedup_step best (b, p) = (best ++ [(Py.upper b, p)])%list)
  \/ (WpasecSync._is_valid_bssid b = true
      /\ Py.dict_get (Py.upper b) best = Some ""
      /\ Py.truthy p = true
      /\ WpasecSync.dedup_step best (b, p) = Py.dict_set (Py.upper b) p best).
Proof.
  unfold WpasecSync.dedup_step.
  destruct (WpasecSync._is_valid_bssid b) eqn:Hv; cbn [negb]; [|now left].
  destruct (Py.dict_get (Py.upper b) best) as [cur|] eqn:Hg.
  - destruct (Py.truthy cur) eqn:Hc; cbn [negb andb]; [now left|].
    destruct (Py.truthy p) eqn:Hp; [|now left].
    apply truthy_false_iff in Hc. subst cur. right. right. auto.
  - right. left. repeat split; auto. now apply dict_set_absent.
Qed.

Lemma NoDup_snoc {A} (l : list A) (x : A) :
  NoDup l -> ~ In x l -> NoDup (l ++ [x]).
Proof.
  induction 1 as [|y l Hy Hl IH]; cbn; intros Hx.
  - constructor; [intros [] | constructor].
  - constructor.
    + intros Hin. apply in_app_or in Hin as [Hin | [<- | []]]; auto.
    + apply IH. auto.
Qed.

Lemma dedup_step_invariant (best : Py.dict) (b p : string) :
  Facts.tidy best ->
  Facts.tidy (WpasecSync.dedup_step best (b, p))
  /\ List.length (WpasecSync.dedup_step best (b, p)) <= S (List.length best)
  /\ forall k q, In (k, q) (WpasecSync.dedup_step best (b, p)) ->
       In (k, q) best \/ (q = p /\ Py.upper b = k).
Proof.
  intros [Hnd Hcan].
  destruct (dedup_step_cases best b p) as [-> | [(Hv & Hg & ->) | (Hv & Hg & Hp & ->)]].
  - repeat split; auto.
  - repeat split.
    + rewrite map_app. cbn. apply NoDup_snoc; auto. now apply dict_get_none_iff.
    + apply Forall_app. split; auto. constructor; [|constructor].
      exact (mac_groups_upper 6 b Hv).
    + rewrite length_app. cbn. lia.
    + intros k q Hin. apply in_app_or in Hin as [Hin | [Hin | []]]; [now left|].
      injection Hin as <- <-. now right.
  - destruct (dict_set_present (Py.upper b) p "" best Hg) as (Hk & Hl & Hin).
    repeat split.
    + now rewrite Hk.
    + apply Forall_forall. intros [k q] Hkq. cbn.
      assert (Hkin : In k (map fst best)).
      { rewrite <- Hk. now apply (in_map fst _ (k, q)). }
      apply in_map_iff in Hkin as ([k1 q1] & Ek & Hin1). cbn in Ek. subst k1.
      rewrite Forall_forall in Hcan. now apply (Hcan (k, q1)).
    + lia.
    + intros k q Hkq. destruct (Hin k q Hkq) as [H1 | [-> ->]]; [now left | now right].
Qed.

Lemma dedup_fold_invariant (pairs : list (string * string)) (best : Py.dict) :
  Facts.tidy best ->
  Facts.tidy (fold_left WpasecSync.dedup_step pairs best)
  /\ List.length (fold_left WpasecSync.dedup_step pairs best)
     <= List.length best + List.length pairs
  /\ (forall k p, In (k, p) (fold_left WpasecSync.dedup_step pairs best) ->
        In (k, p) best \/ exists b, In (b, p) pairs /\ Py.upper b = k).
Proof.
  revert best. induction pairs as [|[b p] pairs IH]; intros best Ht.
  - cbn. repeat split; try apply Ht; auto. lia.
  - cbn [fold_left].
    destruct (dedup_step_invariant best b p Ht) as (Ht' & Hlen' & Hin').
    destruct (IH _ Ht') as (IH1 & IH2 & IH3).
    repeat split; try apply IH1.
    + cbn [List.length]. lia.
    + intros k q Hkq. destruct (IH3 k q Hkq) as [H1 | (b' & Hb' & Hu)].
      * destruct (Hin' k q H1) as [H2 | [-> Hu]]; [now left|].
        right. exists b. split; [now left | exact Hu].
      * right. exists b'. split; [now right | exact Hu].
Qed.

Lemma tidy_nil : Facts.tidy [].
Proof. split; constructor. Qed.

Lemma dict_get_in_nodup (k p : string) (d : Py.dict) :
  NoDup (map fst d) -> In (k, p) d -> Py.dict_get k d = Some p.
Proof.
  induction d as [|[k0 v0] d IH]; cbn; [tauto|].
  intros Hnd [H | H].
  - injection H as -> ->. now rewrite String.eqb_refl.
  - inversion Hnd; subst. destruct (String.eqb k k0) eqn:E.
    + apply String.eqb_eq in E. subst k0. exfalso. apply H2.
      now apply (in_map fst _ (k, p)).
    + now apply IH.
Qed.

Lemma dict_get_some_in (k p : string) (d : Py.dict) :
  Py.dict_get k d = Some p -> In (k, p) d.
Proof.
  induction d as [|[k0 v0] d IH]; cbn; [discriminate|].
  destruct (String.eqb k k0) eqn:E.
  - apply String.eqb_eq in E. subst k0. intros H. injection H as ->. now left.
  - intros H. right. now apply IH.
Qed.

Lemma merge_result_seen (ps : list string) (p0 p : string) :
  fold_left Spec.merge_pwd ps (Some p0) = Some p -> In p (p0 :: ps).
Proof.
  revert p0. induction ps as [|p1 ps IH]; intros p0 H; cbn in H.
  - injection H as ->. now left.
  - destruct (negb (Py.truthy p0) && Py.truthy p1).
    + right. now apply IH.
    + destruct (IH p0 H) as [-> | Hin]; [now left | right; now right].
Qed.

(** X1: the deduplicator returns every address at most once and in
    canonical form, never more pairs than it was given, and every password
    it returns is the password of an input pair that passes the
    re-validation and has that address (compared in upper case). *)
Theorem dedup_cracked_tidy (pairs : list (string * string)) :
  NoDup (map fst (WpasecSync._dedup_cracked pairs))
  /\ Forall (fun bp => Spec.canonical_mac (fst bp) = true)
       (WpasecSync._dedup_cracked pairs)
  /\ List.length (WpasecSync._dedup_cracked pairs) <= List.length pairs
  /\ (forall k p, In (k, p) (WpasecSync._dedup_cracked pairs) ->
        exists b, In (b, p) pairs /\ WpasecSync._is_valid_bssid b = true
                  /\ Py.upper b = k).
Proof.
  unfold WpasecSync._dedup_cracked.
  destruct (dedup_fold_invariant pairs [] tidy_nil) as ([Hnd Hcan] & Hlen & _).
  repeat split; auto.
  intros k p Hkp.
  pose proof (dedup_fold_get pairs [] k) as Hget. cbn [Py.dict_get] in Hget.
  rewrite (dict_get_in_nodup k p _ Hnd Hkp) in Hget.
  assert (Hp : In p (Spec.seen_for k pairs)).
  { destruct (Spec.seen_for k pairs) as [|p0 ps]; [discriminate Hget|].
    cbn in Hget. now apply merge_result_seen. }
  unfold Spec.seen_for in Hp. apply in_map_iff in Hp as ([b' p'] & Ep & Hf).
  cbn in Ep. subst p'. apply filter_In in Hf as [Hin' Hc]. cbn in Hc.
  apply andb_prop in Hc as [Hv He]. apply String.eqb_eq in He.
  exists b'. auto.
Qed.

Lemma dedup_cracked_tidy_witness :
  exists b, In (b, "hunter2")
              [("zz", "junk"); ("aa:bb:cc:dd:ee:ff", ""); ("AA:BB:CC:DD:EE:FF", "hunter2")]
            /\ WpasecSync._is_valid_bssid b = true
            /\ Py.upper b = "AA:BB:CC:DD:EE:FF".
Proof.
  apply (dedup_cracked_tidy
           [("zz", "junk"); ("aa:bb:cc:dd:ee:ff", ""); ("AA:BB:CC:DD:EE:FF", "hunter2")]).
  vm_compute. now left.
Defined.

(** Replaying a tidy list on top of a dict with other keys appends it. *)
Lemma dedup_fold_tidy (d2 d1 : Py.dict) :
  Facts.tidy (d1 ++ d2)%list ->
  fold_left WpasecSync.dedup_step d2 d1 = (d1 ++ d2)%list.
Proof.
  revert d1. induction d2 as [|[k v] d2 IH]; intros d1 [Hnd Hcan].
  - cbn. now rewrite app_nil_r.
  - cbn [fold_left].
    assert (Hk : Spec.canonical_mac k = true).
    { rewrite Forall_forall in Hcan. apply (Hcan (k, v)).
      apply in_or_app. right. now left. }
    assert (Hstep : WpasecSync.dedup_step d1 (k, v) = (d1 ++ [(k, v)])%list).
    { unfold WpasecSync.dedup_step.
      rewrite (canonical_is_valid k Hk). cbn [negb].
      rewrite (canonical_upper_fixed 6 k Hk).
      assert (Hnone : Py.dict_get k d1 = None).
      { apply dict_get_none_iff. intros Hin. rewrite map_app in Hnd.
        cbn in Hnd. apply NoDup_remove_2 in Hnd. apply Hnd.
        apply in_or_app. now left. }
      rewrite Hnone. now apply dict_set_absent. }
    rewrite Hstep, IH.
    + now rewrite <- app_assoc.
    + rewrite <- app_assoc. cbn. split; assumption.
Qed.

(** X2: deduplicating twice changes nothing: the deduplicator returns its
    own output unchanged, order included. *)
Theorem dedup_cracked_idempotent (pairs : list (string * string)) :
  WpasecSync._dedup_cracked (WpasecSync._dedup_cracked pairs)
  = WpasecSync._dedup_cracked pairs.
Proof.
  unfold WpasecSync._dedup_cracked.
  destruct (dedup_fold_invariant pairs [] tidy_nil) as (Htidy & _).
  apply (dedup_fold_tidy _ []). exact Htidy.
Qed.

(** ** Potfile parsing, continued *)

Lemma colon_groups_strip (p : ascii -> bool) (s : string) :
  String.length s = 12 -> Py.sall p s = true ->
  (forall c, p c = true -> Ascii.eqb c ":" = false) ->
  Py.remove_char ":" (WpasecSync.colon_groups s) = s.
Proof.
  intros Hlen Hall Hp.
  do 12 (destruct s as [|? s]; [discriminate Hlen|]).
  destruct s; [|discriminate Hlen].
  cbn in Hall.
  repeat (apply andb_prop in Hall as [?H Hall]).
  unfold Py.remove_char. cbn.
  change (Ascii.eqb ":" ":") with true. cbn [negb].
  repeat match goal with
  | Hc : p ?c = true |- _ => rewrite (Hp c Hc); clear Hc
  end.
  reflexivity.
Qed.

(** X3: whenever [_hex_to_mac] returns an address, removing its colons
    gives back the input, stripped and upper-cased, which has 12
    characters. *)
Theorem hex_to_mac_roundtrip (s : string) :
  WpasecSync._hex_to_mac s <> "" ->
  Py.remove_char ":" (WpasecSync._hex_to_mac s) = Py.upper (Py.strip s)
  /\ String.length (Py.upper (Py.strip s)) = 12.
Proof.
  unfold WpasecSync._hex_to_mac.
  destruct (_ && _) eqn:E; [|congruence].
  intros _. apply andb_prop in E as [Hlen Hall].
  assert (Hl : String.length (Py.upper (Py.strip s)) = 12).
  { rewrite <- (len_all_hex_upper _ Hall). now apply Nat.eqb_eq. }
  split; [|exact Hl].
  apply (colon_groups_strip WpasecSync.is_hex_upper); auto.
  exact hex_upper_not_colon.
Qed.

Lemma hex_to_mac_roundtrip_witness :
  Py.remove_char ":" (WpasecSync._hex_to_mac "  aabbccddeeff ") = "AABBCCDDEEFF"
  /\ String.length "AABBCCDDEEFF" = 12.
Proof.
  apply (hex_to_mac_roundtrip "  aabbccddeeff "). discriminate.
Defined.

Lemma parse_pot_line_ok (line : string) :
  Spec.pot_ok (WpasecSync.parse_pot_line line).
Proof.
  unfold WpasecSync.parse_pot_line.
  destruct (negb _ || _); [exact I|].
  repeat apply orelse_ok.
  - apply pot_short_ok.
  - apply pot_plain_ok.
  - apply pot_hashline_ok.
  - apply pot_fallback_ok.
Qed.

Lemma parse_lines_ok (lines : list string) (b p : string) :
  In (b, p) (Sync.parse_lines lines) ->
  p <> "" /\ Spec.canonical_mac b = true.
Proof.
  induction lines as [|line lines IH]; cbn; [tauto|].
  pose proof (parse_pot_line_ok line) as Hok.
  destruct (WpasecSync.parse_pot_line line) as [[b0 p0]|]; [|exact IH].
  intros [H | H]; [|now apply IH]. injection H as -> ->. exact Hok.
Qed.

Lemma seen_for_canonical (k : string) (pairs : list (string * string)) :
  (forall b p, In (b, p) pairs -> Spec.canonical_mac b = true) ->
  Spec.seen_for k pairs =
  map snd (filter (fun bp => String.eqb (fst bp) k) pairs).
Proof.
  unfold Spec.seen_for. induction pairs as [|[b p] pairs IH]; intros Hc; [reflexivity|].
  cbn [filter fst].
  assert (Hb : Spec.canonical_mac b = true) by (apply (Hc b p); now left).
  rewrite (canonical_is_valid b Hb), (canonical_upper_fixed 6 b Hb). cbn [andb].
  destruct (String.eqb b k); cbn [map]; rewrite IH; auto;
    intros b' p' Hin; apply (Hc b' p'); now right.
Qed.

(** X4: for every address, the parsed text keeps the password of the first
    line that yields this address, and that password is not empty. *)
Theorem parse_text_keeps_first_line (text b p0 : string) (later : list string) :
  Facts.parsed_for b (Py.splitlines text) = p0 :: later ->
  Py.dict_get b (Sync._parse_text text) = Some p0 /\ p0 <> "".
Proof.
  unfold Facts.parsed_for, Sync._parse_text, WpasecSync._dedup_cracked.
  set (pairs := Sync.parse_lines (Py.splitlines text)).
  intros Hfirst.
  assert (Hc : forall b' p', In (b', p') pairs -> Spec.canonical_mac b' = true).
  { intros b' p' Hin. now apply (parse_lines_ok (Py.splitlines text) b' p'). }
  assert (Hp0 : p0 <> "").
  { assert (Hin : In p0 (map snd (filter (fun bp => String.eqb (fst bp) b) pairs)))
      by (rewrite Hfirst; now left).
    apply in_map_iff in Hin as ([b' p'] & Ep & Hf). cbn in Ep. subst p'.
    apply filter_In in Hf as [Hin _].
    now apply (parse_lines_ok (Py.splitlines text) b' p0). }
  split; [|exact Hp0].
  rewrite dedup_fold_get, (seen_for_canonical b pairs Hc), Hfirst.
  cbn. apply merge_nonempty_stable. now apply truthy_true_iff.
Qed.

Lemma parse_text_keeps_first_line_witness :
  Py.dict_get "AA:BB:CC:DD:EE:FF"
    (Sync._parse_text
       ("# wpa-sec" ++ String "010"
          ("AABBCCDDEEFF:112233445566:home:first" ++ String "010"
             "x:aabbccddeeff:112233445566:home:second")))
  = Some "first" /\ "first" <> "".
Proof.
  apply (parse_text_keeps_first_line _ "AA:BB:CC:DD:EE:FF" "first" ["second"]).
  reflexivity.
Defined.

Lemma parse_text_tidy (text : string) :
  Facts.tidy (Sync._parse_text text)
  /\ Forall (fun bp => snd bp <> "") (Sync._parse_text text).
Proof.
  unfold Sync._parse_text, WpasecSync._dedup_cracked.
  destruct (dedup_fold_invariant (Sync.parse_lines (Py.splitlines text)) [] tidy_nil)
    as (Ht & _ & Hin).
  split; [exact Ht|].
  apply Forall_forall. intros [k p] Hkp. cbn.
  destruct (Hin k p Hkp) as [[] | (b & Hb & _)].
  exact (proj1 (parse_lines_ok (Py.splitlines text) b p Hb)).
Qed.

(** ** Download, continued *)

(** X5: [_http_get_with_retry] makes between one and three requests, all
    for the given URL and without a cookie; it returns the body of the
    first attempt that succeeds, after which it makes no further request,
    and it raises [WpaSecSyncError] only when all three attempts fail. *)
Theorem http_get_with_retry_attempts (net : Sync.network) (url : string)
    (trace : list Sync.request) :
  let r := Sync.mk_request url None in
  exists k, 1 <= k <= 3
    /\ snd (Sync._http_get_with_retry net url Sync.retries trace)
       = (trace ++ repeat r k)%list
    /\ (forall j, j < k - 1 -> net (trace ++ repeat r j)%list r = None)
    /\ match fst (Sync._http_get_with_retry net url Sync.retries trace) with
       | Py.Ok text => net (trace ++ repeat r (k - 1))%list r = Some text
       | Py.Raise e =>
           e = Py.WpaSecSyncError ("HTTP GET failed for " ++ url)
           /\ k = 3 /\ net (trace ++ repeat r 2)%list r = None
       end.
Proof.
  intros r. unfold Sync.retries. cbn [Sync._http_get_with_retry]. fold r.
  destruct (net trace r) as [t0|] eqn:E0.
  { exists 1. cbn. repeat split; auto; try lia.
    now rewrite app_nil_r. }
  destruct (net (trace ++ [r])%list r) as [t1|] eqn:E1.
  { exists 2. cbn [fst snd repeat Nat.sub]. repeat split; auto; try lia.
    - now rewrite <- app_assoc.
    - intros j Hj. assert (j = 0) as -> by lia. cbn. now rewrite app_nil_r. }
  destruct (net ((trace ++ [r]) ++ [r])%list r) as [t2|] eqn:E2.
  { exists 3. cbn [fst snd repeat Nat.sub]. repeat split; auto; try lia.
    - now rewrite <- !app_assoc.
    - intros j Hj. assert (j = 0 \/ j = 1) as [-> | ->] by lia; cbn.
      + now rewrite app_nil_r.
      + exact E1.
    - now rewrite <- app_assoc in E2. }
  exists 3. cbn [fst snd repeat Nat.sub]. repeat split; auto; try lia.
  - now rewrite <- !app_assoc.
  - intros j Hj. assert (j = 0 \/ j = 1) as [-> | ->] by lia; cbn.
    + now rewrite app_nil_r.
    + exact E1.
  - now rewrite <- app_assoc in E2.
Qed.

Lemma http_get_with_retry_attempts_witness :
  exists k, 1 <= k <= 3
    /\ snd (Sync._http_get_with_retry
              (fun tr _ => if List.length tr =? 1 then Some "body" else None)
              "u" Sync.retries [])
       = repeat (Sync.mk_request "u" None) k
    /\ (forall j, j < k - 1 ->
          (if List.length (repeat (Sync.mk_request "u" None) j) =? 1
           then Some "body" else None) = None)
    /\ match fst (Sync._http_get_with_retry
                    (fun tr _ => if List.length tr =? 1 then Some "body" else None)
                    "u" Sync.retries []) with
       | Py.Ok text =>
           (if List.length (repeat (Sync.mk_request "u" None) (k - 1)) =? 1
            then Some "body" else None) = Some text
       | Py.Raise e =>
           e = Py.WpaSecSyncError ("HTTP GET failed for " ++ "u")
           /\ k = 3
           /\ (if List.length (repeat (Sync.mk_request "u" None) 2) =? 1
               then Some "body" else None) = None
       end.
Proof.
  exact (http_get_with_retry_attempts
           (fun tr _ => if List.length tr =? 1 then Some "body" else None) "u" []).
Defined.

Lemma retry_trace_length (net : Sync.network) (url : string) (n : nat)
    (trace : list Sync.request) :
  List.length (snd (Sync._http_get_with_retry net url n trace))
  <= List.length trace + n.
Proof.
  revert trace. induction n as [|n IH]; intros trace; cbn; [lia|].
  destruct (net trace _); cbn.
  - rewrite length_app. cbn. lia.
  - specialize (IH (trace ++ [Sync.mk_request url None])%list).
    rewrite length_app in IH. cbn in IH. lia.
Qed.

(** X6: without a configured key the download raises [WpaSecSyncError]
    and makes no request at all; with a key it makes at most four requests;
    and the pairs it returns have canonical addresses, each at most once,
    and non-empty passwords. *)
Theorem download_cracked_potfile_bounds (wpasec_url key : string)
    (net : Sync.network) :
  (key = "" ->
   snd (Sync.download_cracked_potfile wpasec_url key net) = []
   /\ exists msg, fst (Sync.download_cracked_potfile wpasec_url key net)
                  = Py.Raise (Py.WpaSecSyncError msg))
  /\ List.length (snd (Sync.download_cracked_potfile wpasec_url key net)) <= 4
  /\ (forall pairs,
        fst (Sync.download_cracked_potfile wpasec_url key net) = Py.Ok pairs ->
        Facts.tidy pairs /\ Forall (fun bp => snd bp <> "") pairs).
Proof.
  unfold Sync.download_cracked_potfile.
  pose proof (retry_trace_length net (Sync.url_qs wpasec_url key) Sync.retries [])
    as Hlen. cbn [List.length Nat.add] in Hlen. unfold Sync.retries in Hlen at 2.
  split; [|split].
  - intros ->. cbn. eauto.
  - destruct (Py.truthy key); cbn [negb snd List.length]; [|lia].
    destruct (Sync._http_get_with_retry net _ _ _) as [[text|e] trace0];
      cbn [snd] in *; [|lia].
    destruct (_ && _); cbn [snd]; [|lia].
    destruct (net trace0 _); cbn [snd]; rewrite length_app; cbn; lia.
  - intros pairs. destruct (Py.truthy key); cbn [negb fst]; [|discriminate].
    destruct (Sync._http_get_with_retry net _ _ _) as [[text|e] trace0];
      cbn [fst]; [|discriminate].
    destruct (_ && _); cbn [fst].
    + destruct (net trace0 _) as [text_c|]; cbn [fst]; [|discriminate].
      intros E. injection E as <-. apply parse_text_tidy.
    + intros E. injection E as <-. apply parse_text_tidy.
Qed.

Lemma download_cracked_potfile_bounds_witness :
  (snd (Sync.download_cracked_potfile "https://wpa-sec.stanev.org" ""
          (fun _ _ => Some "AABBCCDDEEFF:112233445566:home:pw")) = []
   /\ exists msg,
        fst (Sync.download_cracked_potfile "https://wpa-sec.stanev.org" ""
               (fun _ _ => Some "AABBCCDDEEFF:112233445566:home:pw"))
        = Py.Raise (Py.WpaSecSyncError msg))
  /\ Facts.tidy [("AA:BB:CC:DD:EE:FF", "pw")]
  /\ Forall (fun bp : string * string => snd bp <> "") [("AA:BB:CC:DD:EE:FF", "pw")].
Proof.
  destruct (download_cracked_potfile_bounds "https://wpa-sec.stanev.org" ""
              (fun _ _ => Some "AABBCCDDEEFF:112233445566:home:pw")) as (Hnokey & _).
  destruct (download_cracked_potfile_bounds "https://wpa-sec.stanev.org" "k"
              (fun _ _ => Some "AABBCCDDEEFF:112233445566:home:pw")) as (_ & _ & Hok).
  split; [apply Hnokey; reflexivity|].
  apply Hok. reflexivity.
Defined.

(** ** Hash-line parsing, continued *)

(** X7: [_parse_22000_line] returns a record exactly when the stripped
    line starts with the sentinel, its kind code is 01 or 02 and it has at
    least 6 fields; the record then carries the fields 3, 4 and 5 (the last
    one decoded) and equal kind and variant; every failure is a
    [ValueError]. *)
Theorem parse_22000_line_ok_iff (line : string) :
  let parts := Py.split "*" (Py.strip line) in
  ((exists meta, Ingest._parse_22000_line line = Py.Ok meta) <->
   (Py.startswith "WPA*" (Py.strip line) = true
    /\ (Py.field 1 parts = "01" \/ Py.field 1 parts = "02")
    /\ 6 <= List.length parts))
  /\ (forall meta,
        Ingest._parse_22000_line line = Py.Ok meta ->
        Ingest.hl_bssid meta = Py.field 3 parts
        /\ Ingest.hl_station meta = Py.field 4 parts
        /\ Ingest.hl_ssid meta = Ingest._decode_essid (Py.field 5 parts)
        /\ Ingest.hl_kind meta = Ingest.hl_variant meta)
  /\ (forall e,
        Ingest._parse_22000_line line = Py.Raise e -> exists msg, e = Py.ValueError msg).
Proof.
  intros parts. unfold Ingest._parse_22000_line. fold parts.
  assert (Hfail : forall msg (P : Prop),
            ~ P ->
            ((exists meta : Ingest.hashline,
                Py.Raise (Py.ValueError msg) = Py.Ok meta) <-> P)
            /\ (forall meta : Ingest.hashline,
                  Py.Raise (Py.ValueError msg) = Py.Ok meta ->
                  Ingest.hl_bssid meta = Py.field 3 parts
                  /\ Ingest.hl_station meta = Py.field 4 parts
                  /\ Ingest.hl_ssid meta = Ingest._decode_essid (Py.field 5 parts)
                  /\ Ingest.hl_kind meta = Ingest.hl_variant meta)
            /\ (forall e, Py.Raise (A := Ingest.hashline) (Py.ValueError msg) = Py.Raise e ->
                  exists m, e = Py.ValueError m)).
  { intros msg P HP. split; [split|split].
    - intros [meta E]. discriminate E.
    - intros HP'. contradiction.
    - intros meta E. discriminate E.
    - intros e E. injection E as <-. eauto. }
  assert (Hok : forall kind (P : Prop),
            P ->
            let meta0 := Ingest.mk_hashline kind (Py.field 3 parts) (Py.field 4 parts)
                           (Ingest._decode_essid (Py.field 5 parts)) "WPA" kind in
            ((exists meta, Py.Ok meta0 = Py.Ok meta) <-> P)
            /\ (forall meta,
                  Py.Ok meta0 = Py.Ok meta ->
                  Ingest.hl_bssid meta = Py.field 3 parts
                  /\ Ingest.hl_station meta = Py.field 4 parts
                  /\ Ingest.hl_ssid meta = Ingest._decode_essid (Py.field 5 parts)
                  /\ Ingest.hl_kind meta = Ingest.hl_variant meta)
            /\ (forall e, Py.Ok meta0 = Py.Raise e -> exists m, e = Py.ValueError m)).
  { intros kind P HP meta0. split; [split|split].
    - intros _. exact HP.
    - intros _. eauto.
    - intros meta E. injection E as <-. cbn. auto.
    - intros e E. discriminate E. }
  destruct (Py.startswith "WPA*" (Py.strip line)) eqn:Hs; cbn [negb].
  2:{ apply Hfail. intros (E & _). discriminate E. }
  destruct (List.length parts <? 3) eqn:H3.
  { apply Nat.ltb_lt in H3. apply Hfail. intros (_ & _ & Hlen). lia. }
  destruct (String.eqb (Py.field 1 parts) "01") eqn:E01.
  { apply String.eqb_eq in E01.
    destruct (List.length parts <? 6) eqn:H6.
    - apply Nat.ltb_lt in H6. apply Hfail. intros (_ & _ & Hlen). lia.
    - apply Nat.ltb_ge in H6. apply (Hok "PMKID"). auto. }
  destruct (String.eqb (Py.field 1 parts) "02") eqn:E02.
  { apply String.eqb_eq in E02.
    destruct (List.length parts <? 6) eqn:H6.
    - apply Nat.ltb_lt in H6. apply Hfail. intros (_ & _ & Hlen). lia.
    - apply Nat.ltb_ge in H6. apply (Hok "EAPOL"). auto. }
  apply String.eqb_neq in E01. apply String.eqb_neq in E02.
  apply Hfail. intros (_ & [E | E] & _); contradiction.
Qed.

Lemma parse_22000_line_ok_iff_witness :
  (exists meta,
     Ingest._parse_22000_line
       "WPA*01*4d4fe7aac3a2cecab195321ceb99a7d0*fc690c158264*f4747f87f9f4*686f6d65***"
     = Py.Ok meta)
  /\ exists msg,
       Py.ValueError "Invalid PMKID 22000 line" = Py.ValueError msg.
Proof.
  destruct (parse_22000_line_ok_iff
              "WPA*01*4d4fe7aac3a2cecab195321ceb99a7d0*fc690c158264*f4747f87f9f4*686f6d65***")
    as (Hiff & _ & _).
  destruct (parse_22000_line_ok_iff "WPA*01*4d4f*fc690c158264*f4747f87f9f4")
    as (_ & _ & Herr).
  split.
  - apply Hiff. repeat split; [now left | vm_compute; lia].
  - apply Herr. reflexivity.
Defined.

(** ** Network-name decoding *)

Lemma hexlify_byte (c : ascii) :
  ascii_of_nat (16 * Py.hex_val (Facts.hex_digit (Py.code c / 16))
                + Py.hex_val (Facts.hex_digit (Py.code c mod 16))) = c.
Proof. destruct c as [[] [] [] [] [] [] [] []]; vm_compute; reflexivity. Qed.

Lemma hex_digit_class (c : ascii) :
  Ingest.is_hex_any (Facts.hex_digit (Py.code c / 16)) = true
  /\ Ingest.is_hex_any (Facts.hex_digit (Py.code c mod 16)) = true
  /\ Py.is_cont (Facts.hex_digit (Py.code c / 16)) = false
  /\ Py.is_cont (Facts.hex_digit (Py.code c mod 16)) = false.
Proof. destruct c as [[] [] [] [] [] [] [] []]; vm_compute; auto. Qed.

Lemma fromhex_hexlify (s : string) : Py.fromhex (Facts.hexlify s) = s.
Proof.
  induction s as [|c r IH]; [reflexivity|].
  cbn [Facts.hexlify Py.fromhex]. now rewrite hexlify_byte, IH.
Qed.

Lemma is_hex_hexlify (s : string) : Ingest._is_hex (Facts.hexlify s) = true.
Proof.
  unfold Ingest._is_hex.
  assert (H : Py.len (Facts.hexlify s) = 2 * String.length s
              /\ Py.sall Ingest.is_hex_any (Facts.hexlify s) = true).
  { induction s as [|c r [IH1 IH2]]; [split; reflexivity|].
    destruct (hex_digit_class c) as (H1 & H2 & H3 & H4).
    cbn [Facts.hexlify Py.len Py.sall String.length].
    rewrite H1, H2, H3, H4, IH1, IH2. split; [lia | reflexivity]. }
  destruct H as [-> ->]. rewrite Nat.mul_comm, Nat.Div0.mod_mul. reflexivity.
Qed.

Lemma decode_ignore_ascii (s : string) :
  Facts.is_ascii_text s = true -> Py.decode_ignore s = s.
Proof.
  unfold Py.decode_ignore, Facts.is_ascii_text.
  induction s as [|c r IH]; [reflexivity|].
  cbn [Py.sall]. intros H. apply andb_prop in H as [Hc Hr].
  cbn [Py.decode_ignore_aux Py.utf8_seq_len].
  assert (Hin : Py.in_range 0 127 c = true).
  { unfold Py.in_range. apply Nat.ltb_lt in Hc.
    apply andb_true_intro. split; [reflexivity | apply Nat.leb_le; lia]. }
  rewrite Hin. now rewrite IH.
Qed.

(** X8: decoding inverts the hex encoding of a network-name: the decoded
    field is the encoded bytes read as UTF-8 with ill-formed bytes
    dropped, and for a name of ASCII characters it is the name itself. *)
Theorem decode_essid_roundtrip (name : string) :
  Ingest._decode_essid (Facts.hexlify name) = Py.decode_ignore name
  /\ (Facts.is_ascii_text name = true ->
      Ingest._decode_essid (Facts.hexlify name) = name).
Proof.
  assert (H : Ingest._decode_essid (Facts.hexlify name) = Py.decode_ignore name).
  { unfold Ingest._decode_essid. now rewrite is_hex_hexlify, fromhex_hexlify. }
  split; [exact H|]. intros Ha. rewrite H. now apply decode_ignore_ascii.
Qed.

Lemma decode_essid_roundtrip_witness :
  Ingest._decode_essid "486f6d65204e6574" = "Home Net".
Proof.
  apply (decode_essid_roundtrip "Home Net"). reflexivity.
Defined.

(** ** The address of an extracted record *)

Lemma len_is_length (p : ascii -> bool) (s : string) :
  (forall c, p c = true -> Py.is_cont c = false) ->
  Py.sall p s = true -> Py.len s = String.length s.
Proof.
  intros Hp. induction s as [|c r IH]; [reflexivity|].
  cbn [Py.sall Py.len String.length]. intros H. apply andb_prop in H as [Hc Hr].
  now rewrite (Hp c Hc), IH.
Qed.

Lemma hex_lower_facts (c : ascii) :
  Ingest.is_hex_lower c = true ->
  Py.is_cont c = false /\ Ingest.is_hex_any c = true
  /\ WpasecSync.is_hex_upper (Py.upper_char c) = true.
Proof. destruct c as [[] [] [] [] [] [] [] []]; vm_compute; auto; congruence. Qed.

Lemma sfilter_all (p : ascii -> bool) (s : string) :
  Py.sall p s = true -> Py.sfilter p s = s.
Proof.
  induction s as [|c r IH]; [reflexivity|].
  cbn [Py.sall Py.sfilter]. intros H. apply andb_prop in H as [Hc Hr].
  now rewrite Hc, IH.
Qed.

Lemma sall_impl (p q : ascii -> bool) (s : string) :
  (forall c, p c = true -> q c = true) -> Py.sall p s = true -> Py.sall q s = true.
Proof.
  intros Hpq. induction s as [|c r IH]; [reflexivity|].
  cbn [Py.sall]. intros H. apply andb_prop in H as [Hc Hr].
  now rewrite (Hpq c Hc), IH.
Qed.

Lemma mac_groups_smap (p : ascii -> bool) (f : ascii -> ascii) (n : nat) (s : string) :
  f ":"%char = ":"%char ->
  WpasecSync.mac_groups (fun c => p (f c)) n s = true ->
  WpasecSync.mac_groups p n (Py.smap f s) = true.
Proof.
  intros Hf. revert s. induction n as [|n IH]; intros s; [discriminate|].
  destruct s as [|a [|b r]]; try discriminate.
  cbn [WpasecSync.mac_groups Py.smap].
  intros H. apply andb_prop in H as [Hab H]. rewrite Hab. cbn [andb].
  destruct n as [|n'].
  - destruct r; [reflexivity | discriminate].
  - destruct r as [|c r']; [discriminate|].
    apply andb_prop in H as [Hc H]. apply Ascii.eqb_eq in Hc. subst c.
    cbn [Py.smap]. rewrite Hf, Ascii.eqb_refl. cbn [andb]. now apply IH.
Qed.

(** [_fmt_mac_colon] on twelve lowercase hex digits gives a canonical
    address. *)
Lemma fmt_mac_colon_canonical (a : string) :
  Spec.valid_hex12 a = true ->
  Spec.canonical_mac (Ingest._fmt_mac_colon a) = true.
Proof.
  unfold Spec.valid_hex12. intros H. apply andb_prop in H as [Hlen Hall].
  apply Nat.eqb_eq in Hlen.
  unfold Ingest._fmt_mac_colon.
  rewrite (sfilter_all Ingest.is_hex_any a)
    by (apply (sall_impl Ingest.is_hex_lower); auto; intros c Hc;
        apply (hex_lower_facts c Hc)).
  rewrite Hlen. cbn [Nat.eqb negb].
  unfold Spec.canonical_mac, Py.upper. apply mac_groups_smap; [reflexivity|].
  apply (colon_groups_pattern (fun c => WpasecSync.is_hex_upper (Py.upper_char c))).
  - rewrite <- Hlen. symmetry. apply (len_is_length Ingest.is_hex_lower); auto.
    intros c Hc. apply (hex_lower_facts c Hc).
  - apply (sall_impl Ingest.is_hex_lower); auto.
    intros c Hc. apply (hex_lower_facts c Hc).
Qed.

Lemma canonical_char_facts (c : ascii) :
  WpasecSync.is_hex_upper c || Ascii.eqb c ":" = true ->
  Py.is_space c = false /\ Ascii.eqb c "-" = false.
Proof. destruct c as [[] [] [] [] [] [] [] []]; vm_compute; auto; congruence. Qed.

Lemma canonical_chars (n : nat) (s : string) :
  WpasecSync.mac_groups WpasecSync.is_hex_upper n s = true ->
  Py.sall (fun c => WpasecSync.is_hex_upper c || Ascii.eqb c ":") s = true.
Proof.
  revert s. induction n as [|n IH]; intros s; [discriminate|].
  destruct s as [|a [|b r]]; try discriminate.
  cbn [WpasecSync.mac_groups Py.sall].
  intros H. apply andb_prop in H as [Hab H]. apply andb_prop in Hab as [Ha Hb].
  rewrite Ha, Hb. cbn [orb andb].
  destruct n as [|n'].
  - destruct r; [reflexivity | discriminate].
  - destruct r as [|c r']; [discriminate|].
    apply andb_prop in H as [Hc H]. cbn [Py.sall]. rewrite Hc, orb_true_r.
    cbn [andb]. now apply IH.
Qed.

Lemma lstrip_id (p : ascii -> bool) (s : string) :
  Py.sall (fun c => negb (p c)) s = true -> Py.lstrip_by p s = s.
Proof.
  destruct s as [|c r]; [reflexivity|]. cbn [Py.sall Py.lstrip_by].
  intros H. apply andb_prop in H as [Hc _]. apply negb_true_iff in Hc.
  now rewrite Hc.
Qed.

Lemma rstrip_id (p : ascii -> bool) (s : string) :
  Py.sall (fun c => negb (p c)) s = true -> Py.rstrip_by p s = s.
Proof.
  induction s as [|c r IH]; [reflexivity|]. cbn [Py.sall].
  intros H. apply andb_prop in H as [Hc Hr]. apply negb_true_iff in Hc.
  rewrite rstrip_cons_keep by exact Hc. now rewrite IH.
Qed.

Lemma replace_char_id (c : ascii) (t s : string) :
  Py.sall (fun d => negb (Ascii.eqb d c)) s = true -> Py.replace_char c t s = s.
Proof.
  induction s as [|d r IH]; [reflexivity|]. cbn [Py.sall Py.replace_char].
  intros H. apply andb_prop in H as [Hd Hr]. apply negb_true_iff in Hd.
  now rewrite Hd, IH.
Qed.

Lemma hex_upper_ingest_any (c : ascii) :
  WpasecSync.is_hex_upper c = true -> Ingest.is_hex_any c = true.
Proof. destruct c as [[] [] [] [] [] [] [] []]; vm_compute; congruence. Qed.

Lemma canonical_bssid_re (n : nat) (s : string) :
  WpasecSync.mac_groups WpasecSync.is_hex_upper n s = true ->
  Upload.bssid_re n s = true.
Proof.
  revert s. induction n as [|n IH]; intros s; [discriminate|].
  destruct s as [|a [|b r]]; try discriminate.
  cbn [WpasecSync.mac_groups Upload.bssid_re].
  intros H. apply andb_prop in H as [Hab H]. apply andb_prop in Hab as [Ha Hb].
  rewrite (hex_upper_ingest_any a Ha), (hex_upper_ingest_any b Hb). cbn [andb].
  destruct n as [|n'].
  - destruct r; [reflexivity | discriminate].
  - destruct r as [|c r']; [discriminate|].
    apply andb_prop in H as [Hc H]. apply Ascii.eqb_eq in Hc. subst c.
    change (Py.char_in ":-" ":") with true. cbn [andb]. now apply IH.
Qed.

(** The handler's normalisation leaves a canonical address as it is. *)
Lemma norm_bssid_canonical (b : string) :
  Spec.canonical_mac b = true -> Upload.norm_bssid (Some b) = Some b.
Proof.
  intros Hc. unfold Upload.norm_bssid.
  assert (Htr : Py.truthy b = true) by (destruct b; [discriminate Hc | reflexivity]).
  rewrite Htr. cbn [negb].
  pose proof (canonical_chars 6 b Hc) as Hq.
  assert (Hstrip : Py.strip b = b).
  { unfold Py.strip, Py.strip_by.
    assert (Hns : Py.sall (fun c => negb (Py.is_space c)) b = true).
    { apply (sall_impl _ _ b) with (2 := Hq). intros c Hcq.
      destruct (canonical_char_facts c Hcq) as [-> _]. reflexivity. }
    now rewrite (lstrip_id _ b Hns), (rstrip_id _ b Hns). }
  rewrite Hstrip, (canonical_upper_fixed 6 b Hc).
  rewrite replace_char_id.
  - now rewrite (canonical_bssid_re 6 b Hc).
  - apply (sall_impl _ _ b) with (2 := Hq). intros c Hcq.
    destruct (canonical_char_facts c Hcq) as [_ ->]. reflexivity.
Qed.

Lemma convert_ok_inv (pcap_name : string) (run : Ingest.tool_run) (m : Ingest.hc_meta) :
  Ingest.convert_pcap_to_hc22000_and_meta pcap_name run = Py.Ok m ->
  exists line meta,
    Ingest.pcap_exists run = true /\ Ingest.returncode run = 0%Z
    /\ Ingest.out_exists run = true
    /\ Ingest.first_wpa_line
         (Py.splitlines (Py.strip (Py.decode_ignore (Ingest.out_bytes run)))) = Some line
    /\ Ingest._parse_22000_line line = Py.Ok meta.
Proof.
  unfold Ingest.convert_pcap_to_hc22000_and_meta.
  destruct (Ingest.pcap_exists run); cbn [negb]; [|discriminate].
  destruct (Ingest.returncode run =? 0)%Z eqn:Hr; cbn [negb]; [|discriminate].
  destruct (Ingest.out_exists run); cbn [negb]; [|discriminate].
  destruct (Py.truthy _); cbn [negb]; [|discriminate].
  destruct (Ingest.first_wpa_line _) as [line|]; [|discriminate].
  destruct (Py.truthy line); cbn [negb]; [|discriminate].
  destruct (Ingest._parse_22000_line line) as [meta|e] eqn:Hp; [|discriminate].
  intros _. exists line, meta. apply Z.eqb_eq in Hr. auto.
Qed.

(** X9: every record that the extraction returns has hash family 'WPA', a
    variant 'PMKID' or 'EAPOL', a network-name that is null or non-empty,
    and an address that is null or canonical; the handler's own
    normalisation [norm_bssid] then leaves the address as it is. *)
Theorem convert_record_wellformed (pcap_name : string) (run : Ingest.tool_run)
    (m : Ingest.hc_meta) :
  Ingest.convert_pcap_to_hc22000_and_meta pcap_name run = Py.Ok m ->
  Ingest.m_type m = "WPA"
  /\ (Ingest.m_variant m = "PMKID" \/ Ingest.m_variant m = "EAPOL")
  /\ Ingest.m_ssid m <> Some ""
  /\ Upload.norm_bssid (Ingest.m_bssid m) = Ingest.m_bssid m
  /\ match Ingest.m_bssid m with
     | Some b => Spec.canonical_mac b = true
     | None => True
     end.
Proof.
  intros Hok.
  destruct (convert_ok_inv pcap_name run m Hok)
    as (line & meta & Hp & Hr & Ho & Hline & Hparse).
  rewrite (convert_after_parse pcap_name run line meta Hp Hr Ho Hline Hparse) in Hok.
  injection Hok as <-. cbn [Ingest.m_type Ingest.m_variant Ingest.m_ssid Ingest.m_bssid].
  destruct (parse_22000_shape line meta Hparse) as [_ Hv].
  repeat split; auto.
  - unfold Ingest.or_none. destruct (Ingest.hl_ssid meta); cbn; congruence.
  - destruct (Spec.valid_hex12 (Spec.cleaned_bssid meta)) eqn:Hval; [|reflexivity].
    apply norm_bssid_canonical. now apply fmt_mac_colon_canonical.
  - destruct (Spec.valid_hex12 (Spec.cleaned_bssid meta)) eqn:Hval; [|exact I].
    now apply fmt_mac_colon_canonical.
Qed.

Lemma convert_record_wellformed_witness :
  let m := Ingest.mk_hc_meta (Some "home") (Some "FC:69:0C:15:82:64") "WPA" "PMKID" in
  Ingest.m_type m = "WPA"
  /\ (Ingest.m_variant m = "PMKID" \/ Ingest.m_variant m = "EAPOL")
  /\ Ingest.m_ssid m <> Some ""
  /\ Upload.norm_bssid (Ingest.m_bssid m) = Ingest.m_bssid m
  /\ match Ingest.m_bssid m with
     | Some b => Spec.canonical_mac b = true
     | None => True
     end.
Proof.
  apply (convert_record_wellformed "capture.pcap"
           (Ingest.mk_tool_run true 0 "" "" true
              "WPA*01*4d4fe7aac3a2cecab195321ceb99a7d0*fc-69-0c-15-82-64*f4747f87f9f4*686f6d65***")).
  reflexivity.
Defined.

(** ** The upload handler *)

Lemma tool_failed_runtime_error (pcap_name : string) (run : Ingest.tool_run) :
  Facts.tool_failed run ->
  exists msg,
    Ingest.convert_pcap_to_hc22000_and_meta pcap_name run
    = Py.Raise (Py.RuntimeError msg).
Proof.
  unfold Facts.tool_failed, Ingest.convert_pcap_to_hc22000_and_meta.
  intros Hf.
  destruct (Ingest.pcap_exists run); cbn [negb]; [|eauto].
  destruct (Ingest.returncode run =? 0)%Z eqn:Hr; cbn [negb]; [|eauto].
  apply Z.eqb_eq in Hr.
  destruct (Ingest.out_exists run); cbn [negb]; [|eauto].
  destruct Hf as [Hf | [Hf | [Hf | Hf]]]; try congruence.
  destruct (Py.truthy _); cbn [negb]; [|eauto].
  rewrite Hf. eauto.
Qed.

Section UploadProps.
Context `{Py.Lib}.

(** X10: when the converter run gives nothing to parse, the upload still
    succeeds: one row is appended with the name taken from the file, a
    null address, vendor, hash family and variant, the date and time of the
    location reading and a null password, and the response carries the
    soft warning. *)
Theorem upload_conversion_failure_is_soft (ssid_from_name : string)
    (gps : option Py.json) (g : Ingest.gps_info) (pcap_name : string)
    (run : Ingest.tool_run) (t : Ingest.oui_table) (d : Queries.db) :
  Ingest.parse_gps_json gps = Py.Ok g ->
  Facts.tool_failed run ->
  Upload.upload_pair ssid_from_name gps pcap_name run t d =
  Py.Ok
    (Queries.mk_db
       (Queries.rows d ++
        [Queries.mk_network (Queries.seq d + 1) (Some ssid_from_name) None None
           (Some (Py.strftime_date (Ingest.gi_datetime g)))
           (Some (Py.strftime_time (Ingest.gi_datetime g)))
           None None
           (Some (Ingest.gi_latitude g)) (Some (Ingest.gi_longitude g))
           (Ingest.gi_altitude g) (Ingest.gi_accuracy g) None])
       (Queries.seq d + 1),
     Upload.mk_response ssid_from_name (Queries.seq d + 1) true).
Proof.
  intros Hg Hf. unfold Upload.upload_pair. rewrite Hg.
  destruct (tool_failed_runtime_error pcap_name run Hf) as [msg ->].
  cbn [option_map Upload.norm_bssid].
  rewrite insert_null_bssid by reflexivity. reflexivity.
Qed.

(** X11: a first sentinel line that [_parse_22000_line] rejects is not a
    soft failure: its [ValueError] leaves the extraction and the upload
    handler, and nothing is stored. *)
Theorem upload_malformed_hashline_escapes (ssid_from_name : string)
    (gps : option Py.json) (g : Ingest.gps_info) (pcap_name : string)
    (run : Ingest.tool_run) (t : Ingest.oui_table) (d : Queries.db)
    (line : string) (e : Py.exn) :
  Ingest.parse_gps_json gps = Py.Ok g ->
  Ingest.pcap_exists run = true ->
  Ingest.returncode run = 0%Z ->
  Ingest.out_exists run = true ->
  Ingest.first_wpa_line
    (Py.splitlines (Py.strip (Py.decode_ignore (Ingest.out_bytes run)))) = Some line ->
  Ingest._parse_22000_line line = Py.Raise e ->
  Ingest.convert_pcap_to_hc22000_and_meta pcap_name run = Py.Raise e
  /\ Upload.upload_pair ssid_from_name gps pcap_name run t d = Py.Raise e
  /\ exists msg, e = Py.ValueError msg.
Proof.
  intros Hg Hp Hr Ho Hline Hparse.
  assert (Hv : exists msg, e = Py.ValueError msg).
  { unfold Ingest._parse_22000_line in Hparse.
    repeat match type of Hparse with
    | (if ?c then _ else _) = _ => destruct c
    end; inversion Hparse; eauto. }
  assert (Hconv : Ingest.convert_pcap_to_hc22000_and_meta pcap_name run = Py.Raise e).
  { unfold Ingest.convert_pcap_to_hc22000_and_meta.
    rewrite Hp, Hr, Ho. cbn [negb Z.eqb].
    destruct (first_wpa_line_found _ _ Hline) as [Htext Hl].
    now rewrite Htext, Hline, Hl, Hparse. }
  repeat split; auto.
  unfold Upload.upload_pair. rewrite Hg, Hconv.
  destruct Hv as [msg ->]. reflexivity.
Qed.

(** X12: a location document that does not decode, or that is an object
    without one of the three required members, is answered with status 400
    and nothing is stored; an exception of the parser that is not a
    [ValueError] leaves the handler as it is. *)
Theorem upload_rejects_bad_location (ssid_from_name : string)
    (gps : option Py.json) (pcap_name : string)
    (run : Ingest.tool_run) (t : Ingest.oui_table) (d : Queries.db) :
  ((gps = None
    \/ exists ms k, gps = Some (Py.JObj ms)
                    /\ In k ["Updated"; "Latitude"; "Longitude"]
                    /\ Ingest.obj_get k ms = None) ->
   exists detail,
     Upload.upload_pair ssid_from_name gps pcap_name run t d
     = Py.Raise (Py.HTTPException 400 detail))
  /\ (forall e,
        Ingest.parse_gps_json gps = Py.Raise e ->
        (forall msg, e <> Py.ValueError msg) ->
        Upload.upload_pair ssid_from_name gps pcap_name run t d = Py.Raise e).
Proof.
  split.
  - intros Hbad.
    assert (Hv : exists msg, Ingest.parse_gps_json gps = Py.Raise (Py.ValueError msg)).
    { destruct Hbad as [-> | (ms & k & -> & Hk & Hnone)]; [cbn; eauto|].
      rewrite parse_gps_object.
      destruct Hk as [<- | [<- | [<- | []]]]; rewrite Hnone.
      - eauto.
      - destruct (Ingest.obj_get "Updated" ms); eauto.
      - destruct (Ingest.obj_get "Updated" ms); [|eauto].
        destruct (Ingest.obj_get "Latitude" ms); eauto. }
    destruct Hv as [msg Hv]. unfold Upload.upload_pair. rewrite Hv. eauto.
  - intros e He Hne. unfold Upload.upload_pair. rewrite He.
    destruct e; try reflexivity. exfalso. now apply (Hne msg).
Qed.

End UploadProps.

Lemma upload_conversion_failure_is_soft_witness :
  Upload.upload_pair (H := RefLib.ref_lib) "home"
    (Some (@Spec.example_gps RefLib.ref_lib (RefLib.dec_to_float false 451 (-1))
                               (RefLib.dec_to_float false 92 (-1))))
    "home_210552.pcap"
    (Ingest.mk_tool_run true 1 "" "unsupported dump file format" false "")
    Ingest.empty_table Queries.empty_db
  = Py.Ok
      (Queries.mk_db
         [@Queries.mk_network RefLib.ref_lib 1 (Some "home") None None
            (Some "2025-08-29") (Some "21:05:52") None None
            (Some (RefLib.dec_to_float false 451 (-1)))
            (Some (RefLib.dec_to_float false 92 (-1))) None None None] 1,
       Upload.mk_response "home" 1 true).
Proof.
  apply (upload_conversion_failure_is_soft (H := RefLib.ref_lib) "home" _
           (@Ingest.mk_gps_info RefLib.ref_lib
              (Py.mk_datetime 2025 8 29 21 5 52 0 None)
              (RefLib.dec_to_float false 451 (-1))
              (RefLib.dec_to_float false 92 (-1)) None None)).
  - reflexivity.
  - right. left. discriminate.
Defined.

Lemma upload_malformed_hashline_escapes_witness :
  Ingest.convert_pcap_to_hc22000_and_meta "home_210552.pcap"
    (Ingest.mk_tool_run true 0 "" "" true "WPA*03*aa*bb*cc*dd")
  = Py.Raise (Py.ValueError "Unknown 22000 kind code: 03")
  /\ Upload.upload_pair (H := RefLib.ref_lib) "home"
       (Some (@Spec.example_gps RefLib.ref_lib (RefLib.dec_to_float false 451 (-1))
                                  (RefLib.dec_to_float false 92 (-1))))
       "home_210552.pcap"
       (Ingest.mk_tool_run true 0 "" "" true "WPA*03*aa*bb*cc*dd")
       Ingest.empty_table Queries.empty_db
     = Py.Raise (Py.ValueError "Unknown 22000 kind code: 03")
  /\ exists msg, Py.ValueError "Unknown 22000 kind code: 03" = Py.ValueError msg.
Proof.
  apply (upload_malformed_hashline_escapes (H := RefLib.ref_lib) "home" _
           (@Ingest.mk_gps_info RefLib.ref_lib
              (Py.mk_datetime 2025 8 29 21 5 52 0 None)
              (RefLib.dec_to_float false 451 (-1))
              (RefLib.dec_to_float false 92 (-1)) None None)
           _ _ _ _ "WPA*03*aa*bb*cc*dd");
    reflexivity.
Defined.

Lemma upload_rejects_bad_location_witness :
  (exists detail,
     Upload.upload_pair (H := RefLib.ref_lib) "home"
       (Some (Py.JObj [("Updated", Py.JStr "2025-08-29 21:05:52")]))
       "home_210552.pcap"
       (Ingest.mk_tool_run true 0 "" "" true "")
       Ingest.empty_table Queries.empty_db
     = Py.Raise (Py.HTTPException 400 detail))
  /\ Upload.upload_pair (H := RefLib.ref_lib) "home"
       (Some (Py.JObj [("Updated", Py.JStr "2025-08-29 21:05:52");
                       ("Latitude", Py.JNull); ("Longitude", Py.JNull)]))
       "home_210552.pcap"
       (Ingest.mk_tool_run true 0 "" "" true "")
       Ingest.empty_table Queries.empty_db
     = Py.Raise (Py.TypeError "float() argument must be a string or a real number").
Proof.
  split.
  - apply (upload_rejects_bad_location (H := RefLib.ref_lib)).
    right. exists [("Updated", Py.JStr "2025-08-29 21:05:52")], "Latitude".
    repeat split. right. now left.
  - apply (upload_rejects_bad_location (H := RefLib.ref_lib)).
    + reflexivity.
    + discriminate.
Defined.

(** ** The [networks] table, continued *)

Section TableMore.
Context `{Py.Lib}.

Lemma collides_sym (r1 r2 : Queries.network) :
  Queries.collides r1 r2 = Queries.collides r2 r1.
Proof.
  unfold Queries.collides.
  now rewrite (sql_eq_sym (Queries.bssid r1)), (sql_eq_sym (Queries.date r1)),
    (sql_eq_sym (Queries.time r1)).
Qed.

Lemma select_id_collides (d : Queries.db) (r : Queries.network) :
  Queries.select_id d (Queries.bssid r) (Queries.date r) (Queries.time r) =
  option_map Queries.id (find (Queries.collides r) (Queries.rows d)).
Proof.
  unfold Queries.select_id.
  assert (E : forall rs,
            find (fun row => Queries.sql_eq (Queries.bssid row) (Queries.bssid r)
                             && Queries.sql_eq (Queries.date row) (Queries.date r)
                             && Queries.sql_eq (Queries.time row) (Queries.time r)) rs
            = find (Queries.collides r) rs).
  { induction rs as [|row rs IH]; [reflexivity|]. cbn [find].
    rewrite IH. unfold Queries.collides.
    now rewrite (sql_eq_sym (Queries.bssid r)), (sql_eq_sym (Queries.date r)),
      (sql_eq_sym (Queries.time r)). }
  rewrite E. destruct (find _ _); reflexivity.
Qed.

Lemma insert_cases (d d' : Queries.db) (r : Queries.network) (i : Z) :
  (0 <= Queries.seq d)%Z ->
  Queries.insert_network_record d r = (d', i) ->
  (d' = Queries.mk_db (Queries.rows d) (Queries.seq d + 1)
   /\ exists row, In row (Queries.rows d) /\ Queries.id row = i
                  /\ Queries.collides r row = true)
  \/ (d' = Queries.mk_db (Queries.rows d ++ [Queries.with_id i r]) i
      /\ i = (Queries.seq d + 1)%Z
      /\ existsb (Queries.collides r) (Queries.rows d) = false).
Proof.
  intros Hseq E.
  destruct (existsb (Queries.collides r) (Queries.rows d)) eqn:Hex.
  - assert (Hb : Queries.bssid r <> None).
    { intros Hn. rewrite null_never_collides in Hex by auto. discriminate. }
    destruct (existsb_find_some _ _ Hex) as (row & Hfind & Hin & Hrow).
    unfold Queries.insert_network_record, Queries.insert_or_ignore in E.
    cbv zeta in E. rewrite Hex in E. cbn [Z.eqb andb] in E.
    destruct (Queries.bssid r) eqn:Hbs; [|contradiction].
    rewrite <- Hbs, select_id_collides in E. cbn [Queries.rows] in E.
    rewrite Hfind in E. cbn in E.
    injection E as <- <-. left. split; eauto.
  - rewrite (insert_no_collision d r Hex) in E.
    assert (Hnz : (Queries.seq d + 1 =? 0)%Z = false) by (apply Z.eqb_neq; lia).
    rewrite Hnz in E. cbn [andb] in E. injection E as <- <-.
    right. auto.
Qed.

(** X13: on a table whose sequence counter is not negative,
    [insert_network_record] either appends the record under the next rowid
    and returns that rowid, or finds a row with the same non-null address,
    date and time, stores nothing and returns the id of that row; so the
    id it returns always names a stored row, and that row has the address,
    date and time of the record whenever the record has all three. In
    both cases the sequence counter advances by one: an ignored insert
    leaves a gap in the rowids. *)
Theorem insert_returns_stored_row (d d' : Queries.db) (r : Queries.network) (i : Z) :
  (0 <= Queries.seq d)%Z ->
  Queries.insert_network_record d r = (d', i) ->
  (exists row, In row (Queries.rows d') /\ Queries.id row = i
               /\ (Queries.collides r r = true -> Queries.collides r row = true))
  /\ Queries.seq d' = (Queries.seq d + 1)%Z
  /\ ((Queries.rows d' = Queries.rows d
       /\ existsb (Queries.collides r) (Queries.rows d) = true)
      \/ (Queries.rows d' = (Queries.rows d ++ [Queries.with_id i r])%list
          /\ i = (Queries.seq d + 1)%Z
          /\ existsb (Queries.collides r) (Queries.rows d) = false)).
Proof.
  intros Hseq E.
  destruct (insert_cases d d' r i Hseq E)
    as [(-> & row & Hin & Hid & Hc) | (-> & -> & Hex)]; cbn [Queries.rows Queries.seq].
  - split; [exists row; auto|]. split; [reflexivity|]. left. split; auto.
    apply existsb_exists. eauto.
  - split; [|split; [reflexivity | right; auto]].
    exists (Queries.with_id (Queries.seq d + 1) r). split; [|split].
    + apply in_or_app. right. now left.
    + reflexivity.
    + intros Hc. exact Hc.
Qed.

Lemma FOP_snoc {A} (R : A -> A -> Prop) (l : list A) (x : A) :
  ForallOrdPairs R l -> Forall (fun y => R y x) l -> ForallOrdPairs R (l ++ [x]).
Proof.
  induction 1 as [|y l Hy Hl IH]; cbn; intros Hx.
  - constructor; constructor.
  - inversion Hx; subst. constructor.
    + apply Forall_app. split; auto.
    + now apply IH.
Qed.

Lemma FOP_map {A} (R : A -> A -> Prop) (g : A -> A) (l : list A) :
  (forall a b, R a b -> R (g a) (g b)) ->
  ForallOrdPairs R l -> ForallOrdPairs R (map g l).
Proof.
  intros Hg. induction 1 as [|y l Hy Hl IH]; cbn; constructor; auto.
  apply Forall_map. revert Hy. apply Forall_impl. intros a. apply Hg.
Qed.

Lemma wf_insert (d : Queries.db) (r : Queries.network) :
  Facts.wf_db d -> Facts.wf_db (fst (Queries.insert_network_record d r)).
Proof.
  intros (Hseq & Hids & Hnd & Hfop).
  destruct (Queries.insert_network_record d r) as [d' i] eqn:E. cbn [fst].
  destruct (insert_cases d d' r i Hseq E) as [(-> & _) | (-> & -> & Hex)].
  - unfold Facts.wf_db. cbn [Queries.rows Queries.seq].
    split; [lia|]. split; [|split; assumption].
    revert Hids. apply Forall_impl. intros row. lia.
  - unfold Facts.wf_db. cbn [Queries.rows Queries.seq]. repeat split.
    + lia.
    + apply Forall_app. split.
      * revert Hids. apply Forall_impl. intros row. lia.
      * constructor; [cbn; lia | constructor].
    + rewrite map_app. cbn. apply NoDup_snoc; auto.
      intros Hin. apply in_map_iff in Hin as (row & Hid & Hin).
      rewrite Forall_forall in Hids. specialize (Hids row Hin). lia.
    + apply FOP_snoc; auto.
      apply Forall_forall. intros row Hin.
      assert (Hc : Queries.collides r row = false).
      { destruct (Queries.collides r row) eqn:Hc; auto.
        assert (Ht : existsb (Queries.collides r) (Queries.rows d) = true)
          by (apply existsb_exists; eauto).
        congruence. }
      rewrite collides_sym. exact Hc.
Qed.

Lemma wf_rows_map (g : Queries.network -> Queries.network) (rs : list Queries.network)
    (s : Z) :
  (forall row, Queries.id (g row) = Queries.id row
               /\ Queries.bssid (g row) = Queries.bssid row
               /\ Queries.date (g row) = Queries.date row
               /\ Queries.time (g row) = Queries.time row) ->
  Facts.wf_db (Queries.mk_db rs s) -> Facts.wf_db (Queries.mk_db (map g rs) s).
Proof.
  intros Hg (Hseq & Hids & Hnd & Hfop). unfold Facts.wf_db in *.
  cbn [Queries.rows Queries.seq] in *. repeat split; auto.
  - apply Forall_map. revert Hids. apply Forall_impl. intros row.
    destruct (Hg row) as (-> & _). auto.
  - rewrite map_map.
    replace (map (fun x => Queries.id (g x)) rs) with (map Queries.id rs); auto.
    apply map_ext. intros row. destruct (Hg row) as (-> & _). reflexivity.
  - apply FOP_map; auto. intros a b. unfold Queries.collides.
    destruct (Hg a) as (_ & -> & -> & ->). destruct (Hg b) as (_ & -> & -> & ->).
    auto.
Qed.

Lemma wf_bulk_fold (items : list (string * string)) (rs : list Queries.network)
    (n : nat) (s : Z) :
  Facts.wf_db (Queries.mk_db rs s) ->
  Facts.wf_db (Queries.mk_db (fst (fold_left Queries.bulk_step items (rs, n))) s).
Proof.
  revert rs n. induction items as [|[b pwd] items IH]; intros rs n Hwf; [exact Hwf|].
  cbn [fold_left]. rewrite bulk_step_rows.
  destruct (negb (Py.truthy b) || negb (Py.truthy pwd)); [now apply IH|].
  apply IH. apply wf_rows_map; auto.
  intros row. destruct (Queries.update_matches b row); auto.
Qed.

Lemma wf_update (d : Queries.db) (items : list (string * string)) :
  Facts.wf_db d -> Facts.wf_db (fst (Queries.bulk_update_passwords d items)).
Proof.
  intros Hwf. unfold Queries.bulk_update_passwords.
  destruct items as [|item items]; [exact Hwf|].
  pose proof (wf_bulk_fold (item :: items) (Queries.rows d) 0 (Queries.seq d)) as Hf.
  destruct (fold_left Queries.bulk_step (item :: items) (Queries.rows d, 0))
    as [rs n]. cbn [fst] in *. apply Hf. destruct d. exact Hwf.
Qed.

(** X14: every table built from the empty table by inserts and correlation
    updates has positive rowids, none above the sequence counter and none
    twice, and no two rows with the same non-null address, date and
    time. *)
Theorem reachable_table_wellformed (d : Queries.db) :
  Facts.reachable d -> Facts.wf_db d.
Proof.
  induction 1 as [|d r _ IH|d items _ IH].
  - unfold Facts.wf_db. cbn. repeat split; try constructor. lia.
  - now apply wf_insert.
  - now apply wf_update.
Qed.

Lemma update_step_counts (b pwd : string) (rs : list Queries.network) :
  Queries.password_blank (Some pwd) = false ->
  let rs' := map (fun row => if Queries.update_matches b row
                             then Queries.set_password pwd row else row) rs in
  let n := List.length (filter (Queries.update_matches b) rs) in
  List.length rs' = List.length rs
  /\ List.length (filter Networks.cracked rs')
     = List.length (filter Networks.cracked rs) + n
  /\ List.length (filter Networks.uncracked rs') + n
     = List.length (filter Networks.uncracked rs)
  /\ List.length (filter Networks.with_coords rs')
     = List.length (filter Networks.with_coords rs)
  /\ List.length (filter Networks.empty_bssid rs')
     = List.length (filter Networks.empty_bssid rs).
Proof.
  intros Hp. induction rs as [|row rs IH]; [cbn; auto|].
  cbn zeta in *. destruct IH as (IH1 & IH2 & IH3 & IH4 & IH5).
  cbn [map filter].
  destruct (Queries.update_matches b row) eqn:Hm.
  - assert (Hblank : Queries.password_blank (Queries.password row) = true).
    { unfold Queries.update_matches in Hm. now apply andb_prop in Hm as [_ Hm]. }
    assert (Hc0 : Networks.cracked row = false).
    { unfold Networks.cracked. unfold Queries.password_blank in Hblank.
      destruct (Queries.password row); [now rewrite Hblank | reflexivity]. }
    assert (Hu0 : Networks.uncracked row = true).
    { unfold Networks.uncracked. unfold Queries.password_blank in Hblank.
      destruct (Queries.password row); auto. }
    assert (Hc1 : Networks.cracked (Queries.set_password pwd row) = true).
    { unfold Networks.cracked. cbn. unfold Queries.password_blank in Hp.
      now rewrite Hp. }
    assert (Hu1 : Networks.uncracked (Queries.set_password pwd row) = false).
    { unfold Networks.uncracked. cbn. exact Hp. }
    change (Networks.with_coords (Queries.set_password pwd row))
      with (Networks.with_coords row).
    change (Networks.empty_bssid (Queries.set_password pwd row))
      with (Networks.empty_bssid row).
    rewrite Hc0, Hu0, Hc1, Hu1.
    destruct (Networks.with_coords row), (Networks.empty_bssid row);
      cbn [List.length]; repeat split; lia.
  - destruct (Networks.cracked row), (Networks.uncracked row),
      (Networks.with_coords row), (Networks.empty_bssid row);
      cbn [List.length]; repeat split; lia.
Qed.

Lemma bulk_fold_counts (items : list (string * string)) (rs : list Queries.network)
    (n : nat) :
  (forall b p, In (b, p) items -> Spec.only_spaces p = false) ->
  let rs' := fst (fold_left Queries.bulk_step items (rs, n)) in
  let n' := snd (fold_left Queries.bulk_step items (rs, n)) in
  List.length rs' = List.length rs
  /\ List.length (filter Networks.cracked rs') + n
     = List.length (filter Networks.cracked rs) + n'
  /\ List.length (filter Networks.uncracked rs') + n'
     = List.length (filter Networks.uncracked rs) + n
  /\ List.length (filter Networks.with_coords rs')
     = List.length (filter Networks.with_coords rs)
  /\ List.length (filter Networks.empty_bssid rs')
     = List.length (filter Networks.empty_bssid rs).
Proof.
  revert rs n. induction items as [|[b pwd] items IH]; intros rs n Hns.
  - cbn. repeat split; lia.
  - assert (Hns' : forall b0 p0, In (b0, p0) items -> Spec.only_spaces p0 = false)
      by (intros b0 p0 Hx; apply (Hns b0); now right).
    cbn [fold_left]. rewrite bulk_step_rows.
    destruct (Py.truthy b) eqn:Hb; cbn [negb orb]; [|now apply IH].
    destruct (Py.truthy pwd) eqn:Hp; cbn [negb]; [|now apply IH].
    assert (Hnb : Queries.password_blank (Some pwd) = false).
    { apply nonblank_password; auto. apply (Hns b). now left. }
    destruct (update_step_counts b pwd rs Hnb) as (S1 & S2 & S3 & S4 & S5).
    specialize (IH (map (fun row => if Queries.update_matches b row
                                    then Queries.set_password pwd row else row) rs)
                   (n + List.length (filter (Queries.update_matches b) rs)) Hns').
    cbn zeta in *. destruct IH as (I1 & I2 & I3 & I4 & I5).
    repeat split; lia.
Qed.

(** X15: the statistics always split the rows into cracked and uncracked;
    a correlation update whose pairs carry no password made of spaces only
    moves exactly [rows_updated] rows from uncracked to cracked and leaves
    the total, the rows with coordinates and the rows without address as
    they were; and a row counted as cracked has the status 'cracked' in
    the GeoJSON view. *)
Theorem stats_after_correlation (d : Queries.db) (items : list (string * string)) :
  Networks.st_cracked (Networks.stats d) + Networks.st_uncracked (Networks.stats d)
  = Networks.st_total (Networks.stats d)
  /\ (forall row, Networks.cracked row = true ->
        Networks.status_of (Queries.password row) = "cracked")
  /\ ((forall b p, In (b, p) items -> Spec.only_spaces p = false) ->
      let d' := fst (Queries.bulk_update_passwords d items) in
      let n := snd (Queries.bulk_update_passwords d items) in
      Networks.st_total (Networks.stats d') = Networks.st_total (Networks.stats d)
      /\ Networks.st_cracked (Networks.stats d')
         = Networks.st_cracked (Networks.stats d) + n
      /\ Networks.st_uncracked (Networks.stats d') + n
         = Networks.st_uncracked (Networks.stats d)
      /\ Networks.st_with_coords (Networks.stats d')
         = Networks.st_with_coords (Networks.stats d)
      /\ Networks.st_empty_bssid (Networks.stats d')
         = Networks.st_empty_bssid (Networks.stats d)).
Proof.
  split; [|split].
  - unfold Networks.stats, Networks.count. cbn.
    induction (Queries.rows d) as [|row rs IH]; [reflexivity|].
    cbn [filter List.length].
    assert (Hx : Networks.uncracked row = negb (Networks.cracked row)).
    { unfold Networks.uncracked, Networks.cracked.
      destruct (Queries.password row); [now rewrite negb_involutive | reflexivity]. }
    rewrite Hx. destruct (Networks.cracked row); cbn [negb List.length]; lia.
  - intros row. unfold Networks.cracked, Networks.status_of.
    destruct (Queries.password row) as [p|]; [|discriminate].
    destruct p; [discriminate | reflexivity].
  - intros Hns. unfold Queries.bulk_update_passwords.
    destruct items as [|item items]; [cbn; repeat split; lia|].
    pose proof (bulk_fold_counts (item :: items) (Queries.rows d) 0 Hns) as Hc.
    destruct (fold_left Queries.bulk_step (item :: items) (Queries.rows d, 0))
      as [rs n]. cbn [fst snd] in *. cbn zeta in Hc.
    unfold Networks.stats, Networks.count. cbn. lia.
Qed.

End TableMore.

Lemma insert_returns_stored_row_witness :
  let k := @Queries.mk_network RefLib.ref_lib 0 (Some "home") (Some "AA:BB:CC:DD:EE:FF")
             None (Some "2025-08-29") (Some "21:05:52") None None None None None None
             None in
  let d := fst (Queries.insert_network_record Queries.empty_db k) in
  let d' := fst (Queries.insert_network_record d k) in
  (exists row, In row (Queries.rows d') /\ Queries.id row = 1%Z
               /\ (Queries.collides k k = true -> Queries.collides k row = true))
  /\ Queries.seq d' = (Queries.seq d + 1)%Z
  /\ ((Queries.rows d' = Queries.rows d
       /\ existsb (Queries.collides k) (Queries.rows d) = true)
      \/ (Queries.rows d' = (Queries.rows d ++ [Queries.with_id 1 k])%list
          /\ 1%Z = (Queries.seq d + 1)%Z
          /\ existsb (Queries.collides k) (Queries.rows d) = false)).
Proof.
  intros k d d'.
  apply (insert_returns_stored_row (H := RefLib.ref_lib) d d' k 1%Z).
  - cbn. lia.
  - reflexivity.
Defined.

Lemma reachable_table_wellformed_witness :
  let k := @Queries.mk_network RefLib.ref_lib 0 (Some "home") (Some "AA:BB:CC:DD:EE:FF")
             None (Some "2025-08-29") (Some "21:05:52") None None None None None None
             None in
  Facts.wf_db
    (fst (Queries.bulk_update_passwords
            (fst (Queries.insert_network_record
                    (fst (Queries.insert_network_record Queries.empty_db k)) k))
            [("AA:BB:CC:DD:EE:FF", "hunter2")])).
Proof.
  intros k.
  apply (reachable_table_wellformed (H := RefLib.ref_lib)).
  apply Facts.reach_update, Facts.reach_insert, Facts.reach_insert, Facts.reach_empty.
Defined.

Lemma stats_after_correlation_witness :
  let d := Queries.mk_db
             [@Queries.mk_network RefLib.ref_lib 1 (Some "home") (Some "aa-bb-cc-dd-ee-ff")
                None (Some "2025-08-29") (Some "21:05:52") None None None None None None
                None;
              @Queries.mk_network RefLib.ref_lib 2 (Some "work") (Some "AA:BB:CC:DD:EE:FF")
                None (Some "2025-08-30") (Some "08:00:00") None None None None None None
                (Some "known")] 2 in
  let items := [("AA:BB:CC:DD:EE:FF", "hunter2")] in
  Networks.st_cracked (Networks.stats (fst (Queries.bulk_update_passwords d items)))
  = Networks.st_cracked (Networks.stats d)
    + snd (Queries.bulk_update_passwords d items)
  /\ snd (Queries.bulk_update_passwords d items) = 1.
Proof.
  intros d items. split; [|reflexivity].
  destruct (stats_after_correlation (H := RefLib.ref_lib) d items) as (_ & _ & Hc).
  apply Hc. intros b p [E | []]. injection E as <- <-. reflexivity.
Defined.

(** ** A synchronisation run *)

Lemma download_ok_tidy (wpasec_url key : string) (net : Sync.network)
    (pairs : list (string * string)) :
  fst (Sync.download_cracked_potfile wpasec_url key net) = Py.Ok pairs ->
  key <> "" /\ Facts.tidy pairs /\ Forall (fun bp => snd bp <> "") pairs.
Proof.
  unfold Sync.download_cracked_potfile.
  destruct key as [|c key]; [discriminate|]. cbn [Py.truthy negb].
  intros E. split; [discriminate|]. revert E.
  destruct (Sync._http_get_with_retry net _ _ _) as [[text|e] trace0];
    cbn [fst]; [|discriminate].
  destruct (_ && _); cbn [fst].
  - destruct (net trace0 _) as [text_c|]; cbn [fst]; [|discriminate].
    intros E. injection E as <-. apply parse_text_tidy.
  - intros E. injection E as <-. apply parse_text_tidy.
Qed.

Lemma sall_sfilter (p q : ascii -> bool) (s : string) :
  Py.sall q s = true -> Py.sall q (Py.sfilter p s) = true.
Proof.
  induction s as [|c r IH]; [reflexivity|]. cbn [Py.sall Py.sfilter].
  intros H. apply andb_prop in H as [Hc Hr].
  destruct (p c); cbn [Py.sall]; [rewrite Hc|]; auto.
Qed.

Lemma canonical_char_not_blank (c : ascii) :
  WpasecSync.is_hex_upper c || Ascii.eqb c ":" = true -> Ascii.eqb c " " = false.
Proof. destruct c as [[] [] [] [] [] [] [] []]; vm_compute; auto; congruence. Qed.

Lemma remove_colon_inj (n : nat) (s1 s2 : string) :
  WpasecSync.mac_groups WpasecSync.is_hex_upper n s1 = true ->
  WpasecSync.mac_groups WpasecSync.is_hex_upper n s2 = true ->
  Py.remove_char ":" s1 = Py.remove_char ":" s2 -> s1 = s2.
Proof.
  unfold Py.remove_char.
  revert s1 s2. induction n as [|n IH]; intros s1 s2; [discriminate|].
  destruct s1 as [|a1 [|b1 r1]]; try discriminate.
  destruct s2 as [|a2 [|b2 r2]]; try discriminate.
  cbn [WpasecSync.mac_groups Py.sfilter].
  intros H1 H2.
  apply andb_prop in H1 as [Hab1 H1]. apply andb_prop in Hab1 as [Ha1 Hb1].
  apply andb_prop in H2 as [Hab2 H2]. apply andb_prop in Hab2 as [Ha2 Hb2].
  rewrite (hex_upper_not_colon a1 Ha1), (hex_upper_not_colon b1 Hb1),
    (hex_upper_not_colon a2 Ha2), (hex_upper_not_colon b2 Hb2).
  cbn [negb]. intros E. injection E as -> -> E.
  destruct n as [|n'].
  - destruct r1; [|discriminate]. destruct r2; [|discriminate]. reflexivity.
  - destruct r1 as [|c1 r1]; [discriminate|]. destruct r2 as [|c2 r2]; [discriminate|].
    apply andb_prop in H1 as [Hc1 H1]. apply andb_prop in H2 as [Hc2 H2].
    apply Ascii.eqb_eq in Hc1, Hc2. subst c1 c2.
    cbn [Py.sfilter] in E. change (negb (Ascii.eqb ":" ":")) with false in E.
    cbn iota in E. now rewrite (IH r1 r2 H1 H2 E).
Qed.

Section SyncProps.
Context `{Py.Lib}.

Lemma canonical_sql_norm (b : string) :
  Spec.canonical_mac b = true ->
  Queries.sql_norm_bssid b = Py.remove_char ":" b.
Proof.
  intros Hc. unfold Queries.sql_norm_bssid.
  pose proof (canonical_chars 6 b Hc) as Hq.
  assert (Htrim : Queries.sql_trim b = b).
  { unfold Queries.sql_trim, Py.strip_by.
    assert (Hns : Py.sall (fun c => negb (Ascii.eqb c " ")) b = true).
    { apply (sall_impl _ _ b) with (2 := Hq). intros c Hcq.
      now rewrite (canonical_char_not_blank c Hcq). }
    now rewrite (lstrip_id _ b Hns), (rstrip_id _ b Hns). }
  rewrite Htrim, (canonical_upper_fixed 6 b Hc).
  unfold Py.remove_char at 1. apply sfilter_all.
  unfold Py.remove_char. apply sall_sfilter.
  apply (sall_impl _ _ b) with (2 := Hq). intros c Hcq.
  destruct (canonical_char_facts c Hcq) as [_ ->]. reflexivity.
Qed.

Lemma tidy_distinct_norm (pairs : list (string * string)) :
  Facts.tidy pairs ->
  ForallOrdPairs (fun bp1 bp2 => Queries.sql_norm_bssid (fst bp1)
                                 <> Queries.sql_norm_bssid (fst bp2)) pairs.
Proof.
  intros [Hnd Hc]. induction pairs as [|[b p] pairs IH]; [constructor|].
  cbn [map fst] in Hnd. inversion Hnd as [|? ? Hnotin Hnd']; subst.
  inversion Hc as [|? ? Hb Hc']; subst. cbn [fst] in Hb.
  constructor; [|now apply IH].
  apply Forall_forall. intros [b' p'] Hin. cbn [fst].
  rewrite Forall_forall in Hc'. pose proof (Hc' _ Hin) as Hb'. cbn [fst] in Hb'.
  rewrite (canonical_sql_norm b Hb), (canonical_sql_norm b' Hb').
  intros E. apply (remove_colon_inj 6 b b' Hb Hb') in E. subst b'.
  apply Hnotin. now apply (in_map fst _ (b, p')).
Qed.

Lemma filter_length_impl {A} (p q : A -> bool) (l : list A) :
  (forall x, p x = true -> q x = true) ->
  List.length (filter p l) <= List.length (filter q l).
Proof.
  intros Hpq. induction l as [|x l IH]; [reflexivity|]. cbn [filter].
  destruct (p x) eqn:Hp.
  - rewrite (Hpq x Hp). cbn. lia.
  - destruct (q x); cbn; lia.
Qed.

Lemma update_step_bound (b pwd : string) (items : list (string * string))
    (rs : list Queries.network) :
  Forall (fun bp => Queries.sql_norm_bssid b <> Queries.sql_norm_bssid (fst bp)) items ->
  List.length (filter (Queries.update_matches b) rs)
  + List.length
      (filter (fun row => existsb (fun bp => Queries.update_matches (fst bp) row) items)
         (map (fun row => if Queries.update_matches b row
                          then Queries.set_password pwd row else row) rs))
  <= List.length
       (filter (fun row => existsb (fun bp => Queries.update_matches (fst bp) row)
                             ((b, pwd) :: items)) rs).
Proof.
  intros Hd. induction rs as [|row rs IH]; [reflexivity|].
  cbn [map filter existsb fst] in IH |- *.
  destruct (Queries.update_matches b row) eqn:Hm; cbn [orb].
  - assert (Hno : existsb (fun bp => Queries.update_matches (fst bp)
                                       (Queries.set_password pwd row)) items = false).
    { apply not_true_is_false. intros Hex.
      apply existsb_exists in Hex as ([b' p'] & Hin & Hm').
      rewrite Forall_forall in Hd. apply (Hd _ Hin). cbn [fst] in *.
      unfold Queries.update_matches in Hm, Hm'.
      cbn [Queries.set_password Queries.bssid] in Hm'.
      destruct (Queries.bssid row) as [rb|]; [|discriminate].
      apply andb_prop in Hm as [Hm _]. apply andb_prop in Hm' as [Hm' _].
      apply String.eqb_eq in Hm, Hm'. congruence. }
    rewrite Hno. cbn [List.length]. lia.
  - destruct (existsb _ items); cbn [List.length]; lia.
Qed.

Lemma fold_updated_bound (items : list (string * string))
    (rs : list Queries.network) (n : nat) :
  ForallOrdPairs (fun bp1 bp2 => Queries.sql_norm_bssid (fst bp1)
                                 <> Queries.sql_norm_bssid (fst bp2)) items ->
  snd (fold_left Queries.bulk_step items (rs, n))
  <= n + List.length
           (filter (fun row => existsb (fun bp => Queries.update_matches (fst bp) row)
                                 items) rs).
Proof.
  revert rs n. induction items as [|[b pwd] items IH]; intros rs n Hd.
  - cbn. lia.
  - inversion Hd as [|? ? Hb Hd']; subst. cbn [fst] in Hb.
    cbn [fold_left]. rewrite bulk_step_rows.
    destruct (negb (Py.truthy b) || negb (Py.truthy pwd)).
    + specialize (IH rs n Hd').
      pose proof (filter_length_impl
                    (fun row => existsb (fun bp => Queries.update_matches (fst bp) row)
                                  items)
                    (fun row => existsb (fun bp => Queries.update_matches (fst bp) row)
                                  ((b, pwd) :: items)) rs) as Hle.
      assert (Himp : forall x,
                 existsb (fun bp => Queries.update_matches (fst bp) x) items = true ->
                 existsb (fun bp => Queries.update_matches (fst bp) x)
                   ((b, pwd) :: items) = true).
      { intros x Hx. cbn [existsb]. rewrite Hx. apply orb_true_r. }
      specialize (Hle Himp). lia.
    + specialize (IH (map (fun row => if Queries.update_matches b row
                                      then Queries.set_password pwd row else row) rs)
                     (n + List.length (filter (Queries.update_matches b) rs)) Hd').
      pose proof (update_step_bound b pwd items rs Hb). lia.
Qed.

(** X16: a synchronisation run that succeeds had a key configured; it
    reports the pairs it downloaded (canonical addresses, each once,
    non-empty passwords) and their number; the table afterwards and the
    number of updated rows are those of the correlation update with these
    pairs; the table has as many rows as before; and the run never reports
    more updated rows than the table had rows without a password. *)
Theorem sync_now_report (wpasec_url wpasec_key : string) (net : Sync.network)
    (d d' : Queries.db) (st : Sync.stats) :
  Sync.sync_now wpasec_url wpasec_key net d = Py.Ok (d', st) ->
  wpasec_key <> ""
  /\ fst (Sync.download_cracked_potfile wpasec_url wpasec_key net)
     = Py.Ok (Sync.cracked_pairs st)
  /\ Sync.cracked_pairs_total st = List.length (Sync.cracked_pairs st)
  /\ Facts.tidy (Sync.cracked_pairs st)
  /\ Forall (fun bp => snd bp <> "") (Sync.cracked_pairs st)
  /\ Queries.bulk_update_passwords d (Sync.cracked_pairs st)
     = (d', Sync.rows_updated st)
  /\ Networks.st_total (Networks.stats d') = Networks.st_total (Networks.stats d)
  /\ Sync.rows_updated st <= Networks.st_uncracked (Networks.stats d).
Proof.
  unfold Sync.sync_now, Sync.sync_pairs.
  destruct (fst (Sync.download_cracked_potfile wpasec_url wpasec_key net))
    as [pairs|e] eqn:Hdl; [|discriminate].
  destruct (download_ok_tidy _ _ _ _ Hdl) as (Hkey & Htidy & Hpw).
  destruct (Queries.bulk_update_passwords d pairs) as [d1 n] eqn:Hup.
  intros E. injection E as <- <-. cbn [Sync.cracked_pairs Sync.cracked_pairs_total
                                         Sync.rows_updated].
  repeat (split; [auto; fail|]).
  unfold Queries.bulk_update_passwords in Hup.
  destruct pairs as [|item pairs].
  { injection Hup as <- <-. split; [reflexivity | lia]. }
  pose proof (fold_touched (item :: pairs) (item :: pairs) (Queries.rows d)
                (Queries.rows d) 0 (incl_refl _)
                (Forall2_touched_refl _ _)) as Ht.
  pose proof (fold_updated_bound (item :: pairs) (Queries.rows d) 0
                (tidy_distinct_norm _ Htidy)) as Hb.
  destruct (fold_left Queries.bulk_step (item :: pairs) (Queries.rows d, 0))
    as [rs k]. injection Hup as <- <-. cbn [fst snd] in *.
  unfold Networks.stats, Networks.count.
  cbn [Networks.st_total Networks.st_uncracked Queries.rows].
  split.
  - symmetry. exact (Forall2_length Ht).
  - etransitivity; [exact Hb|]. cbn [Nat.add].
    apply filter_length_impl. intros row Hex.
    apply existsb_exists in Hex as (bp & _ & Hm).
    unfold Queries.update_matches in Hm. apply andb_prop in Hm as [_ Hm].
    exact Hm.
Qed.

End SyncProps.

Lemma sync_now_report_witness :
  let d := Queries.mk_db
             [@Queries.mk_network RefLib.ref_lib 1 (Some "home") (Some "aa-bb-cc-dd-ee-ff")
                None (Some "2025-08-29") (Some "21:05:52") None None None None None None
                None] 1 in
  let net : Sync.network := fun _ _ => Some "AABBCCDDEEFF:112233445566:home:pw" in
  let st := Sync.mk_stats 1 1 [("AA:BB:CC:DD:EE:FF", "pw")] in
  Queries.bulk_update_passwords d (Sync.cracked_pairs st)
  = (Queries.mk_db [Queries.set_password "pw"
                      (@Queries.mk_network RefLib.ref_lib 1 (Some "home")
                         (Some "aa-bb-cc-dd-ee-ff") None (Some "2025-08-29")
                         (Some "21:05:52") None None None None None None None)] 1,
     Sync.rows_updated st)
  /\ Sync.rows_updated st <= Networks.st_uncracked (Networks.stats d).
Proof.
  intros d net st.
  destruct (sync_now_report (H := RefLib.ref_lib) "https://wpa-sec.stanev.org" "k" net d
              (Queries.mk_db [Queries.set_password "pw"
                                (@Queries.mk_network RefLib.ref_lib 1 (Some "home")
                                   (Some "aa-bb-cc-dd-ee-ff") None (Some "2025-08-29")
                                   (Some "21:05:52") None None None None None None
                                   None)] 1)
              st eq_refl)
    as (_ & _ & _ & _ & _ & Hup & _ & Hle).
  split; assumption.
Defined.

(** ** The vendor table, continued *)

Lemma oui_entry_dec (L : nat) (row : list string) (k : string) :
  Facts.oui_entry L row k (Py.strip (Py.field 1 row))
  \/ (forall v, ~ Facts.oui_entry L row k v).
Proof.
  unfold Facts.oui_entry.
  destruct (le_dec 2 (List.length row)); [|right; tauto].
  destruct (Py.startswith "#" (Py.field 0 row)); [right; intros v; intuition congruence|].
  destruct (string_dec k (Py.upper (Py.strip (Py.field 0 row)))); [|right; tauto].
  destruct (Nat.eq_dec (Py.len k) L); [|right; tauto].
  destruct (Py.sall Ingest.is_hex_upper k); [|right; intros v; intuition congruence].
  left. tauto.
Qed.

Lemma load_row_get (t : Ingest.oui_table) (row : list string) (L : nat) (k : string) :
  In L [6; 7; 9] ->
  (forall v, Facts.oui_entry L row k v ->
     Py.dict_get k (Ingest.map_by_len (Ingest.load_row t row) L) = Some v)
  /\ ((forall v, ~ Facts.oui_entry L row k v) ->
      Py.dict_get k (Ingest.map_by_len (Ingest.load_row t row) L)
      = Py.dict_get k (Ingest.map_by_len t L)).
Proof.
  intros HL.
  destruct row as [|r0 [|r1 rest]].
  - split; [intros v (Hlen & _); cbn in Hlen; lia | reflexivity].
  - split; [intros v (Hlen & _); cbn in Hlen; lia|].
    intros _. cbn [Ingest.load_row]. destruct (Py.startswith "#" r0); reflexivity.
  - unfold Facts.oui_entry. cbn [Py.field nth List.length].
    unfold Py.field. cbn [nth].
    unfold Ingest.load_row. cbn [List.length Py.field nth]. unfold Py.field. cbn [nth].
    change (S (S (List.length rest)) <? 2) with false. cbn iota.
    set (prefix := Py.upper (Py.strip r0)).
    set (vendor := Py.strip r1).
    destruct (Py.startswith "#" r0) eqn:Hc.
    { split; [intros v (_ & Hx & _); discriminate | reflexivity]. }
    destruct (Py.sall Ingest.is_hex_upper prefix) eqn:Hhex.
    2:{ split; [|reflexivity]. intros v (_ & _ & -> & _ & _ & Hx). congruence. }
    split.
    + intros v (_ & _ & -> & -> & Hlen & _).
      destruct HL as [<- | [<- | [<- | []]]]; rewrite Hlen; cbn;
        apply dict_get_set_same.
    + intros Hno.
      assert (Hne : Py.len prefix = L -> k <> prefix).
      { intros Hlen ->. apply (Hno vendor). repeat split; auto. lia. }
      destruct (Py.len prefix =? 6) eqn:E6.
      { apply Nat.eqb_eq in E6.
        destruct HL as [<- | [<- | [<- | []]]]; cbn; auto.
        apply dict_get_set_other. auto. }
      destruct (Py.len prefix =? 7) eqn:E7.
      { apply Nat.eqb_eq in E7.
        destruct HL as [<- | [<- | [<- | []]]]; cbn; auto.
        apply dict_get_set_other. auto. }
      destruct (Py.len prefix =? 9) eqn:E9; [|reflexivity].
      apply Nat.eqb_eq in E9.
      destruct HL as [<- | [<- | [<- | []]]]; cbn; auto.
      apply dict_get_set_other. auto.
Qed.

Lemma load_snoc (rows : list (list string)) (row : list string) :
  Ingest._load (rows ++ [row]) = Ingest.load_row (Ingest._load rows) row.
Proof. unfold Ingest._load. now rewrite fold_left_app. Qed.

Lemma load_get_iff (rows : list (list string)) (L : nat) (k v : string) :
  In L [6; 7; 9] ->
  Py.dict_get k (Ingest.map_by_len (Ingest._load rows) L) = Some v <->
  exists rows1 row rows2,
    rows = (rows1 ++ row :: rows2)%list
    /\ Facts.oui_entry L row k v
    /\ forall row' v', In row' rows2 -> ~ Facts.oui_entry L row' k v'.
Proof.
  intros HL. induction rows as [|x rows IH] using rev_ind.
  - split.
    + destruct HL as [<- | [<- | [<- | []]]]; discriminate.
    + intros (rows1 & row & rows2 & E & _). destruct rows1; discriminate.
  - rewrite load_snoc.
    destruct (load_row_get (Ingest._load rows) x L k HL) as [Hhit Hmiss].
    destruct (oui_entry_dec L x k) as [Hx | Hx].
    + rewrite (Hhit _ Hx). split.
      * intros E. injection E as <-. exists rows, x, [].
        split; [reflexivity|]. split; [exact Hx|]. intros ? ? [].
      * intros (rows1 & row & rows2 & E & Hrow & Hlast).
        destruct rows2 as [|y rows2] using rev_ind.
        -- apply app_inj_tail in E as [_ ->].
           destruct Hx as (_ & _ & _ & Hv & _). destruct Hrow as (_ & _ & _ & Hv' & _).
           congruence.
        -- clear IHrows2. change (rows1 ++ row :: rows2 ++ [y])%list
             with (rows1 ++ (row :: rows2) ++ [y])%list in E.
           rewrite app_assoc in E. apply app_inj_tail in E as [_ ->].
           exfalso. apply (Hlast y (Py.strip (Py.field 1 y))); [|exact Hx].
           apply in_or_app. right. now left.
    + rewrite (Hmiss Hx), IH. split.
      * intros (rows1 & row & rows2 & -> & Hrow & Hlast).
        exists rows1, row, (rows2 ++ [x])%list.
        split; [now rewrite <- app_assoc|]. split; [exact Hrow|].
        intros row' v' Hin. apply in_app_or in Hin as [Hin | [<- | []]]; eauto.
      * intros (rows1 & row & rows2 & E & Hrow & Hlast).
        destruct rows2 as [|y rows2] using rev_ind.
        -- apply app_inj_tail in E as [_ ->]. exfalso. exact (Hx _ Hrow).
        -- clear IHrows2. change (rows1 ++ row :: rows2 ++ [y])%list
             with (rows1 ++ (row :: rows2) ++ [y])%list in E.
           rewrite app_assoc in E. apply app_inj_tail in E as [-> ->].
           exists rows1, row, rows2.
           split; [reflexivity|]. split; [exact Hrow|].
           intros row' v' Hin. apply Hlast. apply in_or_app. now left.
Qed.

(** X17: after [OUILookup._load] the table of prefix length L (6, 7 or 9)
    maps a key to a vendor exactly when some CSV row is an entry for this
    key at this length and no later row is one: the last matching row
    wins; every stored key consists of L uppercase hex digits; comment
    rows, one-column rows and rows with another prefix length or a
    non-hex prefix leave no entry. *)
Theorem oui_load_last_row_wins (rows : list (list string)) (L : nat) (k v : string) :
  In L [6; 7; 9] ->
  (Py.dict_get k (Ingest.map_by_len (Ingest._load rows) L) = Some v <->
   exists rows1 row rows2,
     rows = (rows1 ++ row :: rows2)%list
     /\ Facts.oui_entry L row k v
     /\ forall row' v', In row' rows2 -> ~ Facts.oui_entry L row' k v')
  /\ (Py.dict_get k (Ingest.map_by_len (Ingest._load rows) L) = Some v ->
      Py.len k = L /\ Py.sall Ingest.is_hex_upper k = true)
  /\ ((forall row v', In row rows -> ~ Facts.oui_entry L row k v') ->
      Py.dict_get k (Ingest.map_by_len (Ingest._load rows) L) = None).
Proof.
  intros HL. split; [now apply load_get_iff|]. split.
  - intros Hget. apply (load_get_iff rows L k v HL) in Hget
      as (_ & row & _ & _ & Hrow & _).
    destruct Hrow as (_ & _ & _ & _ & Hlen & Hhex). auto.
  - intros Hno.
    destruct (Py.dict_get k (Ingest.map_by_len (Ingest._load rows) L)) as [v'|] eqn:Hget;
      [|reflexivity].
    apply (load_get_iff rows L k v' HL) in Hget as (rows1 & row & rows2 & -> & Hrow & _).
    exfalso. apply (Hno row v'); [|exact Hrow].
    apply in_or_app. right. now left.
Qed.

Lemma oui_load_last_row_wins_witness :
  Py.dict_get "AABBCC"
    (Ingest.map_by_len
       (Ingest._load [["aabbcc"; "Old name"]; ["# comment"; "x"]; [" AABBCC "; " Acme "];
                      ["AABBCCD"; "Other"]]) 6)
  = Some "Acme".
Proof.
  apply (oui_load_last_row_wins
           [["aabbcc"; "Old name"]; ["# comment"; "x"]; [" AABBCC "; " Acme "];
            ["AABBCCD"; "Other"]] 6 "AABBCC" "Acme").
  - cbn. auto.
  - exists [["aabbcc"; "Old name"]; ["# comment"; "x"]], [" AABBCC "; " Acme "],
      [["AABBCCD"; "Other"]].
    split; [reflexivity|]. split.
    + unfold Facts.oui_entry. cbn. repeat split; auto.
    + intros row' v' [<- | []] (_ & _ & Hk & _). vm_compute in Hk. discriminate.
Defined.

Lemma hit_entry (rows : list (list string)) (mac : string) (L : nat) (v : string) :
  In L [6; 7; 9] ->
  Spec.hit (Ingest._load rows) mac L = Some v ->
  v <> "" /\ exists row, In row rows /\ Facts.oui_entry L row (Ingest.prefix_of L mac) v.
Proof.
  intros HL. unfold Spec.hit.
  destruct (Py.dict_get _ _) as [v0|] eqn:Hget; [|discriminate].
  destruct (Py.truthy v0) eqn:Htr; [|discriminate].
  intros E. injection E as ->. split; [now apply truthy_true_iff|].
  apply (load_get_iff rows L _ v HL) in Hget as (rows1 & row & rows2 & -> & Hrow & _).
  exists row. split; [|exact Hrow]. apply in_or_app. right. now left.
Qed.

(** X18: a vendor that [lookup_vendor_from_csv] returns from a loaded CSV
    is never the empty string, the address cleaned of ':' and '-',
    stripped and upper-cased has exactly 12 hex digits, and some row of
    the CSV is an entry whose key is the first 9, 7 or 6 digits of that
    cleaned address and whose vendor column is the returned name. With no
    rows loaded (or no CSV file) the lookup returns [None] for every
    address. *)
Theorem lookup_vendor_from_csv_sound (rows : list (list string))
    (bssid : option string) (v : string) :
  Ingest.lookup_vendor_from_csv (Ingest._load []) bssid = None
  /\ (Ingest.lookup_vendor_from_csv (Ingest._load rows) bssid = Some v ->
      v <> ""
      /\ exists b row L,
           bssid = Some b
           /\ Py.len (Py.upper (Py.strip (Py.remove_char "-" (Py.remove_char ":" b))))
              = 12
           /\ Py.sall Ingest.is_hex_upper
                (Py.upper (Py.strip (Py.remove_char "-" (Py.remove_char ":" b)))) = true
           /\ In L [9; 7; 6] /\ In row rows
           /\ Facts.oui_entry L row
                (Ingest.prefix_of L
                   (Py.upper (Py.strip (Py.remove_char "-" (Py.remove_char ":" b))))) v).
Proof.
  split.
  { unfold Ingest.lookup_vendor_from_csv.
    destruct bssid as [b|]; [|reflexivity].
    destruct (Py.truthy b); cbn [negb]; [|reflexivity].
    destruct (_ || _); [reflexivity|].
    unfold Ingest.vendor_for_bssid.
    destruct (Py.truthy _); cbn [negb]; [|reflexivity].
    destruct (_ <? 9); reflexivity. }
  unfold Ingest.lookup_vendor_from_csv.
  destruct bssid as [b|]; [|discriminate].
  destruct (Py.truthy b); cbn [negb]; [|discriminate].
  set (cleaned := Py.upper (Py.strip (Py.remove_char "-" (Py.remove_char ":" b)))).
  destruct (Py.len cleaned =? 12) eqn:Hlen; cbn [negb orb]; [|discriminate].
  destruct (Py.sall Ingest.is_hex_upper cleaned) eqn:Hhex; cbn [negb]; [|discriminate].
  apply Nat.eqb_eq in Hlen.
  assert (Hmac : Py.sfilter Ingest.is_hex_upper (Py.upper cleaned) = cleaned).
  { unfold cleaned at 1. rewrite upper_idempotent. fold cleaned.
    now apply sfilter_all. }
  assert (Hvf : Ingest.vendor_for_bssid (Ingest._load rows) cleaned
                = Ingest.try_lengths (Ingest._load rows) cleaned [9; 7; 6]).
  { unfold Ingest.vendor_for_bssid. rewrite Hmac, Hlen.
    destruct cleaned; [discriminate Hlen | reflexivity]. }
  rewrite Hvf. intros Hv.
  rewrite try_lengths_hits in Hv.
  assert (Hcase : exists L, In L [9; 7; 6]
                            /\ Spec.hit (Ingest._load rows) cleaned L = Some v).
  { destruct (Spec.hit (Ingest._load rows) cleaned 9) eqn:H9.
    - exists 9. cbn. split; [auto | congruence].
    - destruct (Spec.hit (Ingest._load rows) cleaned 7) eqn:H7.
      + exists 7. cbn. split; [auto | congruence].
      + exists 6. cbn. split; [auto | congruence]. }
  destruct Hcase as (L & HL & Hhit).
  assert (HL' : In L [6; 7; 9]) by (cbn in *; intuition).
  destruct (hit_entry rows cleaned L v HL' Hhit) as (Hne & row & Hin & Hrow).
  split; [exact Hne|]. exists b, row, L. auto 7.
Qed.

Lemma lookup_vendor_from_csv_sound_witness :
  Ingest.lookup_vendor_from_csv (Ingest._load []) (Some "aa:bb:cc:dd:ee:ff") = None
  /\ "Acme" <> "".
Proof.
  destruct (lookup_vendor_from_csv_sound
              [["aabbcc"; "Acme"]; ["AABBCCDDE"; ""]] (Some "aa:bb:cc:dd:ee:ff") "Acme")
    as (Hnone & Hsound).
  split; [exact Hnone|]. exact (proj1 (Hsound eq_refl)).
Defined.

(** ** The second resolver ([vendors.py]) *)

Lemma insert_by_len_in (k x : string) (ks : list string) :
  In x (Vendors.insert_by_len k ks) <-> x = k \/ In x ks.
Proof.
  induction ks as [|k' r IH]; cbn [Vendors.insert_by_len].
  - cbn. intuition.
  - destruct (Py.len k' <=? Py.len k); cbn [In]; [intuition|].
    rewrite IH. intuition.
Qed.

Lemma sorted_by_len_in (x : string) (ks : list string) :
  In x (Vendors.sorted_by_len_desc ks) <-> In x ks.
Proof.
  unfold Vendors.sorted_by_len_desc. induction ks as [|k r IH]; cbn [fold_right].
  - reflexivity.
  - rewrite insert_by_len_in, IH. cbn. intuition.
Qed.

Lemma insert_by_len_sorted (k : string) (ks : list string) :
  StronglySorted Facts.longer_first ks ->
  StronglySorted Facts.longer_first (Vendors.insert_by_len k ks).
Proof.
  induction 1 as [|k' r Hr IH Hk']; cbn [Vendors.insert_by_len].
  - repeat constructor.
  - destruct (Py.len k' <=? Py.len k) eqn:E.
    + apply Nat.leb_le in E. constructor; [constructor; assumption|].
      constructor; [exact E|].
      revert Hk'. apply Forall_impl. unfold Facts.longer_first. intros y. lia.
    + apply Nat.leb_gt in E. constructor; [exact IH|].
      apply Forall_forall. intros y Hy. apply insert_by_len_in in Hy as [-> | Hy].
      * unfold Facts.longer_first. lia.
      * rewrite Forall_forall in Hk'. now apply Hk'.
Qed.

Lemma sorted_by_len_sorted (ks : list string) :
  StronglySorted Facts.longer_first (Vendors.sorted_by_len_desc ks).
Proof.
  unfold Vendors.sorted_by_len_desc. induction ks as [|k r IH]; cbn [fold_right].
  - constructor.
  - now apply insert_by_len_sorted.
Qed.

Lemma find_sorted_first {A} (R : A -> A -> Prop) (p : A -> bool) (l : list A) (k : A) :
  StronglySorted R l -> find p l = Some k ->
  In k l /\ p k = true /\ forall k', In k' l -> p k' = true -> k' = k \/ R k k'.
Proof.
  induction 1 as [|x r Hr IH Hx]; cbn [find]; [discriminate|].
  destruct (p x) eqn:Hp.
  - intros E. injection E as <-. split; [now left|]. split; [exact Hp|].
    intros k' [-> | Hin] _; [now left|]. right.
    rewrite Forall_forall in Hx. now apply Hx.
  - intros E. destruct (IH E) as (Hin & Hk & Hfirst).
    split; [now right|]. split; [exact Hk|].
    intros k' [<- | Hin'] Hk'; [congruence|]. now apply Hfirst.
Qed.

Lemma find_none_iff {A} (p : A -> bool) (l : list A) :
  find p l = None <-> forall x, In x l -> p x = false.
Proof.
  induction l as [|x r IH]; cbn [find].
  - split; [intros _ ? [] | reflexivity].
  - destruct (p x) eqn:Hp.
    + split; [discriminate|]. intros Hall. rewrite (Hall x (or_introl eq_refl)) in Hp.
      discriminate.
    + rewrite IH. split.
      * intros Hall y [<- | Hy]; auto.
      * intros Hall y Hy. apply Hall. now right.
Qed.

(** X19: [vendor_from_bssid] of [vendors.py], on the address cleaned of
    ':' and '-' and upper-cased, returns [None] exactly when no key of the
    loaded mapping is a prefix of it; otherwise it returns the vendor
    stored under a key that is a prefix and that no other matching key
    exceeds in length. *)
Theorem vendor_from_bssid_longest_key (rows : list (list string)) (bssid : string) :
  let mapping := fst (Vendors._load_vendors rows) in
  let base := Py.upper (Py.remove_char "-" (Py.remove_char ":" bssid)) in
  (Vendors.vendor_from_bssid (Vendors._load_vendors rows) bssid = None <->
   forall k, In k (map fst mapping) -> Py.startswith k base = false)
  /\ (forall v,
        Vendors.vendor_from_bssid (Vendors._load_vendors rows) bssid = Some v ->
        exists k,
          Py.dict_get k mapping = Some v
          /\ Py.startswith k base = true
          /\ forall k', In k' (map fst mapping) -> Py.startswith k' base = true ->
                        Py.len k' <= Py.len k).
Proof.
  unfold Vendors._load_vendors, Vendors.vendor_from_bssid. cbn [fst].
  set (mapping := fold_left Vendors.load_row rows []).
  set (base := Py.upper (Py.remove_char "-" (Py.remove_char ":" bssid))).
  cbn zeta.
  pose proof (sorted_by_len_sorted (map fst mapping)) as Hs.
  destruct (find (fun k => Py.startswith k base)
              (Vendors.sorted_by_len_desc (map fst mapping))) as [k|] eqn:Hf.
  - destruct (find_sorted_first _ _ _ _ Hs Hf) as (Hin & Hk & Hfirst).
    apply (proj1 (sorted_by_len_in _ _)) in Hin.
    split.
    + split.
      * intros Hn. apply dict_get_none_iff in Hn. exfalso. exact (Hn Hin).
      * intros Hall. rewrite (Hall k Hin) in Hk. discriminate.
    + intros v Hv. exists k. split; [exact Hv|]. split; [exact Hk|].
      intros k' Hin' Hk'. apply (proj2 (sorted_by_len_in _ _)) in Hin'.
      destruct (Hfirst k' Hin' Hk') as [-> | Hle]; [lia | exact Hle].
  - split; [|discriminate]. split; [|reflexivity].
    intros _ k Hin. apply (proj2 (sorted_by_len_in _ _)) in Hin.
    exact (proj1 (find_none_iff _ _) Hf k Hin).
Qed.

Lemma vendor_from_bssid_longest_key_witness :
  exists k,
    Py.dict_get k
      (fst (Vendors._load_vendors [["AA:BB:CC"; "Acme"]; ["aabbccd"; "Narrow"]]))
    = Some "Narrow"
    /\ Py.startswith k
         (Py.upper (Py.remove_char "-" (Py.remove_char ":" "aa:bb:cc:dd:ee:ff"))) = true
    /\ forall k',
         In k' (map fst (fst (Vendors._load_vendors
                                [["AA:BB:CC"; "Acme"]; ["aabbccd"; "Narrow"]]))) ->
         Py.startswith k'
           (Py.upper (Py.remove_char "-" (Py.remove_char ":" "aa:bb:cc:dd:ee:ff"))) = true ->
         Py.len k' <= Py.len k.
Proof.
  destruct (vendor_from_bssid_longest_key
              [["AA:BB:CC"; "Acme"]; ["aabbccd"; "Narrow"]] "aa:bb:cc:dd:ee:ff")
    as [_ Hsome].
  exact (Hsome "Narrow" eq_refl).
Defined.

(** ** The bearer-token check *)

Lemma lstrip_split (p : ascii -> bool) (x : string) :
  exists ws, x = ws ++ Py.lstrip_by p x /\ Py.sall p ws = true.
Proof.
  induction x as [|c r (ws & E & Hws)]; [now exists ""|].
  cbn [Py.lstrip_by]. destruct (p c) eqn:Hc.
  - exists (String c ws). cbn [append Py.sall]. rewrite Hc, Hws. split; [|reflexivity].
    now rewrite <- E.
  - now exists "".
Qed.

Lemma lstrip_app (p : ascii -> bool) (ws t : string) :
  Py.sall p ws = true -> Py.lstrip_by p (ws ++ t) = Py.lstrip_by p t.
Proof.
  induction ws as [|c r IH]; [reflexivity|]. cbn [Py.sall append Py.lstrip_by].
  intros H. apply andb_prop in H as [Hc Hr]. rewrite Hc. now apply IH.
Qed.

Lemma lstrip_idem (p : ascii -> bool) (x : string) :
  Py.lstrip_by p (Py.lstrip_by p x) = Py.lstrip_by p x.
Proof.
  induction x as [|c r IH]; [reflexivity|]. cbn [Py.lstrip_by].
  destruct (p c) eqn:Hc; [exact IH|]. cbn [Py.lstrip_by]. now rewrite Hc.
Qed.

Lemma lstrip_all (p : ascii -> bool) (x : string) :
  Py.lstrip_by p x = "" <-> Py.sall p x = true.
Proof.
  induction x as [|c r IH]; [cbn; tauto|]. cbn [Py.lstrip_by Py.sall].
  destruct (p c); cbn [andb]; [exact IH|]. split; discriminate.
Qed.

Lemma startswith_app (p s : string) :
  Py.startswith p s = true <-> exists x, s = p ++ x.
Proof.
  revert s. induction p as [|a p IH]; intros s; cbn [Py.startswith append].
  - split; [intros _; now exists s | reflexivity].
  - destruct s as [|b s].
    + split; [discriminate | intros (x & E); discriminate].
    + split.
      * intros H. apply andb_prop in H as [Hab Hs]. apply Ascii.eqb_eq in Hab.
        apply IH in Hs as (x & ->). exists x. now subst b.
      * intros (x & E). injection E as -> ->. rewrite Ascii.eqb_refl.
        apply IH. now exists x.
Qed.

Lemma append_cancel (p x y : string) : p ++ x = p ++ y -> x = y.
Proof.
  induction p as [|c p IH]; cbn [append]; [auto|].
  intros E. injection E as E. now apply IH.
Qed.

Lemma some_bearer (x y : string) :
  Some ("Bearer " ++ x) = Some ("Bearer " ++ y) -> x = y.
Proof. intros E. apply (append_cancel "Bearer "). congruence. Qed.

Lemma split_ws1_bearer (x : string) :
  Security.split_ws1 ("Bearer " ++ x) =
  if Py.truthy (Py.lstrip_by Py.is_space x)
  then ["Bearer"; Py.lstrip_by Py.is_space x] else ["Bearer"].
Proof. reflexivity. Qed.

(** X20: for an ASCII header, [require_admin] lets a request through
    exactly when a token is configured and the header is 'Bearer ', any
    further whitespace, and that token, which has to be non-empty and must
    not begin with whitespace; with no token configured nothing is let
    through. A header of whitespace only, and a header that is 'Bearer '
    followed by whitespace only, end in [IndexError] instead of a 401; every
    other refusal is an [HTTPException] 401 or 403. *)
Theorem require_admin_grants_iff (auth_token authorization : option string) :
  (forall a, authorization = Some a -> Facts.is_ascii_text a = true) ->
  (Security.require_admin auth_token authorization = Security.Returns true <->
   exists t ws,
     auth_token = Some t /\ authorization = Some ("Bearer " ++ ws ++ t)
     /\ Py.sall Py.is_space ws = true /\ t <> "" /\ Py.lstrip_by Py.is_space t = t)
  /\ (Security.require_admin auth_token authorization = Security.RaisesIndexError <->
      exists a,
        authorization = Some a /\ a <> ""
        /\ (Py.sall Py.is_space a = true
            \/ exists ws, a = "Bearer " ++ ws /\ Py.sall Py.is_space ws = true))
  /\ (forall e,
        Security.require_admin auth_token authorization = Security.Raises e ->
        exists detail, e = Py.HTTPException 401 detail \/ e = Py.HTTPException 403 detail)
  /\ Security.require_admin auth_token authorization <> Security.Returns false.
Proof.
  intros _.
  assert (Hgrant_shape : forall t ws a,
             authorization = Some ("Bearer " ++ ws ++ t) -> authorization = Some a ->
             Py.startswith "Bearer " a = true).
  { intros t ws a E1 E2. apply startswith_app. exists (ws ++ t). congruence. }
  unfold Security.require_admin.
  destruct authorization as [a|].
  { destruct a as [|c a'].
    - cbn [Py.truthy negb].
      split; [|split; [|split]].
      + split; [discriminate|]. intros (t & ws & _ & E & _). discriminate.
      + split; [discriminate|]. intros (a & E & Hne & _). congruence.
      + intros e E. injection E as <-. eauto.
      + discriminate.
    - cbn [Py.truthy negb]. set (a := String c a') in *.
      destruct (Py.startswith "Bearer " a) eqn:Hsw; cbn [negb].
      + apply startswith_app in Hsw as (x & Hx). rewrite Hx, split_ws1_bearer.
        destruct (lstrip_split Py.is_space x) as (ws & Ews & Hws).
        destruct (Py.truthy (Py.lstrip_by Py.is_space x)) eqn:Htr; cbn [nth_error].
        * assert (Hne : Py.lstrip_by Py.is_space x <> "") by now apply truthy_true_iff.
          split; [|split; [|split]].
          -- split.
             ++ destruct auth_token as [t|]; cbn [Security.token_differs]; [|discriminate].
                destruct (String.eqb (Py.lstrip_by Py.is_space x) t) eqn:E;
                  cbn [negb]; [|discriminate].
                apply String.eqb_eq in E. intros _. exists t, ws. subst t.
                split; [reflexivity|]. split; [now rewrite <- Ews|].
                split; [exact Hws|]. split; [exact Hne|]. apply lstrip_idem.
             ++ intros (t & ws' & -> & E & Hws' & Ht & Hlt).
                apply some_bearer in E. subst x.
                rewrite (lstrip_app _ ws' t Hws'), Hlt. cbn [Security.token_differs].
                now rewrite String.eqb_refl.
          -- split.
             ++ destruct (Security.token_differs _ _); discriminate.
             ++ intros (a0 & E & _ & [Hsp | (ws' & E' & Hws')]).
                ** assert (E0 : a0 = "Bearer " ++ x) by congruence. subst a0.
                   discriminate Hsp.
                ** assert (E0 : Some ("Bearer " ++ x) = Some ("Bearer " ++ ws'))
                     by congruence.
                   apply some_bearer in E0. subst x. apply lstrip_all in Hws'.
                   congruence.
          -- destruct (Security.token_differs _ _); intros e E; [|discriminate].
             injection E as <-. eauto.
          -- destruct (Security.token_differs _ _); discriminate.
        * apply truthy_false_iff in Htr.
          split; [|split; [|split]].
          -- split; [discriminate|].
             intros (t & ws' & -> & E & Hws' & Ht & Hlt).
             apply some_bearer in E. subst x.
             rewrite (lstrip_app _ ws' t Hws'), Hlt in Htr. contradiction.
          -- split; [|reflexivity]. intros _. exists ("Bearer " ++ x).
             split; [reflexivity|]. split; [discriminate|].
             right. exists x. split; [reflexivity|]. now apply lstrip_all.
          -- discriminate.
          -- discriminate.
      + unfold Security.first_word.
        destruct (Py.truthy (Py.lstrip_by Py.is_space a)) eqn:Htr.
        * split; [|split; [|split]].
          -- split; [discriminate|]. intros (t & ws & _ & E & _).
             rewrite (Hgrant_shape t ws a E eq_refl) in Hsw. discriminate.
          -- split; [discriminate|].
             intros (a0 & E & _ & [Hsp | (ws' & E' & Hws')]).
             ++ assert (E0 : a0 = a) by congruence. subst a0. apply lstrip_all in Hsp.
                apply truthy_true_iff in Htr. contradiction.
             ++ assert (Hc : Py.startswith "Bearer " a = true).
                { apply startswith_app. exists ws'. congruence. }
                congruence.
          -- intros e E. injection E as <-. eauto.
          -- discriminate.
        * apply truthy_false_iff in Htr. apply lstrip_all in Htr.
          split; [|split; [|split]].
          -- split; [discriminate|]. intros (t & ws & _ & E & _).
             rewrite (Hgrant_shape t ws a E eq_refl) in Hsw. discriminate.
          -- split; [|reflexivity]. intros _. exists a.
             split; [reflexivity|]. split; [discriminate|]. now left.
          -- discriminate.
          -- discriminate. }
  split; [|split; [|split]].
  - split; [discriminate|]. intros (t & ws & _ & E & _). discriminate.
  - split; [discriminate|]. intros (a & E & _). discriminate.
  - intros e E. injection E as <-. eauto.
  - discriminate.
Qed.

Lemma require_admin_grants_iff_witness :
  Security.require_admin (Some "s3cret") (Some "Bearer   s3cret") = Security.Returns true
  /\ Security.require_admin (Some "s3cret") (Some "Bearer ") = Security.RaisesIndexError
  /\ Security.require_admin None (Some "Bearer None") <> Security.Returns true.
Proof.
  destruct (require_admin_grants_iff (Some "s3cret") (Some "Bearer   s3cret"))
    as (Hgrant & _).
  { intros a E. injection E as <-. reflexivity. }
  destruct (require_admin_grants_iff (Some "s3cret") (Some "Bearer "))
    as (_ & Hix & _).
  { intros a E. injection E as <-. reflexivity. }
  destruct (require_admin_grants_iff None (Some "Bearer None")) as (Hnone & _).
  { intros a E. injection E as <-. reflexivity. }
  split; [|split].
  - apply Hgrant. exists "s3cret", "  ". repeat split; discriminate.
  - apply Hix. exists "Bearer ". repeat split; [discriminate|].
    right. now exists "".
  - intros Hg. apply Hnone in Hg as (t & ws & E & _). discriminate.
Defined.

(** ** Addresses between upload and correlation *)

Lemma upper_char_fixed_hex (c : ascii) :
  Ingest.is_hex_any c = true -> Py.upper_char c = c ->
  WpasecSync.is_hex_upper c = true.
Proof. destruct c as [[] [] [] [] [] [] [] []]; vm_compute; congruence. Qed.

Lemma upper_char_idem (c : ascii) : Py.upper_char (Py.upper_char c) = Py.upper_char c.
Proof. destruct c as [[] [] [] [] [] [] [] []]; reflexivity. Qed.

Lemma sep_not_dash (c : ascii) :
  Py.char_in ":-" c = true -> Ascii.eqb c "-" = false -> Ascii.eqb c ":" = true.
Proof. destruct c as [[] [] [] [] [] [] [] []]; vm_compute; congruence. Qed.

Lemma replaced_upper_chars (s : string) :
  Py.sall (fun c => Ascii.eqb (Py.upper_char c) c && negb (Ascii.eqb c "-"))
    (Py.replace_char "-" ":" (Py.upper s)) = true.
Proof.
  unfold Py.upper. induction s as [|c r IH]; [reflexivity|].
  cbn [Py.smap Py.replace_char].
  destruct (Ascii.eqb (Py.upper_char c) "-") eqn:E.
  - cbn [append Py.sall]. rewrite IH. reflexivity.
  - cbn [Py.sall]. rewrite upper_char_idem, Ascii.eqb_refl, E, IH. reflexivity.
Qed.

Lemma bssid_re_canonical (n : nat) (s : string) :
  Py.sall (fun c => Ascii.eqb (Py.upper_char c) c && negb (Ascii.eqb c "-")) s = true ->
  Upload.bssid_re n s = true ->
  WpasecSync.mac_groups WpasecSync.is_hex_upper n s = true.
Proof.
  revert s. induction n as [|n IH]; intros s; [discriminate|].
  destruct s as [|a [|b r]]; try discriminate.
  cbn [WpasecSync.mac_groups Upload.bssid_re Py.sall].
  intros Hall H.
  apply andb_prop in Hall as [Ha Hall]. apply andb_prop in Hall as [Hb Hall].
  apply andb_prop in Ha as [Ha _]. apply andb_prop in Hb as [Hb _].
  apply Ascii.eqb_eq in Ha, Hb.
  apply andb_prop in H as [Hab H]. apply andb_prop in Hab as [Hxa Hxb].
  rewrite (upper_char_fixed_hex a Hxa Ha), (upper_char_fixed_hex b Hxb Hb).
  cbn [andb].
  destruct n as [|n'].
  - destruct r; [reflexivity | discriminate].
  - destruct r as [|c r']; [discriminate|].
    cbn [Py.sall] in Hall. apply andb_prop in Hall as [Hc Hall].
    apply andb_prop in Hc as [_ Hc]. apply negb_true_iff in Hc.
    apply andb_prop in H as [Hsep H].
    rewrite (sep_not_dash c Hsep Hc). cbn [andb]. now apply IH.
Qed.


Section AddressProps.
Context `{Py.Lib}.

(** X21: whatever [norm_bssid] returns is a canonical address (six
    uppercase hex pairs joined by colons), which the deduplicator of the
    downloaded pairs accepts and which a second normalisation leaves as it
    is; and the correlation update matches a row that stores such an
    address and has no password with a canonical address of a downloaded
    pair exactly when the two addresses are equal. *)
Theorem norm_bssid_output (x : option string) (y : string) :
  Upload.norm_bssid x = Some y ->
  Spec.canonical_mac y = true
  /\ WpasecSync._is_valid_bssid y = true
  /\ Upload.norm_bssid (Some y) = Some y
  /\ forall (row : Queries.network) (b : string),
       Spec.canonical_mac b = true ->
       Queries.bssid row = Some y ->
       Queries.password_blank (Queries.password row) = true ->
       (Queries.update_matches b row = true <-> y = b).
Proof.
  unfold Upload.norm_bssid. destruct x as [x|]; [|discriminate].
  destruct (Py.truthy x); cbn [negb]; [|discriminate].
  destruct (Upload.bssid_re 6 _) eqn:Hre; [|discriminate].
  intros E. injection E as <-.
  set (y := Py.replace_char "-" ":" (Py.upper (Py.strip x))) in *.
  assert (Hc : Spec.canonical_mac y = true).
  { apply bssid_re_canonical; [apply replaced_upper_chars | exact Hre]. }
  split; [exact Hc|]. split; [now apply canonical_is_valid|].
  split; [now apply norm_bssid_canonical|].
  intros row b Hb Hrow Hblank. unfold Queries.update_matches.
  rewrite Hrow, Hblank, andb_true_r, String.eqb_eq.
  rewrite (canonical_sql_norm y Hc), (canonical_sql_norm b Hb).
  split; [apply (remove_colon_inj 6 y b Hc Hb) | now intros ->].
Qed.

End AddressProps.

Lemma norm_bssid_output_witness :
  Spec.canonical_mac "AA:BB:CC:DD:EE:0F" = true
  /\ Upload.norm_bssid (Some "AA:BB:CC:DD:EE:0F") = Some "AA:BB:CC:DD:EE:0F".
Proof.
  destruct (norm_bssid_output (H := RefLib.ref_lib) (Some " aa-bb-cc-dd-ee-0f ")
              "AA:BB:CC:DD:EE:0F" eq_refl) as (Hc & _ & Hi & _).
  split; assumption.
Defined.

(** ** What an upload stores *)


Section StoreProps.
Context `{Py.Lib}.




End StoreProps.

